(** * genEM3.data.wkwdata: indexing, caching and partitioning of wkw windows

    A shallow embedding of [genEM3/data/wkwdata.py] (class [WkwData] and the
    [DataSource] / [DataSplit] named tuples), followed by the properties of
    the coordinate grids, the global index ranges, the split planner, the
    two-tier cache, the sample assembler and the short descriptor form.

    Conventions of the embedding:
    - Python integers are [Z]; Python floats are IEEE binary64 values held as
      [spec_float] and computed with the operations of [SpecFloat];
    - a raised exception is the [Raise] case of [result];
    - numpy arrays of voxels are nested lists, channel first; the coordinate
      meshes carry their shape next to the row-major data, since a mesh may
      have a zero-sized axis;
    - the volumetric store (the [wkw] library), the file system below the
      cache root and the random generator are part of an explicit [World]. *)

From Stdlib Require Import ZArith Bool Ascii String.
From Stdlib Require Import Floats.SpecFloat.
From Stdlib Require Import DecimalString.
From Stdlib Require DecimalZ DecimalPos.
From Stdlib Require Import Sorting.Permutation.
From stdpp Require Import base tactics option list gmap strings.

Local Open Scope string_scope.
Local Open Scope list_scope.
Local Open Scope Z_scope.

#[local] Set Warnings "-register-all".

(** ** Exceptions and results *)

Inductive exn : Type :=
| IndexError
| KeyError
| ValueError
| TypeError
| AssertionError
| OverflowError
| WKWException
| FileNotFoundError
| Exception (msg : string)
| Unsupported.

Inductive result (A : Type) : Type :=
| Ok (a : A)
| Raise (e : exn).
Arguments Ok {A} a.
Arguments Raise {A} e.

#[global] Instance result_ret : MRet result := fun A a => Ok a.
#[global] Instance result_bind : MBind result :=
  fun A B f m => match m with Ok a => f a | Raise e => Raise e end.
#[global] Instance result_fmap : FMap result :=
  fun A B f m => match m with Ok a => Ok (f a) | Raise e => Raise e end.

Definition is_Ok {A} (r : result A) : bool :=
  match r with Ok _ => true | Raise _ => false end.

(** [for x in l: ...] with a body that may raise, collecting the values. *)
Fixpoint mapR {A B} (f : A -> result B) (l : list A) : result (list B) :=
  match l with
  | [] => Ok []
  | a :: l' => b ← f a; bs ← mapR f l'; Ok (b :: bs)
  end.

(** A loop threading an accumulator through a body that may raise. *)
Fixpoint foldR {A S} (f : S -> A -> result S) (l : list A) (s : S) : result S :=
  match l with
  | [] => Ok s
  | a :: l' => s' ← f s a; foldR f l' s'
  end.

(** ** Python values held by the descriptor fields *)

(** The values a [DataSource] field holds: what a JSON descriptor can carry,
    and the class object [str], which is the default of the [id] field. *)
Inductive pyval : Type :=
| PNone
| PBool (b : bool)
| PInt (n : Z)
| PFloat (f : spec_float)
| PStr (s : string)
| PList (l : list pyval)
| PClassStr.

Definition prec64 : Z := 53.
Definition emax64 : Z := 1024.

(** [float(n)] for an integer in the binary64 range. *)
Definition float_of_Z (n : Z) : spec_float := binary_normalize prec64 emax64 n 0 false.

(** [n == f] for an integer and a float: Python compares the exact values. *)
Definition int_eq_float (n : Z) (f : spec_float) : bool :=
  match f with
  | S754_zero _ => n =? 0
  | S754_finite s m e =>
      let v := if s then Z.neg m else Z.pos m in
      if 0 <=? e then n =? v * 2 ^ e else n * 2 ^ (- e) =? v
  | _ => false
  end.

Inductive pynum : Type := NInt (n : Z) | NFloat (f : spec_float).

Definition py_num (v : pyval) : option pynum :=
  match v with
  | PBool b => Some (NInt (if b then 1 else 0))
  | PInt n => Some (NInt n)
  | PFloat f => Some (NFloat f)
  | _ => None
  end.

Definition num_eq (a b : pynum) : bool :=
  match a, b with
  | NInt m, NInt n => m =? n
  | NFloat f, NFloat g => SFeqb f g
  | NInt m, NFloat g => int_eq_float m g
  | NFloat f, NInt n => int_eq_float n f
  end.

(** Python's [a == b] on these values (lists compare element by element; the
    identity shortcut of list comparison is not modelled, it only matters for
    a NaN shared by two lists). *)
Fixpoint py_eq (a b : pyval) : bool :=
  match a, b with
  | PNone, PNone => true
  | PClassStr, PClassStr => true
  | PStr s, PStr t => String.eqb s t
  | PList l, PList m =>
      (fix go (l m : list pyval) : bool :=
         match l, m with
         | [], [] => true
         | x :: l', y :: m' => py_eq x y && go l' m'
         | _, _ => false
         end) l m
  | _, _ =>
      match py_num a, py_num b with
      | Some x, Some y => num_eq x y
      | _, _ => false
      end
  end.

(** ** The DataSource named tuple *)

Record DataSource : Type := mkDataSource {
  id : pyval;
  input_path : pyval;
  input_bbox : pyval;
  input_mean : pyval;
  input_std : pyval;
  target_path : pyval;
  target_bbox : pyval;
  target_class : pyval;
  target_binary : pyval
}.

(** [DataSource._fields] *)
Definition DataSource_fields : list string :=
  ["id"; "input_path"; "input_bbox"; "input_mean"; "input_std";
   "target_path"; "target_bbox"; "target_class"; "target_binary"].

(** The defaults of [DataSourceDefaults]: the class [str] for [id], the string
    ['NaN'] for every other field. *)
Definition DataSource_defaults : list pyval :=
  [PClassStr; PStr "NaN"; PStr "NaN"; PStr "NaN"; PStr "NaN";
   PStr "NaN"; PStr "NaN"; PStr "NaN"; PStr "NaN"].

(** The tuple view of a data source, [tuple(d)]. *)
Definition DataSource_values (d : DataSource) : list pyval :=
  [id d; input_path d; input_bbox d; input_mean d; input_std d;
   target_path d; target_bbox d; target_class d; target_binary d].

(** The three alternatives of a [DataSplit] field: a float fraction, or a list
    of data source ids. *)
Inductive split_spec : Type :=
| Fraction (f : spec_float)
| Strata (ids : list pyval).

Record DataSplit : Type := mkDataSplit {
  train : split_spec;
  validation : split_spec;
  test : split_spec
}.

(** ** Typed views of descriptor fields

    A path is used as a string and a bounding box as a list of at least six
    integers (origin, then extent). A field holding anything else is outside
    the modelled domain: the view answers [Unsupported]. *)

Definition as_str (v : pyval) : result string :=
  match v with PStr s => Ok s | _ => Raise Unsupported end.

Definition as_int (v : pyval) : result Z :=
  match v with PInt n => Ok n | _ => Raise Unsupported end.

Definition as_ints (v : pyval) : result (list Z) :=
  match v with PList l => mapR as_int l | _ => Raise Unsupported end.

Definition as_float (v : pyval) : result spec_float :=
  match v with PFloat f => Ok f | _ => Raise Unsupported end.

Definition py_ints (l : list Z) : pyval := PList (PInt <$> l).

Definition vec3 : Type := Z * Z * Z.

(** [bbox[0:3]] and [bbox[3:6]] *)
Definition bbox_origin (b : list Z) : result vec3 :=
  match b with
  | x :: y :: z :: _ :: _ :: _ :: _ => Ok (x, y, z)
  | _ => Raise Unsupported
  end.

Definition bbox_extent (b : list Z) : result vec3 :=
  match b with
  | _ :: _ :: _ :: ex :: ey :: ez :: _ => Ok (ex, ey, ez)
  | _ => Raise Unsupported
  end.

(** ** Python and numpy primitives *)

(** [l[i]] with Python's negative indices. *)
Definition py_index {A} (l : list A) (i : Z) : result A :=
  let n := Z.of_nat (length l) in
  let j := if i <? 0 then i + n else i in
  if (0 <=? j) && (j <? n) then
    match l !! Z.to_nat j with Some a => Ok a | None => Raise IndexError end
  else Raise IndexError.

(** The bound of a slice [l[a:b]] clipped the way Python does. *)
Definition slice_bound (n i : Z) : Z :=
  if i <? 0 then Z.max (i + n) 0 else Z.min i n.

(** [l[a:b]] *)
Definition py_slice {A} (a b : Z) (l : list A) : list A :=
  let n := Z.of_nat (length l) in
  let lo := slice_bound n a in
  let hi := slice_bound n b in
  take (Z.to_nat (hi - lo)) (drop (Z.to_nat lo) l).

(** [np.arange(start, stop, step)] on integers, [step] not zero. *)
Definition np_arange (start stop step : Z) : list Z :=
  (fun i => start + i * step) <$> seqZ 0 (- ((- (stop - start)) `div` step)).

(** A three-dimensional integer array: its shape and its row-major data. *)
Record ndarray3 : Type := mkArr3 {
  shape : nat * nat * nat;
  flat : list Z
}.

(** [a.size] *)
Definition np_size (a : ndarray3) : Z :=
  let '(n0, n1, n2) := shape a in Z.of_nat n0 * Z.of_nat n1 * Z.of_nat n2.

(** [a[i0, i1, i2]] for indices inside the shape. *)
Definition item (a : ndarray3) (i : Z * Z * Z) : result Z :=
  let '(n0, n1, n2) := shape a in
  let '(i0, i1, i2) := i in
  if (0 <=? i0) && (i0 <? Z.of_nat n0) && (0 <=? i1) && (i1 <? Z.of_nat n1)
     && (0 <=? i2) && (i2 <? Z.of_nat n2) then
    py_index (flat a) ((i0 * Z.of_nat n1 + i1) * Z.of_nat n2 + i2)
  else Raise IndexError.

(** [np.meshgrid(x, y, z)] with the default ['xy'] indexing: the three arrays
    have shape [(len(y), len(x), len(z))], and [xm[i, j, k] = x[j]],
    [ym[i, j, k] = y[i]], [zm[i, j, k] = z[k]]. *)
Definition np_meshgrid (x y z : list Z) : ndarray3 * ndarray3 * ndarray3 :=
  let sh := (length y, length x, length z) in
  (mkArr3 sh (_ ← y; xv ← x; _ ← z; [xv]),
   mkArr3 sh (yv ← y; _ ← x; _ ← z; [yv]),
   mkArr3 sh (_ ← y; _ ← x; zv ← z; [zv])).

(** [np.unravel_index(i, dims)] in C order; an index outside the array is a
    [ValueError]. *)
Definition np_unravel_index (i : Z) (dims : nat * nat * nat) : result (Z * Z * Z) :=
  let '(n0, n1, n2) := dims in
  let n1 := Z.of_nat n1 in
  let n2 := Z.of_nat n2 in
  if (0 <=? i) && (i <? Z.of_nat n0 * n1 * n2) then
    Ok (i `div` (n1 * n2), (i `div` n2) `mod` n1, i `mod` n2)
  else Raise ValueError.

(** The flat position of a cell, [np.ravel_multi_index] in C order. *)
Definition ravel_index (c : Z * Z * Z) (dims : nat * nat * nat) : Z :=
  let '(n0, n1, n2) := dims in
  let '(i0, i1, i2) := c in
  (i0 * Z.of_nat n1 + i1) * Z.of_nat n2 + i2.

(** [int(np.argmax(a >= v))]: the first position holding a value at least [v],
    0 when there is none. An empty array is a [ValueError]. *)
Fixpoint first_ge (a : list Z) (v : Z) : option nat :=
  match a with
  | [] => None
  | m :: a' => if v <=? m then Some 0%nat else S <$> first_ge a' v
  end.

Definition argmax_ge (a : list Z) (v : Z) : result nat :=
  match a with
  | [] => Raise ValueError
  | _ => Ok (default 0%nat (first_ge a v))
  end.


(** [l.index(v)] on strings. *)
Fixpoint str_index (l : list string) (v : string) : result nat :=
  match l with
  | [] => Raise ValueError
  | s :: l' => if String.eqb s v then Ok 0%nat else S <$> str_index l' v
  end.

(** [l.index(v)] with Python's [==]. *)
Fixpoint py_list_index (l : list pyval) (v : pyval) : result nat :=
  match l with
  | [] => Raise ValueError
  | a :: l' => if py_eq a v then Ok 0%nat else S <$> py_list_index l' v
  end.

(** [str(n)] for an integer. *)
Definition str_of_Z (n : Z) : string := NilZero.string_of_int (Z.to_int n).

(** [', '.join(l)] *)
Fixpoint join_comma (l : list string) : string :=
  match l with
  | [] => ""
  | [s] => s
  | s :: l' => (s ++ ", " ++ join_comma l')%string
  end.

(** [str(bbox)] for a list of integers, the key of the memory cache. *)
Definition str_of_ints (l : list Z) : string :=
  ("[" ++ join_comma (str_of_Z <$> l) ++ "]")%string.

(** [s[1::]] *)
Definition str_tail (s : string) : string :=
  match s with EmptyString => "" | String _ s' => s' end.

(** [s.endswith('/')] and [s.startswith('/')] *)
Fixpoint ends_with_slash (s : string) : bool :=
  match s with
  | EmptyString => false
  | String c EmptyString => Ascii.eqb c "/"
  | String _ s' => ends_with_slash s'
  end.

Definition starts_with_slash (s : string) : bool :=
  match s with String c _ => Ascii.eqb c "/" | EmptyString => false end.

(** [os.path.join(a, b)] of [posixpath]. *)
Definition os_path_join (a b : string) : string :=
  if starts_with_slash b then b
  else if String.eqb a "" || ends_with_slash a then (a ++ b)%string
  else (a ++ "/" ++ b)%string.

(** [int(f)] for a float: truncation toward zero. *)
Definition py_int_of_float (f : spec_float) : result Z :=
  match f with
  | S754_zero _ => Ok 0
  | S754_finite s m e =>
      let v := if 0 <=? e then Z.pos m * 2 ^ e else Z.pos m `div` 2 ^ (- e) in
      Ok (if s then - v else v)
  | S754_infinity _ => Raise OverflowError
  | S754_nan => Raise ValueError
  end.

(** [len(set(l))] *)
Definition len_set (l : list Z) : Z := Z.of_nat (length (remove_dups l)).

(** [list(set(a) - set(b))]; the order of the answer is not specified by
    Python, the callers use it only through its length and when it has one
    element. *)
Definition set_difference (a b : list Z) : list Z :=
  remove_dups (filter (fun i => i ∉ b) a).

(** ** Voxel arrays *)

Abbreviation arr3 A := (list (list (list A))).
Abbreviation arr4 A := (list (list (list (list A)))).

(** The ranks of arrays the sample assembler handles: a scalar or a vector
    (class labels), a squeezed window and a full window, channel first. *)
Inductive array (A : Type) : Type :=
| Arr0 (a : A)
| Arr1 (l : list A)
| Arr3 (l : arr3 A)
| Arr4 (l : arr4 A).
Arguments Arr0 {A} a.
Arguments Arr1 {A} l.
Arguments Arr3 {A} l.
Arguments Arr4 {A} l.

Definition map3 {A B} (f : A -> B) (l : arr3 A) : arr3 B :=
  (fun p : list (list A) => (fun r : list A => f <$> r) <$> p) <$> l.

Definition map4 {A B} (f : A -> B) (l : arr4 A) : arr4 B :=
  map3 f <$> l.

Definition array_map {A B} (f : A -> B) (a : array A) : array B :=
  match a with
  | Arr0 x => Arr0 (f x)
  | Arr1 l => Arr1 (f <$> l)
  | Arr3 l => Arr3 (map3 f l)
  | Arr4 l => Arr4 (map4 f l)
  end.

(** [data[:, i, :, :]], [data[:, :, i, :]] and [data[:, :, :, i]] *)
Definition face_axis1 {A} (data : arr4 A) (i : Z) : result (arr3 A) :=
  mapR (fun c => py_index c i) data.

Definition face_axis2 {A} (data : arr4 A) (i : Z) : result (arr3 A) :=
  mapR (mapR (fun p => py_index p i)) data.

Definition face_axis3 {A} (data : arr4 A) (i : Z) : result (arr3 A) :=
  mapR (mapR (mapR (fun r => py_index r i))) data.

(** [np.any(a)] on an integer array. *)
Definition np_any (a : arr3 Z) : bool :=
  existsb (existsb (existsb (fun v => negb (v =? 0)))) a.

(** [data[:, a0:b0, a1:b1, a2:b2]] *)
Definition slice4 {A} (data : arr4 A) (a0 b0 a1 b1 a2 b2 : Z) : arr4 A :=
  (fun c : arr3 A =>
     (fun p : list (list A) => py_slice a2 b2 <$> py_slice a1 b1 p) <$> py_slice a0 b0 c)
  <$> data.

(** ** The volumetric store and the world around the dataset *)

(** A wkw dataset: its voxel type and one channel of voxels, zero where
    nothing was written. *)
Record Dataset : Type := mkDataset {
  voxel_type : string;
  voxels : Z -> Z -> Z -> Z
}.

Record World : Type := mkWorld {
  datasets : gmap string Dataset;   (* paths holding a header.wkw *)
  dirs : gset string;               (* directories that exist *)
  reads : list (string * list Z);   (* the reads served by the store, latest first *)
  rng : nat                         (* state of the random generator *)
}.

Definition set_datasets (w : World) (ds : gmap string Dataset) : World :=
  mkWorld ds (dirs w) (reads w) (rng w).
Definition set_dirs (w : World) (d : gset string) : World :=
  mkWorld (datasets w) d (reads w) (rng w).
Definition log_read (w : World) (p : string) (b : list Z) : World :=
  mkWorld (datasets w) (dirs w) ((p, b) :: reads w) (rng w).
Definition set_rng (w : World) (g : nat) : World :=
  mkWorld (datasets w) (dirs w) (reads w) g.

(** The cube of voxels of a dataset over a box, one channel. *)
Definition cube (d : Dataset) (o e : vec3) : arr4 Z :=
  let '(ox, oy, oz) := o in
  let '(ex, ey, ez) := e in
  [ (fun x : Z => (fun y : Z => (fun z : Z => voxels d x y z) <$> seqZ oz ez) <$> seqZ oy ey)
    <$> seqZ ox ex ].

(** [WkwData.wkw_read]: opens the dataset and reads [bbox[3:6]] voxels at
    [bbox[0:3]]. A negative extent is outside the modelled domain. *)
Definition wkw_read (w : World) (wkw_path : string) (wkw_bbox : list Z)
  : result (arr4 Z * World) :=
  match datasets w !! wkw_path with
  | None => Raise WKWException
  | Some d =>
      o ← bbox_origin wkw_bbox;
      e ← bbox_extent wkw_bbox;
      let '(ex, ey, ez) := e in
      if (ex <? 0) || (ey <? 0) || (ez <? 0) then Raise Unsupported
      else Ok (cube d o e, log_read w wkw_path wkw_bbox)
  end.

(** The voxel written at a position by [w.write(off, data)], if any. *)
Definition written (data : arr4 Z) (o : vec3) (x y z : Z) : option Z :=
  let '(ox, oy, oz) := o in
  if (ox <=? x) && (oy <=? y) && (oz <=? z) then
    c ← data !! 0%nat;
    p ← c !! Z.to_nat (x - ox);
    r ← p !! Z.to_nat (y - oy);
    r !! Z.to_nat (z - oz)
  else None.

(** [WkwData.wkw_write] *)
Definition wkw_write (w : World) (wkw_path : string) (wkw_bbox : list Z) (data : arr4 Z)
  : result World :=
  match datasets w !! wkw_path with
  | None => Raise WKWException
  | Some d =>
      o ← bbox_origin wkw_bbox;
      let d' := mkDataset (voxel_type d)
                  (fun x y z => default (voxels d x y z) (written data o x y z)) in
      Ok (set_datasets w (<[wkw_path := d']> (datasets w)))
  end.

(** [WkwData.wkw_create] *)
Definition wkw_create (w : World) (wkw_path : string) (wkw_dtype : string) : World :=
  set_dirs
    (set_datasets w (<[wkw_path := mkDataset wkw_dtype (fun _ _ _ => 0)]> (datasets w)))
    ({[wkw_path]} ∪ dirs w).

(** [WkwData.wkw_header(path).voxel_type] *)
Definition wkw_header (w : World) (wkw_path : string) : result string :=
  match datasets w !! wkw_path with
  | None => Raise WKWException
  | Some d => Ok (voxel_type d)
  end.

(** [os.path.exists(os.path.join(path, 'header.wkw'))] *)
Definition header_exists (w : World) (path : string) : bool :=
  bool_decide (is_Some (datasets w !! path)).

(** [os.path.exists(path)] for a directory. *)
Definition dir_exists (w : World) (path : string) : bool :=
  bool_decide (path ∈ dirs w) || header_exists w path.

(** [os.makedirs(path)] *)
Definition os_makedirs (w : World) (path : string) : World :=
  set_dirs w ({[path]} ∪ dirs w).


(** ** The dataset object *)

Record Mesh : Type := mkMesh {
  mesh_x : ndarray3;
  mesh_y : ndarray3;
  mesh_z : ndarray3
}.

(** The dictionary [{'input': mesh_input, 'target': mesh_target}]. *)
Record DataMesh : Type := mkDataMesh {
  mesh_input : Mesh;
  mesh_target : Mesh
}.

(** An augmentation: a callable on a float tensor that draws from the random
    generator. *)
Definition transform : Type := nat -> array spec_float -> array spec_float * nat.

Record WkwData : Type := mkWkwData {
  input_shape : vec3;
  output_shape : vec3;
  data_sources : list DataSource;
  data_split : option DataSplit;
  stride : vec3;
  normalize : bool;
  transforms : option transform;
  pad_target : bool;
  cache_RAM : bool;
  cache_HDD : bool;
  cache_HDD_root : string;
  data_cache_input : gmap string (gmap string (arr4 Z));
  data_meshes : list DataMesh;
  data_inds_min : list Z;
  data_inds_max : list Z;
  data_train_inds : list Z;
  data_validation_inds : list Z;
  data_test_inds : list Z
}.

Definition set_data_cache_input (self : WkwData) (c : gmap string (gmap string (arr4 Z)))
  : WkwData :=
  mkWkwData (input_shape self) (output_shape self) (data_sources self) (data_split self)
    (stride self) (normalize self) (transforms self) (pad_target self) (cache_RAM self)
    (cache_HDD self) (cache_HDD_root self) c (data_meshes self) (data_inds_min self)
    (data_inds_max self) (data_train_inds self) (data_validation_inds self)
    (data_test_inds self).

Definition set_data_meshes (self : WkwData) (m : list DataMesh) : WkwData :=
  mkWkwData (input_shape self) (output_shape self) (data_sources self) (data_split self)
    (stride self) (normalize self) (transforms self) (pad_target self) (cache_RAM self)
    (cache_HDD self) (cache_HDD_root self) (data_cache_input self) m (data_inds_min self)
    (data_inds_max self) (data_train_inds self) (data_validation_inds self)
    (data_test_inds self).

Definition set_data_inds (self : WkwData) (mins maxs : list Z) : WkwData :=
  mkWkwData (input_shape self) (output_shape self) (data_sources self) (data_split self)
    (stride self) (normalize self) (transforms self) (pad_target self) (cache_RAM self)
    (cache_HDD self) (cache_HDD_root self) (data_cache_input self) (data_meshes self) mins
    maxs (data_train_inds self) (data_validation_inds self) (data_test_inds self).

Definition set_split_inds (self : WkwData) (tr va te : list Z) : WkwData :=
  mkWkwData (input_shape self) (output_shape self) (data_sources self) (data_split self)
    (stride self) (normalize self) (transforms self) (pad_target self) (cache_RAM self)
    (cache_HDD self) (cache_HDD_root self) (data_cache_input self) (data_meshes self)
    (data_inds_min self) (data_inds_max self) tr va te.


(** *** Coordinate grids *)

(** The window centres along one axis, for a box of origin [o] and extent [e],
    a window of [w] voxels and a stride [s]:
    [corner_min = floor(o + w / 2)], [n_fits = floor((e - w) / s) + 1],
    [corner_max = corner_min + (n_fits - 1) * s] and
    [np.arange(corner_min, corner_max + s, s)]. The two quotients are taken in
    binary64 by the source; they are exact on integers below 2^53. *)
Definition corner_min_target (o w : Z) : Z := (2 * o + w) `div` 2.
Definition n_fits (e w s : Z) : Z := (e - w) `div` s + 1.
Definition corner_max_target (o e w s : Z) : Z :=
  corner_min_target o w + (n_fits e w s - 1) * s.
Definition axis_centers (o e w s : Z) : list Z :=
  np_arange (corner_min_target o w) (corner_max_target o e w s + s) s.

(** [WkwData.get_data_mesh]. A zero stride makes the source divide by zero in
    floating point; it is outside the modelled domain. *)
Definition get_data_mesh (self : WkwData) (data_source_idx : Z) : result DataMesh :=
  d ← py_index (data_sources self) data_source_idx;
  bbox ← as_ints (input_bbox d);
  '(ox, oy, oz) ← bbox_origin bbox;
  '(ex, ey, ez) ← bbox_extent bbox;
  let '(wx, wy, wz) := input_shape self in
  let '(sx, sy, sz) := stride self in
  if (sx =? 0) || (sy =? 0) || (sz =? 0) then Raise Unsupported
  else
    let x := axis_centers ox ex wx sx in
    let y := axis_centers oy ey wy sy in
    let z := axis_centers oz ez wz sz in
    let '(xm, ym, zm) := np_meshgrid x y z in
    let mesh_target := mkMesh xm ym zm in
    let mesh_input := mkMesh xm ym zm in
    Ok (mkDataMesh mesh_input mesh_target).

(** [WkwData.get_data_meshes] *)
Definition get_data_meshes (self : WkwData) : result WkwData :=
  foldR (fun self i => m ← get_data_mesh self i;
                       Ok (set_data_meshes self (data_meshes self ++ [m])))
        (seqZ 0 (Z.of_nat (length (data_sources self)))) self.

(** *** Global index ranges *)

(** One turn of the loop of [WkwData.get_data_ind_ranges]. *)
Definition get_data_ind_ranges_step (self : WkwData) (source_idx : Z) : result WkwData :=
  mins ← (if source_idx =? 0 then Ok (data_inds_min self ++ [0])
          else prev ← py_index (data_inds_max self) (source_idx - 1);
               Ok (data_inds_min self ++ [prev + 1]));
  mn ← py_index mins source_idx;
  m ← py_index (data_meshes self) source_idx;
  Ok (set_data_inds self mins
        (data_inds_max self ++ [mn + np_size (mesh_x (mesh_target m)) - 1])).

(** [WkwData.get_data_ind_ranges] *)
Definition get_data_ind_ranges (self : WkwData) : result WkwData :=
  foldR get_data_ind_ranges_step (seqZ 0 (Z.of_nat (length (data_sources self)))) self.

(** [WkwData.__len__] *)
Definition len (self : WkwData) : result Z :=
  m ← py_index (data_inds_max self) (-1); Ok (m + 1).

(** [WkwData.get_source_mesh_for_sample_idx]. The source passes the shape as
    [dims=], the keyword of [np.unravel_index] of its numpy version. *)
Definition get_source_mesh_for_sample_idx (self : WkwData) (sample_idx : Z)
  : result (nat * (Z * Z * Z)) :=
  source_idx ← argmax_ge (data_inds_max self) sample_idx;
  mn ← py_index (data_inds_min self) (Z.of_nat source_idx);
  m ← py_index (data_meshes self) (Z.of_nat source_idx);
  mesh_inds ← np_unravel_index (sample_idx - mn) (shape (mesh_x (mesh_target m)));
  Ok (source_idx, mesh_inds).

(** [WkwData.get_bbox_for_sample_idx]: the window centred on the grid cell,
    [origin = centre - floor(shape / 2)]. *)
Definition get_bbox_for_sample_idx (self : WkwData) (sample_idx : Z) (sample_type : string)
  : result (nat * list Z) :=
  '(source_idx, mesh_inds) ← get_source_mesh_for_sample_idx self sample_idx;
  let '(s0, s1, s2) :=
    if String.eqb sample_type "input" then input_shape self else output_shape self in
  dm ← py_index (data_meshes self) (Z.of_nat source_idx);
  m ← (if String.eqb sample_type "input" then Ok (mesh_input dm)
       else if String.eqb sample_type "target" then Ok (mesh_target dm)
       else Raise KeyError);
  cx ← item (mesh_x m) mesh_inds;
  cy ← item (mesh_y m) mesh_inds;
  cz ← item (mesh_z m) mesh_inds;
  let origin := [cx - s0 `div` 2; cy - s1 `div` 2; cz - s2 `div` 2] in
  Ok (source_idx, origin ++ [s0; s1; s2]).

(** *** Splits *)

(** [WkwData.datasource_id_to_idx] *)
Definition datasource_id_to_idx (self : WkwData) (i : pyval) : result nat :=
  py_list_index (id <$> data_sources self) i.

(** [int(fraction * maxIndex)]. A list in place of the fraction is repeated
    by [*] and refused by [int]. *)
Definition int_of_fraction (s : split_spec) (maxIndex : Z) : result Z :=
  match s with
  | Fraction f => py_int_of_float (SFmul prec64 emax64 f (float_of_Z maxIndex))
  | Strata _ => Raise TypeError
  end.

(** The loop [for i, id in enumerate(ids): inds += list(range(min, max + 1))]
    of the strata mode. *)
Definition strata_inds (self : WkwData) (s : split_spec) : result (list Z) :=
  match s with
  | Fraction _ => Raise TypeError
  | Strata ids =>
      foldR (fun inds i =>
               idx ← datasource_id_to_idx self i;
               mn ← py_index (data_inds_min self) (Z.of_nat idx);
               mx ← py_index (data_inds_max self) (Z.of_nat idx);
               Ok (inds ++ seqZ mn (mx + 1 - mn)))
            ids []
  end.

(** [WkwData.get_data_ind_splits], called with a [data_split] that is not
    [None]; [permutation] is what [np.random.permutation] answers at the
    current state of numpy's generator. *)
Definition get_data_ind_splits (self : WkwData) (split : DataSplit)
    (permutation : list Z -> list Z) : result WkwData :=
  match train split with
  | Fraction _ =>
      maxIndex ← len self;
      let data_inds_all := seqZ 0 maxIndex in
      let data_inds_all_rand := permutation data_inds_all in
      n_train ← int_of_fraction (train split) maxIndex;
      let train_idx_max := n_train in
      let data_train_inds := py_slice 0 train_idx_max data_inds_all_rand in
      n_val ← int_of_fraction (validation split) maxIndex;
      let validation_idx_max := train_idx_max + n_val in
      let data_validation_inds := py_slice train_idx_max validation_idx_max data_inds_all_rand in
      n_test ← int_of_fraction (test split) maxIndex;
      let test_idx_max := validation_idx_max + n_test in
      let data_test_inds := py_slice validation_idx_max test_idx_max data_inds_all_rand in
      let index_left :=
        set_difference data_inds_all
          (data_train_inds ++ data_validation_inds ++ data_test_inds) in
      data_train_inds ←
        (if Z.of_nat (length index_left) =? 1 then Ok (data_train_inds ++ index_left)
         else if 1 <? Z.of_nat (length index_left) then
           Raise (Exception
             "more than one index left behind in splitting the data into train, val and test")
         else Ok data_train_inds);
      n ← len self;
      if n =? len_set (data_train_inds ++ data_validation_inds ++ data_test_inds) then
        Ok (set_split_inds self data_train_inds data_validation_inds data_test_inds)
      else Raise AssertionError
  | Strata _ =>
      data_train_inds ← strata_inds self (train split);
      data_validation_inds ← strata_inds self (validation split);
      data_test_inds ← strata_inds self (test split);
      Ok (set_split_inds self data_train_inds data_validation_inds data_test_inds)
  end.


(** *** The two-tier cache *)

(** [WkwData.assert_data_completeness]: every one of the six index
    expressions and every [np.any] is evaluated, [&] does not short-circuit. *)
Definition assert_data_completeness (data : arr4 Z) : result bool :=
  f1 ← face_axis1 data 0;
  f2 ← face_axis1 data (-1);
  f3 ← face_axis2 data 0;
  f4 ← face_axis2 data (-1);
  f5 ← face_axis3 data 0;
  f6 ← face_axis3 data (-1);
  Ok (np_any f1 && np_any f2 && np_any f3 && np_any f4 && np_any f5 && np_any f6).

(** [WkwData.fill_cache] *)
Definition fill_cache (self : WkwData) (w : World) (wkw_path wkw_bbox : pyval)
  : result (WkwData * World) :=
  path ← as_str wkw_path;
  bbox ← as_ints wkw_bbox;
  let wkw_cache_path := os_path_join (cache_HDD_root self) (str_tail path) in
  '(data, w) ←
    (if cache_HDD self && header_exists w wkw_cache_path then
       '(data, w) ← wkw_read w wkw_cache_path bbox;
       complete ← assert_data_completeness data;
       if negb complete then wkw_read w path bbox else Ok (data, w)
     else wkw_read w path bbox);
  let self :=
    if cache_RAM self then
      match data_cache_input self !! path with
      | None =>
          set_data_cache_input self
            (<[path := {[str_of_ints bbox := data]}]> (data_cache_input self))
      | Some inner =>
          set_data_cache_input self
            (<[path := <[str_of_ints bbox := data]> inner]> (data_cache_input self))
      end
    else self in
  w ←
    (if cache_HDD self then
       let w := if negb (dir_exists w wkw_cache_path) then os_makedirs w wkw_cache_path
                else w in
       w ← (if negb (header_exists w wkw_cache_path) then
              dtype ← wkw_header w path; Ok (wkw_create w wkw_cache_path dtype)
            else Ok w);
       wkw_write w wkw_cache_path bbox data
     else Ok w);
  Ok (self, w).

(** [WkwData.fill_caches] *)
Definition fill_caches (self : WkwData) (w : World) : result (WkwData * World) :=
  foldR (fun '(self, w) data_source =>
           '(self, w) ← fill_cache self w (input_path data_source) (input_bbox data_source);
           fill_cache self w (target_path data_source) (target_bbox data_source))
        (data_sources self) (self, w).

(** [self.data_cache_input[wkw_path]], after [wkw_path in self.data_cache_input]
    has hashed the key: a list is not hashable, any other key that is not in
    the dictionary is a [KeyError]. The dictionary only ever holds strings. *)
Definition cache_getitem (c : gmap string (gmap string (arr4 Z))) (wkw_path : pyval)
  : result (gmap string (arr4 Z)) :=
  match wkw_path with
  | PList _ => Raise TypeError
  | PStr p => match c !! p with Some inner => Ok inner | None => Raise KeyError end
  | _ => Raise KeyError
  end.

(** [d[key_idx]] for the field named [key] of a data source. *)
Definition DataSource_field (d : DataSource) (key : string) : result pyval :=
  key_idx ← str_index DataSource_fields key;
  py_index (DataSource_values d) (Z.of_nat key_idx).

(** [WkwData.wkw_read_cached]. The test of the memory tier joins its two
    operands with [&], so the right operand, which indexes
    [self.data_cache_input] by the path, is always evaluated. *)
Definition wkw_read_cached (self : WkwData) (w : World) (source_idx : Z)
    (source_type : string) (wkw_bbox : list Z) : result (arr4 Z * World) :=
  d ← py_index (data_sources self) source_idx;
  wkw_path ← DataSource_field d (source_type ++ "_path")%string;
  abs_pos ← DataSource_field d (source_type ++ "_bbox")%string;
  inner ← cache_getitem (data_cache_input self) wkw_path;
  abs_pos ← as_ints abs_pos;
  match inner !! str_of_ints abs_pos with
  | Some cached =>
      '(r0, r1, r2) ← ('(bx, by_, bz) ← bbox_origin wkw_bbox;
                        '(ax, ay, az) ← bbox_origin abs_pos;
                        Ok (bx - ax, by_ - ay, bz - az));
      '(e0, e1, e2) ← bbox_extent wkw_bbox;
      Ok (slice4 cached r0 (r0 + e0) r1 (r1 + e1) r2 (r2 + e2), w)
  | None =>
      path ← as_str wkw_path;
      let wkw_cache_path := os_path_join (cache_HDD_root self) (str_tail path) in
      if header_exists w wkw_cache_path then wkw_read w wkw_cache_path wkw_bbox
      else wkw_read w path wkw_bbox
  end.

(** *** Construction *)

(** [WkwData.__init__] *)
Definition init (input_shape target_shape : vec3) (data_sources : list DataSource)
    (data_split : option DataSplit) (stride : option vec3) (normalize : bool)
    (transforms : option transform) (pad_target cache_RAM cache_HDD : bool)
    (cache_HDD_root : option string) (w : World) (permutation : list Z -> list Z)
  : result (WkwData * World) :=
  let cache_HDD_root := default "." cache_HDD_root in
  let stride := default target_shape stride in
  let self :=
    mkWkwData input_shape target_shape data_sources data_split stride normalize transforms
      pad_target cache_RAM cache_HDD cache_HDD_root ∅ [] [] [] [] [] [] in
  self ← get_data_meshes self;
  self ← get_data_ind_ranges self;
  self ← (match data_split with
          | Some split => get_data_ind_splits self split permutation
          | None => Ok self
          end);
  if cache_RAM || cache_HDD then fill_caches self w else Ok (self, w).


(** *** Sample assembly *)

Definition prec32 : Z := 24.
Definition emax32 : Z := 128.

(** The binary32 value nearest to a binary64 value, and to an integer: what
    [.float()] does to one element. *)
Definition to_float32 (f : spec_float) : spec_float :=
  match f with
  | S754_finite s m e => binary_round prec32 emax32 s m e
  | _ => f
  end.

Definition float32_of_Z (n : Z) : spec_float := binary_normalize prec32 emax32 n 0 false.

(** A numpy array with the element types that occur: integer voxels or
    labels, binary64 and binary32. *)
Inductive nparray : Type :=
| NpInt (a : array Z)
| NpFloat64 (a : array spec_float)
| NpFloat32 (a : array spec_float).

(** A torch tensor: [FloatTensor] holds binary32 values. *)
Inductive tensor : Type :=
| FloatTensor (a : array spec_float)
| LongTensor (a : array Z).

Record Sample : Type := mkSample {
  sample_input : array spec_float;
  sample_target : tensor;
  sample_sample_idx : Z
}.

(** [WkwData.normalize]: [(np.asarray(data) - mean) / std] in binary64. *)
Definition WkwData_normalize (data : arr4 Z) (mean std : spec_float) : arr4 spec_float :=
  map4 (fun v => SFdiv prec64 emax64 (SFsub prec64 emax64 (float_of_Z v) mean) std) data.

(** [torch.from_numpy(a).float()] *)
Definition torch_float (a : nparray) : array spec_float :=
  match a with
  | NpInt a => array_map float32_of_Z a
  | NpFloat64 a => array_map to_float32 a
  | NpFloat32 a => a
  end.

Definition array_mapR {A B} (f : A -> result B) (a : array A) : result (array B) :=
  match a with
  | Arr0 x => Arr0 <$> f x
  | Arr1 l => Arr1 <$> mapR f l
  | Arr3 l => Arr3 <$> mapR (mapR (mapR f)) l
  | Arr4 l => Arr4 <$> mapR (mapR (mapR (mapR f))) l
  end.

(** [torch.from_numpy(a).long()]; the conversion of a float that is not
    finite is not modelled. *)
Definition torch_long (a : nparray) : result (array Z) :=
  let trunc f := match py_int_of_float f with Ok n => Ok n | Raise _ => Raise Unsupported end in
  match a with
  | NpInt a => Ok a
  | NpFloat64 a => array_mapR trunc a
  | NpFloat32 a => array_mapR trunc a
  end.

(** [np.asarray(target_class)] for a number or a list of numbers. *)
Definition np_asarray_class (v : pyval) : result nparray :=
  match v with
  | PInt n => Ok (NpInt (Arr0 n))
  | PFloat f => Ok (NpFloat64 (Arr0 f))
  | PList (PInt n :: l) => l' ← mapR as_int l; Ok (NpInt (Arr1 (n :: l')))
  | PList (PFloat f :: l) => l' ← mapR as_float l; Ok (NpFloat64 (Arr1 (f :: l')))
  | _ => Raise Unsupported
  end.

(** The length of the last axis of a four-dimensional array, read on its
    first row. An array without a row has lost its shape in this
    representation and is not handled. *)
Definition last_axis_len {A} (a : arr4 A) : result nat :=
  match a with
  | ((r :: _) :: _) :: _ => Ok (length r)
  | _ => Raise Unsupported
  end.

(** [if depth == 1 and t.dim() > 3 and t.shape[3] == 1: t = t.squeeze(3)] *)
Definition squeeze_depth {A} (depth : Z) (t : array A) : result (array A) :=
  match t with
  | Arr4 l =>
      if depth =? 1 then
        n ← last_axis_len l;
        if (n =? 1)%nat then
          Arr3 <$> mapR (mapR (mapR (fun r : list A =>
                     match r with [v] => Ok v | _ => Raise Unsupported end))) l
        else Ok t
      else Ok t
  | _ => Ok t
  end.

(** [np.pad(a, ((p0, p0), (p1, p1), (p2, p2)), 'constant')] on a
    three-dimensional array whose shape can be read on its first row. *)
Definition pad3 {A} (zero : A) (p0 p1 p2 : Z) (a : arr3 A) : result (arr3 A) :=
  match a with
  | (r :: _) as pl :: _ =>
      let n1 := length pl in
      let n2 := length r in
      let q0 := Z.to_nat p0 in
      let q1 := Z.to_nat p1 in
      let q2 := Z.to_nat p2 in
      let zrow := replicate (q2 + n2 + q2) zero in
      let zplane := replicate (q1 + n1 + q1) zrow in
      let pad_row (r : list A) := replicate q2 zero ++ r ++ replicate q2 zero in
      let pad_plane (p : list (list A)) :=
        replicate q1 zrow ++ (pad_row <$> p) ++ replicate q1 zrow in
      Ok (replicate q0 zplane ++ (pad_plane <$> a) ++ replicate q0 zplane)
  | _ => Raise Unsupported
  end.

Definition np_pad {A} (zero : A) (p0 p1 p2 : Z) (a : array A) : result (array A) :=
  match a with
  | Arr3 l =>
      if (p0 <? 0) || (p1 <? 0) || (p2 <? 0) then Raise ValueError
      else Arr3 <$> pad3 zero p0 p1 p2 l
  | _ => Raise ValueError   (* three pairs of widths do not fit another rank *)
  end.

(** [WkwData.pad]: the three pairs of pad widths are handed to [np.pad]
    whatever the rank of [target]. *)
Definition pad (self : WkwData) (target : nparray) : result nparray :=
  let '(i0, i1, i2) := input_shape self in
  let '(o0, o1, o2) := output_shape self in
  let pad_shape := ((i0 - o0) `div` 2, (i1 - o1) `div` 2, (i2 - o2) `div` 2) in
  let '(p0, p1, p2) := pad_shape in
  match target with
  | NpInt a => NpInt <$> np_pad 0 p0 p1 p2 a
  | NpFloat64 a => NpFloat64 <$> np_pad (S754_zero false) p0 p1 p2 a
  | NpFloat32 a => NpFloat32 <$> np_pad (S754_zero false) p0 p1 p2 a
  end.

(** The read of a window: through the cache when a tier is enabled, else
    straight from the store. *)
Definition read_window (self : WkwData) (w : World) (source_idx : nat)
    (source_type : string) (path : DataSource -> pyval) (bbox : list Z)
  : result (arr4 Z * World) :=
  if cache_RAM self || cache_HDD self then
    wkw_read_cached self w (Z.of_nat source_idx) source_type bbox
  else
    d ← py_index (data_sources self) (Z.of_nat source_idx);
    p ← as_str (path d);
    wkw_read w p bbox.

(** [self.transforms(t)], drawing from the generator of the world. *)
Definition apply_transform (f : transform) (w : World) (t : array spec_float)
  : array spec_float * World :=
  let '(t', g) := f (rng w) t in (t', set_rng w g).

(** [WkwData.get_ordered_sample]. Windows with an empty axis are outside the
    modelled domain. *)
Definition get_ordered_sample (self : WkwData) (w : World) (sample_idx : Z)
    (normalize_arg : option bool) : result (Sample * World) :=
  let normalize := default (normalize self) normalize_arg in
  (* Inputs *)
  '(source_idx, bbox_input) ← get_bbox_for_sample_idx self sample_idx "input";
  '(input_, w) ← read_window self w source_idx "input" input_path bbox_input;
  d ← py_index (data_sources self) (Z.of_nat source_idx);
  input_ ← (if normalize then
              mean ← as_float (input_mean d);
              std ← as_float (input_std d);
              Ok (NpFloat64 (Arr4 (WkwData_normalize input_ mean std)))
            else Ok (NpInt (Arr4 input_)));
  let input_ := torch_float input_ in
  input_ ← squeeze_depth (input_shape self).2 input_;
  let '(input_, w) :=
    match transforms self with
    | Some f => if bool_decide (sample_idx ∈ data_train_inds self)
                then apply_transform f w input_ else (input_, w)
    | None => (input_, w)
    end in
  (* Targets *)
  '(source_idx, bbox_target) ← get_bbox_for_sample_idx self sample_idx "target";
  d ← py_index (data_sources self) (Z.of_nat source_idx);
  '(target, inputSameAsOutput, w) ←
    (if py_eq (target_binary d) (PInt 1) then
       t ← np_asarray_class (target_class d); Ok (t, false, w)
     else if py_eq (input_path d) (target_path d)
             && bool_decide (bbox_input = bbox_target) then
       Ok (NpFloat32 input_, true, w)
     else
       '(t, w) ← read_window self w source_idx "target" target_path bbox_target;
       Ok (NpInt (Arr4 t), false, w));
  target ← (if pad_target self then pad self target else Ok target);
  if py_eq (target_binary d) (PInt 1) then
    target ← torch_long target;
    Ok (mkSample input_ (LongTensor target) sample_idx, w)
  else
    let target := torch_float target in
    target ← squeeze_depth (output_shape self).2 target;
    let '(target, w) :=
      match transforms self with
      | Some f => if negb inputSameAsOutput then apply_transform f w target else (target, w)
      | None => (target, w)
      end in
    Ok (mkSample input_ (FloatTensor target) sample_idx, w).


(** ** The data-source registry: long and short descriptor forms *)

(** A Python dictionary with string keys, in insertion order. *)
Abbreviation dict V := (list (string * V)).

Fixpoint dict_get {V} (d : dict V) (k : string) : option V :=
  match d with
  | [] => None
  | (k', v) :: d' => if String.eqb k' k then Some v else dict_get d' k
  end.

(** [d[k] = v]: an existing key keeps its place. *)
Fixpoint dict_set {V} (k : string) (v : V) (d : dict V) : dict V :=
  match d with
  | [] => [(k, v)]
  | (k', v') :: d' => if String.eqb k' k then (k', v) :: d' else (k', v') :: dict_set k v d'
  end.

(** [d.pop(k, None)] and [del d[k]] for a key that is present. *)
Fixpoint dict_pop {V} (k : string) (d : dict V) : dict V :=
  match d with
  | [] => []
  | (k', v') :: d' => if String.eqb k' k then d' else (k', v') :: dict_pop k d'
  end.

(** [d.update(other)] *)
Definition dict_update {V} (d other : dict V) : dict V :=
  fold_left (fun d kv => dict_set kv.1 kv.2 d) other d.

(** [dict(items)]: the items inserted one after the other. *)
Definition dict_of_items {V} (items : list (string * V)) : dict V :=
  dict_update [] items.

(** [p in s] on strings. *)
Fixpoint str_contains (p s : string) : bool :=
  String.prefix p s ||
  match s with
  | EmptyString => false
  | String _ s' => str_contains p s'
  end.

(** The text of a value inside an f-string, [format(v)], for the kinds of
    values used as identifiers; the text of a float or of a list is not
    modelled. *)
Definition py_format (v : pyval) : result string :=
  match v with
  | PStr s => Ok s
  | PInt n => Ok (str_of_Z n)
  | PBool b => Ok (if b then "True" else "False")
  | PNone => Ok "None"
  | PClassStr => Ok "<class 'str'>"
  | _ => Raise Unsupported
  end.

(** [d._asdict()] *)
Definition DataSource_asdict (d : DataSource) : dict pyval :=
  zip DataSource_fields (DataSource_values d).

(** The constructor [DataSource] called on the keywords of a dictionary: a
    keyword that is not a field is a [TypeError], a field without keyword
    takes its default. *)
Definition DataSource_of_kwargs (kw : dict pyval) : result DataSource :=
  if forallb (fun kv : string * pyval => bool_decide (kv.1 ∈ DataSource_fields)) kw then
    let get k dflt := default dflt (dict_get kw k) in
    Ok (mkDataSource (get "id" PClassStr) (get "input_path" (PStr "NaN"))
          (get "input_bbox" (PStr "NaN")) (get "input_mean" (PStr "NaN"))
          (get "input_std" (PStr "NaN")) (get "target_path" (PStr "NaN"))
          (get "target_bbox" (PStr "NaN")) (get "target_class" (PStr "NaN"))
          (get "target_binary" (PStr "NaN")))
  else Raise TypeError.

(** The argument of the registry functions: a list of [DataSource] or a
    dictionary of descriptors. *)
Inductive datasources_arg : Type :=
| DsList (l : list DataSource)
| DsDict (d : dict (dict pyval)).

(** [WkwData.convert_ds_to_dict] *)
Definition convert_ds_to_dict (datasources : datasources_arg)
  : result (dict (dict pyval)) :=
  match datasources with
  | DsDict _ => Raise AssertionError
  | DsList l =>
      items ← mapR (fun d => k ← py_format (id d);
                             Ok (("datasource_" ++ k)%string, DataSource_asdict d)) l;
      Ok (dict_of_items items)
  end.

(** [WkwData.convert_ds_to_list] *)
Definition convert_ds_to_list (datasources_dict : dict (dict pyval))
  : result (list DataSource) :=
  mapR (fun kv : string * dict pyval => DataSource_of_kwargs kv.2) datasources_dict.

(** [all(first == x for x in cur_elem_iter)] after [first = next(...)]. *)
Definition is_identical (cur_elem_list : list pyval) : result bool :=
  match cur_elem_list with
  | [] => Raise (Exception "StopIteration")
  | first :: rest => Ok (forallb (fun x => py_eq first x) rest)
  end.

(** [WkwData.ds_find_shared_properties] *)
Definition ds_find_shared_properties (data_sources : datasources_arg)
  : result (dict pyval) :=
  long_ds_dict ← convert_ds_to_dict data_sources;
  let ds_keys := long_ds_dict.*1 in
  k0 ← py_index ds_keys 0;
  first_ds ← (match dict_get long_ds_dict k0 with Some d => Ok d | None => Raise KeyError end);
  let per_ds_keys := first_ds.*1 in
  list_all ←
    mapR (fun per_key =>
            vals ← mapR (fun key =>
                     cur_ds ← (match dict_get long_ds_dict key with
                               | Some d => Ok d | None => Raise KeyError end);
                     match dict_get cur_ds per_key with
                     | Some v => Ok v | None => Raise KeyError end) ds_keys;
            Ok (per_key, vals)) per_ds_keys;
  foldR (fun (shared_prop : dict pyval) (kv : string * list pyval) =>
           same ← is_identical kv.2;
           if (same : bool) then v ← py_index kv.2 0; Ok (dict_set kv.1 v shared_prop)
           else Ok shared_prop)
        list_all [].

(** [WkwData.convert_to_short_ds] *)
Definition convert_to_short_ds (data_sources : datasources_arg)
    (shared_properties : option (dict pyval)) : result (dict (dict pyval)) :=
  match data_sources with
  | DsDict d =>
      if bool_decide ("shared_properties" ∈ d.*1) then Ok d
      else (match shared_properties with
            | None => _ ← ds_find_shared_properties data_sources; Raise AssertionError
            | Some _ => convert_ds_to_dict data_sources
            end)
  | DsList _ =>
      shared_properties ← (match shared_properties with
                           | None => ds_find_shared_properties data_sources
                           | Some sp => Ok sp
                           end);
      ds_dict ← convert_ds_to_dict data_sources;
      let key2remove_list := shared_properties.*1 in
      let ds_dict :=
        (fun kv : string * dict pyval =>
           (kv.1, fold_left (fun d key2remove => dict_pop key2remove d) key2remove_list kv.2))
        <$> ds_dict in
      Ok (dict_update [("shared_properties", shared_properties)] ds_dict)
  end.

(** Whether [json.dump] can write a value: everything but the class [str]. *)
Fixpoint json_serializable (v : pyval) : bool :=
  match v with
  | PClassStr => false
  | PList l => forallb json_serializable l
  | _ => true
  end.

(** [json.dump(d, f)] followed later by [json.load(f)]: the document read is
    the document written (Python's encoder and decoder are inverse on these
    values); a value [json] cannot encode is a [TypeError]. *)
Definition json_dump (d : dict (dict pyval)) : result (dict (dict pyval)) :=
  if forallb (fun kv : string * dict pyval =>
                forallb (fun fv : string * pyval => json_serializable fv.2) kv.2) d
  then Ok d else Raise TypeError.

(** [WkwData.write_short_ds_json]; the files are the JSON documents by path. *)
Definition write_short_ds_json (files : gmap string (dict (dict pyval)))
    (datasources : datasources_arg) (json_path : string) (convert_to_short : bool)
  : result (gmap string (dict (dict pyval))) :=
  datasources ← (if convert_to_short then DsDict <$> convert_to_short_ds datasources None
                 else Ok datasources);
  ds_dict ← (match datasources with
             | DsDict d => Ok d
             | DsList _ => convert_ds_to_dict datasources
             end);
  doc ← json_dump ds_dict;
  Ok (<[json_path := doc]> files).

(** [WkwData.read_short_ds_json] *)
Definition read_short_ds_json (files : gmap string (dict (dict pyval)))
    (json_path : string) : result (list DataSource) :=
  ds_dict ← (match files !! json_path with
             | Some d => Ok d | None => Raise FileNotFoundError end);
  ds_dict ←
    (match dict_get ds_dict "shared_properties" with
     | Some shared =>
         let ds_keys := filter (fun k => k ≠ "shared_properties") ds_dict.*1 in
         if forallb (str_contains "datasource_") ds_keys then
           let ds_dict :=
             (fun kv : string * dict pyval =>
                if bool_decide (kv.1 ∈ ds_keys) then (kv.1, dict_update kv.2 shared) else kv)
             <$> ds_dict in
           Ok (dict_pop "shared_properties" ds_dict)
         else Raise AssertionError
     | None => Ok ds_dict
     end);
  convert_ds_to_list ds_dict.


(** The key of a data source in a descriptor dictionary,
    ['datasource_' + format(d.id)]. *)
Definition DataSource_key (d : DataSource) : result string :=
  k ← py_format (id d); Ok ("datasource_" ++ k)%string.

(** Two values are the same for Python: identical, or equal under [==]. *)
Definition same_value (a b : pyval) : Prop := a = b \/ py_eq a b = true.

(** The value of a field of a data source, by the name of the field. *)
Definition field_of (d : DataSource) (f : string) : pyval :=
  default PNone (dict_get (DataSource_asdict d) f).

(** Two data sources agree field by field. *)
Definition same_source (d' d : DataSource) : Prop :=
  Forall2 same_value (DataSource_values d') (DataSource_values d).

(** ** Example inputs

    A source of 4 x 4 x 2 voxels read through windows of 2 x 2 x 1, and the
    store holding it; they instantiate the properties below. *)

Definition float_one : spec_float := float_of_Z 1.
Definition float_two : spec_float := float_of_Z 2.

Definition example_source : DataSource :=
  mkDataSource (PStr "0") (PStr "/data/in") (py_ints [0; 0; 0; 4; 4; 2])
    (PFloat float_one) (PFloat float_two)
    (PStr "/data/in") (py_ints [0; 0; 0; 4; 4; 2]) (PStr "NaN") (PStr "NaN").

Definition example_world : World :=
  mkWorld {[ "/data/in" := mkDataset "uint8" (fun x y z => x + 10 * y + 100 * z + 1) ]}
    ∅ [] 0.

(** The object at the start of [__init__], before the meshes are built. *)
Definition example_blank : WkwData :=
  mkWkwData (2, 2, 1) (2, 2, 1) [example_source] None (2, 2, 1) true None false
    false false "." ∅ [] [] [] [] [] [].


(** A second, smaller source, and the dataset built on the two sources
    without split and without cache. *)
Definition example_source_1 : DataSource :=
  mkDataSource (PStr "1") (PStr "/data/in") (py_ints [4; 0; 0; 2; 2; 1])
    (PFloat float_one) (PFloat float_two)
    (PStr "/data/in") (py_ints [4; 0; 0; 2; 2; 1]) (PStr "NaN") (PStr "NaN").

Definition example_sources : list DataSource := [example_source; example_source_1].

Definition example_dataset : WkwData :=
  match init (2, 2, 1) (2, 2, 1) example_sources None None true None false false false
             None example_world (fun l => l) with
  | Ok (st, _) => st
  | Raise _ => example_blank
  end.


(** A source narrower than the window: 3 voxels along x for a window of 5. *)
Definition narrow_source : DataSource :=
  mkDataSource (PStr "0") (PStr "/data/in") (py_ints [0; 0; 0; 3; 8; 8])
    (PFloat float_one) (PFloat float_two)
    (PStr "/data/in") (py_ints [0; 0; 0; 3; 8; 8]) (PStr "NaN") (PStr "NaN").


(** A dataset object with both cache tiers on, and two worlds whose disk tier
    already holds a dataset for the example path: a full copy of the source,
    and a copy cut after its first two planes along x. *)
Definition example_cached_blank : WkwData :=
  mkWkwData (2, 2, 1) (2, 2, 1) [example_source] None (2, 2, 1) true None false
    true true "." ∅ [] [] [] [] [] [].

Definition example_voxels : Dataset :=
  mkDataset "uint8" (fun x y z => x + 10 * y + 100 * z + 1).

Definition partial_voxels : Dataset :=
  mkDataset "uint8" (fun x y z => if x <? 2 then x + 10 * y + 100 * z + 1 else 0).

Definition cached_world : World :=
  mkWorld (<["./data/in" := example_voxels]> {[ "/data/in" := example_voxels ]})
    {[ "./data/in" ]} [] 0.

Definition partial_world : World :=
  mkWorld (<["./data/in" := partial_voxels]> {[ "/data/in" := example_voxels ]})
    {[ "./data/in" ]} [] 0.


(** A source of three cells, and the fractions 1/2, 1/4, 1/4: floats that are
    exact, and that sum to one. *)
Definition float_half : spec_float := SFdiv prec64 emax64 (float_of_Z 1) (float_of_Z 2).
Definition float_quarter : spec_float := SFdiv prec64 emax64 (float_of_Z 1) (float_of_Z 4).

Definition half_quarter_split : DataSplit :=
  mkDataSplit (Fraction float_half) (Fraction float_quarter) (Fraction float_quarter).

Definition three_cell_source : DataSource :=
  mkDataSource (PStr "0") (PStr "/data/in") (py_ints [0; 0; 0; 3; 1; 1])
    (PFloat float_one) (PFloat float_two)
    (PStr "/data/in") (py_ints [0; 0; 0; 3; 1; 1]) (PStr "NaN") (PStr "NaN").

Definition three_cell_dataset : WkwData :=
  match init (1, 1, 1) (1, 1, 1) [three_cell_source] None None true None false false false
             None example_world (fun l => l) with
  | Ok (st, _) => st
  | Raise _ => example_blank
  end.


(** A dataset whose target window (2 x 2 x 2) is smaller than its input
    window (4 x 4 x 2), so that the target is fetched on its own; it is built
    with and without [pad_target]. *)
Definition pad_dataset (pad_target : bool) : WkwData :=
  match init (4, 4, 2) (2, 2, 2) [example_source] None None true None pad_target
             false false None example_world (fun l => l) with
  | Ok (st, _) => st
  | Raise _ => example_blank
  end.






(** Two labelled sources that share everything but their id, their input box
    and their class; the second writes its flag as [True], the first as 1. *)
Definition labelled_source_a : DataSource :=
  mkDataSource (PStr "a") (PStr "/data/in") (py_ints [0; 0; 0; 4; 4; 2])
    (PFloat float_one) (PFloat float_two)
    (PStr "NaN") (PStr "NaN") (PInt 1) (PInt 1).

Definition labelled_source_b : DataSource :=
  mkDataSource (PStr "b") (PStr "/data/in") (py_ints [4; 0; 0; 4; 4; 2])
    (PFloat float_one) (PFloat float_two)
    (PStr "NaN") (PStr "NaN") (PInt 0) (PBool true).

(** ** Specification predicates

    The statements of the properties below are written with them. *)


(** The part of the object that construction never changes after its first
    assignment. *)
Definition config (self : WkwData) :=
  (input_shape self, output_shape self, data_sources self, data_split self, stride self,
   normalize self, transforms self, pad_target self,
   (cache_RAM self, cache_HDD self, cache_HDD_root self)).

(** The ranges after some turns of the loop of [get_data_ind_ranges]: the
    first starts at 0, each later one starts right after its predecessor,
    and each is as long as its mesh has cells. *)
Definition ranges_inv (meshes : list DataMesh) (mins maxs : list Z) : Prop :=
  length mins = length maxs /\
  (forall a, mins !! 0%nat = Some a -> a = 0) /\
  (forall i a b, maxs !! i = Some b -> mins !! S i = Some a -> a = b + 1) /\
  (forall i a b m, mins !! i = Some a -> maxs !! i = Some b -> meshes !! i = Some m ->
                   b = a + np_size (mesh_x (mesh_target m)) - 1).

(** What the split planner and the cache filler leave untouched. *)
Definition same_index (a b : WkwData) : Prop :=
  config a = config b /\
  data_meshes a = data_meshes b /\
  data_inds_min a = data_inds_min b /\
  data_inds_max a = data_inds_max b.

(** The path field that [wkw_read_cached] reads for a role. *)
Definition path_of_role (source_type : string) (d : DataSource) : option pyval :=
  if String.eqb source_type "input" then Some (input_path d)
  else if String.eqb source_type "target" then Some (target_path d)
  else None.

(** A face of a cube holds a voxel that is not zero. The face is given by the
    voxel at a position of its two free coordinates. *)
Definition nonzero_face (g : Z -> Z -> Z) (u0 nu v0 nv : Z) : Prop :=
  exists u v, u0 <= u < u0 + nu /\ v0 <= v < v0 + nv /\ g u v <> 0.

(** Each of the six bounding faces of the box of origin [o] and extent [e]
    holds a voxel of the dataset that is not zero. *)
Definition six_faces_nonzero (c : Dataset) (o e : vec3) : Prop :=
  let '(ox, oy, oz) := o in
  let '(ex, ey, ez) := e in
  nonzero_face (fun y z => voxels c ox y z) oy ey oz ez /\
  nonzero_face (fun y z => voxels c (ox + ex - 1) y z) oy ey oz ez /\
  nonzero_face (fun x z => voxels c x oy z) ox ex oz ez /\
  nonzero_face (fun x z => voxels c x (oy + ey - 1) z) ox ex oz ez /\
  nonzero_face (fun x y => voxels c x y oz) ox ex oy ey /\
  nonzero_face (fun x y => voxels c x y (oz + ez - 1)) ox ex oy ey.

(** The entry of the memory tier for a path and a box. *)
Definition memory_entry (self : WkwData) (path : string) (bbox : list Z)
  : option (arr4 Z) :=
  inner ← data_cache_input self !! path; inner !! str_of_ints bbox.

(** * Further operations of the class *)

(** [WkwData.get_center_for_sample_idx] *)
Definition get_center_for_sample_idx (self : WkwData) (sample_idx : Z) (sample_type : string)
  : result (list Z) :=
  '(source_idx, mesh_inds) ← get_source_mesh_for_sample_idx self sample_idx;
  dm ← py_index (data_meshes self) (Z.of_nat source_idx);
  this_mesh ← (if String.eqb sample_type "input" then Ok (mesh_input dm)
               else if String.eqb sample_type "target" then Ok (mesh_target dm)
               else Raise KeyError);
  cx ← item (mesh_x this_mesh) mesh_inds;
  cy ← item (mesh_y this_mesh) mesh_inds;
  cz ← item (mesh_z this_mesh) mesh_inds;
  Ok [cx; cy; cz].

(** A box lies inside another: both are given by origin and extent. *)
Definition box_inside (b o : vec3) (w e : vec3) : Prop :=
  let '(bx, by_, bz) := b in
  let '(ox, oy, oz) := o in
  let '(wx, wy, wz) := w in
  let '(ex, ey, ez) := e in
  ox <= bx /\ bx + wx <= ox + ex /\
  oy <= by_ /\ by_ + wy <= oy + ey /\
  oz <= bz /\ bz + wz <= oz + ez.

(** [WkwData.get_source_idx_from_sample_idx]. The method is wrapped in
    [lru_cache]; after construction nothing changes [data_inds_max], so the
    memo answers what the body computes. *)
Definition get_source_idx_from_sample_idx (self : WkwData) (sample_idx : Z) : result nat :=
  argmax_ge (data_inds_max self) sample_idx.

(** [WkwData.get_target_from_sample_idx], memoised in the same way. *)
Definition get_target_from_sample_idx (self : WkwData) (sample_idx : Z) : result pyval :=
  source_idx ← get_source_idx_from_sample_idx self sample_idx;
  d ← py_index (data_sources self) (Z.of_nat source_idx);
  Ok (target_class d).

(** [WkwData.datasource_idx_to_id] *)
Definition datasource_idx_to_id (self : WkwData) (idx : Z) : result pyval :=
  d ← py_index (data_sources self) idx; Ok (id d).

(** [WkwData.__getitem__] *)
Definition getitem (self : WkwData) (w : World) (idx : Z) : result (Sample * World) :=
  get_ordered_sample self w idx None.




(** ** The keys of the caches, read back *)

(** [s[1:-1]] *)
Definition str_strip_ends (s : string) : string :=
  string_of_list_ascii (py_slice 1 (-1) (list_ascii_of_string s)).

(** [s.split(',')] *)
Fixpoint split_comma (s : string) : list string :=
  match s with
  | EmptyString => [""]
  | String c s' =>
      if Ascii.eqb c "," then "" :: split_comma s'
      else match split_comma s' with
           | h :: t => String c h :: t
           | [] => [String c ""]
           end
  end.

(** Blanks removed at the two ends of a string, as [int] does before it reads
    a number. *)
Fixpoint lstrip (l : list ascii) : list ascii :=
  match l with
  | c :: l' => if Ascii.eqb c " " then lstrip l' else l
  | [] => []
  end.

Definition strip (l : list ascii) : list ascii :=
  reverse (lstrip (reverse (lstrip l))).

(** The characters of the text of a decimal integer with blanks around it. *)
Definition number_char (c : ascii) : bool :=
  Ascii.eqb c " " || Ascii.eqb c "+" || Ascii.eqb c "-" ||
  ((48 <=? Z.of_nat (nat_of_ascii c)) && (Z.of_nat (nat_of_ascii c) <=? 57)).

(** [int(s)] for a string: blanks at the ends, an optional sign, decimal
    digits; a text that is no number is a [ValueError]. Strings with other
    characters (underscores between digits, other kinds of blanks, digits
    outside ASCII) are outside the modelled domain. *)
Definition py_int_of_str (s : string) : result Z :=
  let l := list_ascii_of_string s in
  if forallb number_char l then
    match strip l with
    | c :: l' =>
        if Ascii.eqb c "+" then
          match NilZero.uint_of_string (string_of_list_ascii l') with
          | Some u => Ok (Z.of_uint u)
          | None => Raise ValueError
          end
        else
          match NilZero.int_of_string (string_of_list_ascii (c :: l')) with
          | Some d => Ok (Z.of_int d)
          | None => Raise ValueError
          end
    | [] => Raise ValueError
    end
  else Raise Unsupported.

(** [[int(x) for x in bbox[1:-1].split(',')]], the box that
    [wkw_write_cache] reads back from a key of the cache. *)
Definition bbox_from_str (bbox : string) : result (list Z) :=
  mapR py_int_of_str (split_comma (str_strip_ends bbox)).

(** A character of the text of an integer: a digit or the minus sign. *)
Definition int_char (c : ascii) : bool :=
  Ascii.eqb c "-" ||
  ((48 <=? Z.of_nat (nat_of_ascii c)) && (Z.of_nat (nat_of_ascii c) <=? 57)).


(** The box field that [wkw_read_cached] reads for a role. *)
Definition bbox_of_role (source_type : string) (d : DataSource) : option pyval :=
  if String.eqb source_type "input" then Some (input_bbox d)
  else if String.eqb source_type "target" then Some (target_bbox d)
  else None.

(** Every entry of the memory tier is the cube that the store of [w0] holds
    for its path over the box that its key spells. *)
Definition snapshot_cache (w0 : World) (self : WkwData) : Prop :=
  forall p key data,
    (data_cache_input self !! p) ≫= (fun inner => inner !! key) = Some data ->
    exists ds ox oy oz ex ey ez rest,
      key = str_of_ints (ox :: oy :: oz :: ex :: ey :: ez :: rest) /\
      datasets w0 !! p = Some ds /\
      data = cube ds (ox, oy, oz) (ex, ey, ez).

(** The memory tier has entries for the input and for the target of a
    source. *)
Definition source_cached (self : WkwData) (d : DataSource) : Prop :=
  exists p b p' b',
    input_path d = PStr p /\ input_bbox d = py_ints b /\
    is_Some (memory_entry self p b) /\
    target_path d = PStr p' /\ target_bbox d = py_ints b' /\
    is_Some (memory_entry self p' b').

(** The memory tier holds, for a source, the cubes that the store of [w0]
    holds over its input box and over its target box. *)
Definition source_snapshot (w0 : World) (st : WkwData) (d : DataSource) : Prop :=
  forall ty, ty = "input" \/ ty = "target" ->
    exists p ds ox oy oz ex ey ez rest,
      path_of_role ty d = Some (PStr p) /\
      bbox_of_role ty d = Some (py_ints (ox :: oy :: oz :: ex :: ey :: ez :: rest)) /\
      datasets w0 !! p = Some ds /\
      memory_entry st p (ox :: oy :: oz :: ex :: ey :: ez :: rest)
        = Some (cube ds (ox, oy, oz) (ex, ey, ez)).

(** The example source behind the memory tier alone, the default caching. *)
Definition ram_init : result (WkwData * World) :=
  init (2, 2, 1) (2, 2, 1) [example_source] None None true None false true false None
       example_world (fun l => l).

Definition ram_dataset : WkwData :=
  match ram_init with Ok (st, _) => st | Raise _ => example_blank end.

Definition ram_world : World :=
  match ram_init with Ok (_, w) => w | Raise _ => example_world end.

(** ** Descriptor files in the long form *)

(** [WkwData.datasources_from_json]: one [DataSource] per entry of the
    document, in the order of its keys. *)
Definition datasources_from_json (files : gmap string (dict (dict pyval)))
    (json_path : string) : result (list DataSource) :=
  datasources_dict ← (match files !! json_path with
                      | Some d => Ok d | None => Raise FileNotFoundError end);
  mapR (fun kv : string * dict pyval => DataSource_of_kwargs kv.2) datasources_dict.

(** [d._replace(id=v)] and [d._replace(input_bbox=b, target_bbox=b)] *)
Definition replace_id (d : DataSource) (v : pyval) : DataSource :=
  mkDataSource v (input_path d) (input_bbox d) (input_mean d) (input_std d)
    (target_path d) (target_bbox d) (target_class d) (target_binary d).




(** [WkwData.concat_datasources] called without [json_path_out]: the sources
    of the files one after the other, renumbered from 0. *)
Definition concat_datasources (files : gmap string (dict (dict pyval)))
    (json_paths_in : list string) : result (list DataSource) :=
  all_ds ← foldR (fun all_ds json_path =>
                    cur_ds ← datasources_from_json files json_path;
                    Ok (all_ds ++ cur_ds)) json_paths_in [];
  Ok (imap (fun it cur_data_source =>
              replace_id cur_data_source (PStr (str_of_Z (Z.of_nat it)))) all_ds).



(** * Properties *)

(** ** Results and Python indexing *)

Lemma bind_Ok {A B} (m : result A) (f : A -> result B) (b : B) :
  m ≫= f = Ok b <-> exists a, m = Ok a /\ f a = Ok b.
Proof.
  destruct m as [a|e]; simpl; split.
  - intros H; exists a; auto.
  - intros (a' & Ha & Hf); congruence.
  - discriminate.
  - intros (a' & Ha & _); discriminate.
Qed.

Lemma fmap_Ok {A B} (m : result A) (f : A -> B) (b : B) :
  f <$> m = Ok b <-> exists a, m = Ok a /\ b = f a.
Proof.
  destruct m as [a|e]; simpl; split.
  - intros H; exists a; split; congruence.
  - intros (a' & Ha & Hf); congruence.
  - discriminate.
  - intros (a' & Ha & _); discriminate.
Qed.

(** Inversion of a successful monadic computation, one step at a time. *)
Ltac inv_Ok H :=
  cbv beta zeta in H;
  match type of H with
  | Ok ?x = Ok ?y => injection H as H; first [subst y | subst x | idtac]
  | Raise _ = Ok _ => discriminate H
  | (_ ≫= _) = Ok _ =>
      let a := fresh "a" in let Ha := fresh "Ha" in
      apply bind_Ok in H; destruct H as (a & Ha & H)
  | (_ <$> _) = Ok _ =>
      let a := fresh "a" in let Ha := fresh "Ha" in
      apply fmap_Ok in H; destruct H as (a & Ha & H)
  end.

(** Case analysis on the integer comparisons of the goal. *)
Ltac case_Zb :=
  repeat match goal with
  | |- context [?a <? ?b] => destruct (Z.ltb_spec a b)
  | |- context [?a <=? ?b] => destruct (Z.leb_spec a b)
  | |- context [?a =? ?b] => destruct (Z.eqb_spec a b)
  end; simpl; try lia.

(** Case analysis on the test of a conditional at the head of a hypothesis. *)
Ltac case_if H :=
  match type of H with
  | (if ?c then _ else _) = _ => let E := fresh "Hif" in destruct c eqn:E
  | (if ?c then _ else _) ≫= _ = _ => let E := fresh "Hif" in destruct c eqn:E
  end.

Lemma py_index_nat {A} (l : list A) (i : nat) (a : A) :
  l !! i = Some a -> py_index l (Z.of_nat i) = Ok a.
Proof.
  intros H. unfold py_index.
  pose proof (lookup_lt_Some _ _ _ H) as Hlt.
  case_Zb. rewrite Nat2Z.id, H. reflexivity.
Qed.

Lemma py_index_nat_inv {A} (l : list A) (i : nat) (a : A) :
  py_index l (Z.of_nat i) = Ok a -> l !! i = Some a.
Proof.
  unfold py_index. case_Zb; try discriminate.
  rewrite Nat2Z.id. destruct (l !! i); [|discriminate]. congruence.
Qed.

Lemma py_index_last {A} (l : list A) (a : A) :
  py_index (l ++ [a]) (-1) = Ok a.
Proof.
  unfold py_index. rewrite length_app. simpl. case_Zb.
  replace (Z.to_nat (-1 + Z.of_nat (length l + 1))) with (length l) by lia.
  rewrite lookup_app_r by lia. rewrite Nat.sub_diag. reflexivity.
Qed.

Lemma mapR_as_int_py_ints (l : list Z) : mapR as_int (PInt <$> l) = Ok l.
Proof.
  induction l as [|a l IH]; [done|].
  rewrite fmap_cons. cbn [mapR as_int]. rewrite IH. done.
Qed.

Lemma as_ints_py_ints (l : list Z) : as_ints (py_ints l) = Ok l.
Proof. apply mapR_as_int_py_ints. Qed.

(** ** Coordinate grids *)

Lemma np_arange_steps (c n s : Z) :
  s <> 0 -> np_arange c (c + n * s) s = (fun i => c + i * s) <$> seqZ 0 n.
Proof.
  intros Hs. unfold np_arange. f_equal. f_equal.
  replace (- (c + n * s - c)) with ((- n) * s) by lia.
  rewrite Z.div_mul by done. lia.
Qed.

Lemma axis_centers_steps (o e w s : Z) :
  s <> 0 ->
  axis_centers o e w s =
  (fun i => corner_min_target o w + i * s) <$> seqZ 0 (n_fits e w s).
Proof.
  intros Hs. unfold axis_centers, corner_max_target.
  rewrite <- np_arange_steps by done. f_equal. lia.
Qed.




Lemma np_meshgrid_shape (x y z : list Z) :
  let '(xm, ym, zm) := np_meshgrid x y z in
  shape xm = (length y, length x, length z) /\
  shape ym = (length y, length x, length z) /\
  shape zm = (length y, length x, length z).
Proof. done. Qed.





(** ** Global index ranges *)

(** The loop [for i in range(n)] as an induction on the number of turns. *)
Lemma foldR_seqZ_ind {St} (f : St -> Z -> result St) (P : nat -> St -> Prop)
    (n : nat) (s s' : St) :
  P 0%nat s ->
  (forall k t t', (k < n)%nat -> P k t -> f t (Z.of_nat k) = Ok t' -> P (S k) t') ->
  foldR f (seqZ 0 (Z.of_nat n)) s = Ok s' ->
  P n s'.
Proof.
  intros H0 Hstep.
  assert (Hgen : forall m k t, (k + m = n)%nat -> P k t ->
                   foldR f (seqZ (Z.of_nat k) (Z.of_nat m)) t = Ok s' -> P n s').
  { induction m as [|m IH]; intros k t Hkm Hk Hf.
    - simpl in Hf. injection Hf as <-. by replace n with k by lia.
    - rewrite seqZ_cons in Hf by lia. simpl in Hf. inv_Ok Hf.
      apply (IH (S k) a); [lia|apply (Hstep k t a); [lia|done|done]|].
      replace (Z.of_nat (S k)) with (Z.succ (Z.of_nat k)) by lia.
      by replace (Z.of_nat m) with (Z.pred (Z.of_nat (S m))) by lia. }
  intros Hf. by apply (Hgen n 0%nat s).
Qed.

(** Totality of such a loop, from the totality of its body on the states that
    an invariant describes. *)
Lemma foldR_seqZ_total {St} (f : St -> Z -> result St) (P : nat -> St -> Prop)
    (n : nat) (s : St) :
  P 0%nat s ->
  (forall k t, (k < n)%nat -> P k t -> exists t', f t (Z.of_nat k) = Ok t' /\ P (S k) t') ->
  exists s', foldR f (seqZ 0 (Z.of_nat n)) s = Ok s' /\ P n s'.
Proof.
  intros H0 Hstep.
  assert (Hgen : forall m k t, (k + m = n)%nat -> P k t ->
                   exists s', foldR f (seqZ (Z.of_nat k) (Z.of_nat m)) t = Ok s' /\ P n s').
  { induction m as [|m IH]; intros k t Hkm Hk.
    - exists t. split; [done|]. by replace n with k by lia.
    - destruct (Hstep k t) as (t' & Ht' & HP); [lia|done|].
      destruct (IH (S k) t') as (s' & Hs' & HP'); [lia|done|].
      exists s'. split; [|done].
      rewrite seqZ_cons by lia. simpl. rewrite Ht'. simpl.
      replace (Z.succ (Z.of_nat k)) with (Z.of_nat (S k)) by lia.
      by replace (Z.pred (Z.of_nat (S m))) with (Z.of_nat m) by lia. }
  by apply (Hgen n 0%nat s).
Qed.

Lemma get_data_mesh_config (a b : WkwData) (i : Z) :
  config a = config b -> get_data_mesh a i = get_data_mesh b i.
Proof.
  unfold config. intros H. injection H as H1 H2 H3 H4 H5 H6 H7 H8 H9 H10 H11.
  unfold get_data_mesh. by rewrite H1, H3, H5.
Qed.

(** After [get_data_meshes] the object holds one mesh per source, the one
    [get_data_mesh] computes. *)
Lemma get_data_meshes_Ok (self self' : WkwData) :
  data_meshes self = [] ->
  get_data_meshes self = Ok self' ->
  config self' = config self /\
  data_inds_min self' = data_inds_min self /\
  data_inds_max self' = data_inds_max self /\
  data_cache_input self' = data_cache_input self /\
  length (data_meshes self') = length (data_sources self) /\
  forall i m, data_meshes self' !! i = Some m -> get_data_mesh self (Z.of_nat i) = Ok m.
Proof.
  intros Hnil Hf. unfold get_data_meshes in Hf.
  apply (foldR_seqZ_ind _ (fun k t =>
           config t = config self /\
           data_inds_min t = data_inds_min self /\
           data_inds_max t = data_inds_max self /\
           data_cache_input t = data_cache_input self /\
           length (data_meshes t) = k /\
           forall i m, data_meshes t !! i = Some m -> get_data_mesh self (Z.of_nat i) = Ok m))
    in Hf; [done| |].
  - rewrite Hnil. repeat split; done.
  - intros k t t' Hk (Hc & Hmin & Hmax & Hca & Hlen & Hm) Ht. inv_Ok Ht. inv_Ok Ht.
    simpl. repeat split; try done.
    + rewrite length_app. simpl. lia.
    + intros i m Hi. apply lookup_app_Some in Hi as [Hi|[Hge Hi]]; [by apply Hm|].
      rewrite Hlen in Hge, Hi.
      destruct (i - k)%nat as [|j] eqn:Hj; [|by destruct j].
      injection Hi as <-. replace i with k by lia.
      by rewrite <- (get_data_mesh_config t self).
Qed.

Lemma get_data_ind_ranges_step_Ok (self self' : WkwData) (k : nat) :
  length (data_inds_min self) = k ->
  ranges_inv (data_meshes self) (data_inds_min self) (data_inds_max self) ->
  get_data_ind_ranges_step self (Z.of_nat k) = Ok self' ->
  config self' = config self /\
  data_meshes self' = data_meshes self /\
  data_cache_input self' = data_cache_input self /\
  length (data_inds_min self') = S k /\
  ranges_inv (data_meshes self') (data_inds_min self') (data_inds_max self').
Proof.
  intros Hlen (Hl & H0 & Hnext & Hsz) Hf. unfold get_data_ind_ranges_step in Hf.
  inv_Ok Hf. inv_Ok Hf. inv_Ok Hf. inv_Ok Hf. simpl.
  apply py_index_nat_inv in Ha1.
  assert (Hmins : exists v, a = data_inds_min self ++ [v] /\
            (k = 0%nat -> v = 0) /\
            (forall j b, k = S j -> data_inds_max self !! j = Some b -> v = b + 1)).
  { destruct (Z.of_nat k =? 0) eqn:Hk.
    - injection Ha as <-. exists 0. split; [done|]. split; [done|]. intros; lia.
    - inv_Ok Ha. inv_Ok Ha. exists (a2 + 1). split; [done|]. split; [intros; lia|].
      intros j b -> Hb. replace (Z.of_nat (S j) - 1) with (Z.of_nat j) in Ha2 by lia.
      apply py_index_nat_inv in Ha2. congruence. }
  destruct Hmins as (v & -> & Hv0 & HvS). clear Ha.
  apply py_index_nat_inv in Ha0.
  rewrite lookup_app_r, Hlen, Nat.sub_diag in Ha0 by lia. injection Ha0 as <-.
  repeat split; try done.
  - rewrite length_app. simpl. lia.
  - rewrite !length_app. simpl. lia.
  - intros u Hu. destruct k as [|k].
    + destruct (data_inds_min self); [|done]. simpl in Hu. injection Hu as <-. by apply Hv0.
    + rewrite lookup_app_l in Hu by lia. by apply H0.
  - intros i u b Hb Hu.
    apply lookup_app_Some in Hb as [Hb|[Hge Hb]].
    + apply lookup_app_Some in Hu as [Hu|[Hge' Hu]]; [by apply (Hnext i)|].
      destruct (S i - length (data_inds_min self))%nat as [|j] eqn:Hj; [|by destruct j].
      injection Hu as <-. apply (HvS i); [lia|done].
    + pose proof (lookup_lt_Some _ _ _ Hu) as Hlt. rewrite length_app in Hlt.
      simpl in Hlt. lia.
  - intros i u b m Hu Hb Hm.
    apply lookup_app_Some in Hu as [Hu|[Hge Hu]].
    + apply lookup_app_Some in Hb as [Hb|[Hge' Hb]]; [by apply (Hsz i)|].
      pose proof (lookup_lt_Some _ _ _ Hu). lia.
    + destruct (i - length (data_inds_min self))%nat as [|j] eqn:Hj; [|by destruct j].
      injection Hu as <-.
      apply lookup_app_Some in Hb as [Hb|[Hge' Hb]].
      { pose proof (lookup_lt_Some _ _ _ Hb). lia. }
      destruct (i - length (data_inds_max self))%nat as [|j] eqn:Hj'; [|by destruct j].
      injection Hb as <-.
      assert (i = k) as -> by lia. congruence.
Qed.

Lemma get_data_ind_ranges_Ok (self self' : WkwData) :
  data_inds_min self = [] -> data_inds_max self = [] ->
  get_data_ind_ranges self = Ok self' ->
  config self' = config self /\
  data_meshes self' = data_meshes self /\
  data_cache_input self' = data_cache_input self /\
  length (data_inds_min self') = length (data_sources self) /\
  ranges_inv (data_meshes self') (data_inds_min self') (data_inds_max self').
Proof.
  intros Hmin Hmax Hf. unfold get_data_ind_ranges in Hf.
  apply (foldR_seqZ_ind _ (fun k t =>
           config t = config self /\
           data_meshes t = data_meshes self /\
           data_cache_input t = data_cache_input self /\
           length (data_inds_min t) = k /\
           ranges_inv (data_meshes t) (data_inds_min t) (data_inds_max t)))
    in Hf; [done| |].
  - rewrite Hmin, Hmax. repeat split; done.
  - intros k t t' Hk (Hc & Hm & Hca & Hlen & Hinv) Ht.
    destruct (get_data_ind_ranges_step_Ok t t' k Hlen Hinv Ht) as (? & ? & ? & ? & ?).
    split; [congruence|]. split; [congruence|]. split; [congruence|]. done.
Qed.

Lemma same_index_refl (a : WkwData) : same_index a a.
Proof. by repeat split. Qed.

Lemma same_index_trans (a b c : WkwData) :
  same_index a b -> same_index b c -> same_index a c.
Proof.
  intros (? & ? & ? & ?) (? & ? & ? & ?). repeat split; congruence.
Qed.

Lemma get_data_ind_splits_same (self self' : WkwData) (split : DataSplit)
    (permutation : list Z -> list Z) :
  get_data_ind_splits self split permutation = Ok self' ->
  same_index self' self /\ data_cache_input self' = data_cache_input self.
Proof.
  unfold get_data_ind_splits. intros H.
  destruct (train split).
  - repeat inv_Ok H. case_if H; [|discriminate].
    injection H as <-. by repeat split.
  - repeat inv_Ok H. by repeat split.
Qed.

Lemma fill_cache_same (self self' : WkwData) (w w' : World) (p b : pyval) :
  fill_cache self w p b = Ok (self', w') ->
  same_index self' self /\
  data_train_inds self' = data_train_inds self /\
  (cache_RAM self = false -> data_cache_input self' = data_cache_input self).
Proof.
  unfold fill_cache. intros H. repeat inv_Ok H.
  destruct a1 as [data w1]. inv_Ok H. injection H as <- <-.
  destruct (cache_RAM self) eqn:HR.
  - destruct (data_cache_input self !! a); by repeat split.
  - by repeat split.
Qed.

Lemma fill_caches_same (self self' : WkwData) (w w' : World) :
  fill_caches self w = Ok (self', w') ->
  same_index self' self /\
  data_train_inds self' = data_train_inds self /\
  (cache_RAM self = false -> data_cache_input self' = data_cache_input self).
Proof.
  unfold fill_caches.
  assert (Hgen : forall l s v,
            foldR (fun '(self, w) data_source =>
                     '(self, w) ← fill_cache self w (input_path data_source)
                                   (input_bbox data_source);
                     fill_cache self w (target_path data_source) (target_bbox data_source))
                  l (s, v) = Ok (self', w') ->
            same_index self' s /\
            data_train_inds self' = data_train_inds s /\
            (cache_RAM s = false -> data_cache_input self' = data_cache_input s)).
  { induction l as [|d l IH]; intros s v H.
    - simpl in H. injection H as <- <-. split; [apply same_index_refl|done].
    - simpl in H. inv_Ok H. destruct a as [s2 v2]. inv_Ok Ha. destruct a as [s1 v1].
      apply fill_cache_same in Ha0 as (Hs1 & Ht1 & Hc1).
      apply fill_cache_same in Ha as (Hs2 & Ht2 & Hc2).
      apply IH in H as (Hs3 & Ht3 & Hc3).
      assert (HR1 : cache_RAM s1 = cache_RAM s).
      { destruct Hs1 as (Hc & _). unfold config in Hc. by injection Hc. }
      assert (HR2 : cache_RAM s2 = cache_RAM s1).
      { destruct Hs2 as (Hc & _). unfold config in Hc. by injection Hc. }
      split; [eauto using same_index_trans|]. split; [congruence|].
      intros HR. rewrite Hc3, Hc2, Hc1; congruence. }
  intros H. by apply (Hgen (data_sources self) self w).
Qed.

(** The state of a dataset that [__init__] has built: the configuration is
    the one given, there is one mesh per source, the one [get_data_mesh]
    computes, and the ranges follow the meshes. *)
Lemma init_Ok (input_shape0 target_shape0 : vec3) (D : list DataSource)
    (split : option DataSplit) (stride0 : option vec3) (nrm : bool)
    (tr : option transform) (pad0 cR cH : bool) (root : option string) (w w' : World)
    (permutation : list Z -> list Z) (st : WkwData) :
  init input_shape0 target_shape0 D split stride0 nrm tr pad0 cR cH root w permutation
    = Ok (st, w') ->
  config st = (input_shape0, target_shape0, D, split, default target_shape0 stride0, nrm, tr,
               pad0, (cR, cH, default "." root)) /\
  length (data_meshes st) = length D /\
  length (data_inds_min st) = length D /\
  (forall i m, data_meshes st !! i = Some m -> get_data_mesh st (Z.of_nat i) = Ok m) /\
  ranges_inv (data_meshes st) (data_inds_min st) (data_inds_max st) /\
  (cR = false -> data_cache_input st = ∅).
Proof.
  unfold init. intros H. inv_Ok H. inv_Ok H. inv_Ok H.
  apply get_data_meshes_Ok in Ha as (Hc1 & Hmin1 & Hmax1 & Hca1 & Hlen1 & Hm1); [|done].
  apply get_data_ind_ranges_Ok in Ha0 as (Hc2 & Hm2 & Hca2 & Hlen2 & Hinv2); [|done|done].
  assert (Hs3 : same_index a1 a0 /\ data_cache_input a1 = data_cache_input a0).
  { destruct split as [sp|].
    - by apply get_data_ind_splits_same in Ha1.
    - injection Ha1 as <-. split; [apply same_index_refl|done]. }
  destruct Hs3 as ((Hc3 & Hm3 & Hmin3 & Hmax3) & Hca3).
  assert (Hs4 : same_index st a1 /\
                (cR = false -> data_cache_input st = data_cache_input a1)).
  { destruct (cR || cH) eqn:Hcache.
    - apply fill_caches_same in H as (Hs & _ & Hca). split; [done|].
      intros HR. apply Hca. unfold config in Hc3, Hc2, Hc1.
      injection Hc3 as _ _ _ _ _ _ _ _ Hx _ _. injection Hc2 as _ _ _ _ _ _ _ _ Hy _ _.
      injection Hc1 as _ _ _ _ _ _ _ _ Hz _ _. simpl in Hz. congruence.
    - injection H as <- <-. split; [apply same_index_refl|done]. }
  destruct Hs4 as ((Hc4 & Hm4 & Hmin4 & Hmax4) & Hca4).
  assert (Hc : config st = config a) by congruence.
  split; [by rewrite Hc, Hc1|].
  split; [rewrite Hm4, Hm3, Hm2, Hlen1; done|].
  split; [rewrite Hmin4, Hmin3, Hlen2; unfold config in Hc1; by injection Hc1 as _ _ -> |].
  split.
  - intros i m Hi. rewrite Hm4, Hm3, Hm2 in Hi.
    rewrite (get_data_mesh_config st a) by done.
    rewrite (get_data_mesh_config a _) by done. by apply Hm1.
  - split; [by rewrite Hm4, Hm3, Hmin4, Hmin3, Hmax4, Hmax3|].
    intros HR. rewrite (Hca4 HR), Hca3, Hca2, Hca1. done.
Qed.

(** *** Locating a global index *)

Lemma np_size_nonneg (a : ndarray3) : 0 <= np_size a.
Proof. unfold np_size. destruct (shape a) as [[n0 n1] n2]. nia. Qed.

Lemma first_ge_Some (maxs : list Z) (v : Z) (s : nat) :
  first_ge maxs v = Some s ->
  (exists b, maxs !! s = Some b /\ v <= b) /\
  (forall j b, (j < s)%nat -> maxs !! j = Some b -> b < v).
Proof.
  revert s. induction maxs as [|m maxs IH]; intros s H; [done|].
  simpl in H. destruct (Z.leb_spec v m) as [Hle|Hgt].
  - injection H as <-. split; [by exists m|]. intros; lia.
  - destruct (first_ge maxs v) as [s'|] eqn:Hs; [|done].
    injection H as <-. destruct (IH s' eq_refl) as ((b & Hb & Hvb) & Hlt).
    split; [by exists b|].
    intros [|j] c Hj Hc; simpl in Hc; [by injection Hc as <-|].
    apply (Hlt j); [lia|done].
Qed.

Lemma first_ge_is_Some (maxs : list Z) (v : Z) (j : nat) (b : Z) :
  maxs !! j = Some b -> v <= b -> is_Some (first_ge maxs v).
Proof.
  revert j. induction maxs as [|m maxs IH]; intros j Hj Hv; [done|].
  simpl. destruct (Z.leb_spec v m); [by eexists|].
  destruct j as [|j]; simpl in Hj; [injection Hj as ->; lia|].
  destruct (IH j Hj Hv) as (s & ->). by eexists.
Qed.

(** Unravelling a flat position of the grid gives a cell of the grid, and
    ravelling the cell gives the position back. *)
Lemma np_unravel_index_ravel (i : Z) (dims : nat * nat * nat) :
  0 <= i < (let '(n0, n1, n2) := dims in Z.of_nat n0 * Z.of_nat n1 * Z.of_nat n2) ->
  exists c, np_unravel_index i dims = Ok c /\
            ravel_index c dims = i /\
            (let '(n0, n1, n2) := dims in
             let '(i0, i1, i2) := c in
             0 <= i0 < Z.of_nat n0 /\ 0 <= i1 < Z.of_nat n1 /\ 0 <= i2 < Z.of_nat n2).
Proof.
  destruct dims as [[n0 n1] n2]. intros Hi. unfold np_unravel_index.
  replace ((0 <=? i) && (i <? Z.of_nat n0 * Z.of_nat n1 * Z.of_nat n2)) with true
    by (symmetry; case_Zb).
  eexists. split; [done|].
  assert (H1 : 0 < Z.of_nat n1) by nia.
  assert (H2 : 0 < Z.of_nat n2) by nia.
  pose proof (Z.div_mod i (Z.of_nat n2) ltac:(lia)) as Hd2.
  pose proof (Z.mod_pos_bound i (Z.of_nat n2) H2) as Hm2.
  pose proof (Z.div_mod (i `div` Z.of_nat n2) (Z.of_nat n1) ltac:(lia)) as Hd1.
  pose proof (Z.mod_pos_bound (i `div` Z.of_nat n2) (Z.of_nat n1) H1) as Hm1.
  rewrite Z.mul_comm. rewrite <- Z.div_div by lia.
  assert (H0 : 0 <= (i `div` Z.of_nat n2) `div` Z.of_nat n1 < Z.of_nat n0).
  { split.
    - apply Z.div_pos; [apply Z.div_pos|]; lia.
    - apply Z.div_lt_upper_bound; [lia|]. apply Z.div_lt_upper_bound; [lia|]. nia. }
  split; [|done]. unfold ravel_index. nia.
Qed.

(** The maxima of the ranges never decrease along the sources. *)
Lemma ranges_inv_mono (meshes : list DataMesh) (mins maxs : list Z) (i j : nat) (b c : Z) :
  ranges_inv meshes mins maxs -> length meshes = length mins ->
  (i <= j)%nat -> maxs !! i = Some b -> maxs !! j = Some c -> b <= c.
Proof.
  intros (Hl & H0 & Hnext & Hsz) Hlm Hij Hb. revert c.
  induction j as [|j IH]; intros c Hc.
  - assert (i = 0%nat) as -> by lia. assert (b = c) by congruence. lia.
  - destruct (decide (i = S j)) as [->|Hne]; [assert (b = c) by congruence; lia|].
    pose proof (lookup_lt_Some _ _ _ Hc) as Hlt.
    destruct (lookup_lt_is_Some_2 maxs j ltac:(lia)) as (b' & Hb').
    destruct (lookup_lt_is_Some_2 mins (S j) ltac:(lia)) as (a & Ha).
    destruct (lookup_lt_is_Some_2 meshes (S j) ltac:(lia)) as (m & Hm).
    pose proof (Hnext j a b' Hb' Ha). pose proof (Hsz (S j) a c m Ha Hc Hm).
    pose proof (np_size_nonneg (mesh_x (mesh_target m))).
    pose proof (IH ltac:(lia) b' Hb'). lia.
Qed.

(** Every range starts at a non-negative index. *)
Lemma ranges_inv_min_nonneg (meshes : list DataMesh) (mins maxs : list Z) (i : nat) (a : Z) :
  ranges_inv meshes mins maxs -> length meshes = length mins ->
  mins !! i = Some a -> 0 <= a.
Proof.
  intros Hinv Hlm. pose proof Hinv as (Hl & H0 & Hnext & Hsz). revert a.
  induction i as [|i IH]; intros a Ha; [by rewrite (H0 a Ha)|].
  pose proof (lookup_lt_Some _ _ _ Ha) as Hlt.
  destruct (lookup_lt_is_Some_2 maxs i ltac:(lia)) as (b & Hb).
  destruct (lookup_lt_is_Some_2 mins i ltac:(lia)) as (a' & Ha').
  destruct (lookup_lt_is_Some_2 meshes i ltac:(lia)) as (m & Hm).
  pose proof (Hnext i a b Hb Ha). pose proof (Hsz i a' b m Ha' Hb Hm).
  pose proof (np_size_nonneg (mesh_x (mesh_target m))).
  pose proof (IH a' Ha'). lia.
Qed.

(** The heart of the index translator: under the invariant of the ranges, an
    index not above the last maximum is located in the one range that holds
    it, at a cell whose flat position gives the index back. *)
Lemma locate_in_ranges (self : WkwData) (idx last_max : Z) :
  ranges_inv (data_meshes self) (data_inds_min self) (data_inds_max self) ->
  length (data_meshes self) = length (data_inds_min self) ->
  last (data_inds_max self) = Some last_max ->
  0 <= idx <= last_max ->
  exists (s : nat) (c : Z * Z * Z) (a b : Z) (m : DataMesh),
    get_source_mesh_for_sample_idx self idx = Ok (s, c) /\
    data_inds_min self !! s = Some a /\
    data_inds_max self !! s = Some b /\
    data_meshes self !! s = Some m /\
    a <= idx <= b /\
    (forall s' a' b', data_inds_min self !! s' = Some a' ->
                      data_inds_max self !! s' = Some b' ->
                      a' <= idx <= b' -> s' = s) /\
    a + ravel_index c (shape (mesh_x (mesh_target m))) = idx /\
    (let '(n0, n1, n2) := shape (mesh_x (mesh_target m)) in
     let '(i0, i1, i2) := c in
     0 <= i0 < Z.of_nat n0 /\ 0 <= i1 < Z.of_nat n1 /\ 0 <= i2 < Z.of_nat n2).
Proof.
  intros Hinv Hlm Hlast Hidx. pose proof Hinv as (Hl & H0 & Hnext & Hsz).
  rewrite last_lookup in Hlast.
  destruct (first_ge_is_Some _ idx _ _ Hlast ltac:(lia)) as (s & Hs).
  destruct (first_ge_Some _ _ _ Hs) as ((b & Hb & Hvb) & Hlt).
  pose proof (lookup_lt_Some _ _ _ Hb) as Hsl.
  destruct (lookup_lt_is_Some_2 (data_inds_min self) s ltac:(lia)) as (a & Ha).
  destruct (lookup_lt_is_Some_2 (data_meshes self) s ltac:(lia)) as (m & Hm).
  assert (Hab : a <= idx).
  { destruct s as [|s]; [rewrite (H0 a Ha); lia|].
    destruct (lookup_lt_is_Some_2 (data_inds_max self) s ltac:(lia)) as (b' & Hb').
    pose proof (Hnext s a b' Hb' Ha). pose proof (Hlt s b' ltac:(lia) Hb'). lia. }
  pose proof (Hsz s a b m Ha Hb Hm) as Hbsz.
  destruct (np_unravel_index_ravel (idx - a) (shape (mesh_x (mesh_target m))))
    as (c & Hc & Hrav & Hin).
  { unfold np_size in Hbsz. destruct (shape (mesh_x (mesh_target m))) as [[n0 n1] n2]. lia. }
  exists s, c, a, b, m.
  split.
  { unfold get_source_mesh_for_sample_idx, argmax_ge.
    destruct (data_inds_max self) as [|m0 l] eqn:Hmaxs; [done|].
    rewrite Hs. simpl. rewrite (py_index_nat _ _ _ Ha). simpl.
    rewrite (py_index_nat _ _ _ Hm). simpl. rewrite Hc. done. }
  split; [done|]. split; [done|]. split; [done|]. split; [lia|].
  split; [|split; [lia|done]].
  intros s' a' b' Ha' Hb' Hin'.
  destruct (Nat.lt_trichotomy s' s) as [Hlt'|[->|Hgt]]; [|done|].
  - pose proof (Hlt s' b' Hlt' Hb'). lia.
  - destruct s' as [|s']; [lia|].
    pose proof (lookup_lt_Some _ _ _ Hb') as Hsl'.
    destruct (lookup_lt_is_Some_2 (data_inds_max self) s' ltac:(lia)) as (b'' & Hb'').
    pose proof (Hnext s' a' b'' Hb'' Ha').
    pose proof (ranges_inv_mono _ _ _ s s' b b'' Hinv Hlm ltac:(lia) Hb Hb''). lia.
Qed.

(** C1. After construction the ranges of global indices tile the dataset:
    there are as many ranges as sources, the first starts at 0, each later one
    starts at the maximum of its predecessor plus one, each maximum is the
    minimum plus the cell count of the mesh minus one, and the length of the
    dataset is the last maximum plus one. Every index between 0 and the
    length minus one is located by [get_source_mesh_for_sample_idx] in a
    source whose range holds it, no other range holds it, and the cell it
    gets lies in the grid of that source at the row-major position that
    gives the index back. *)
Theorem index_ranges_tile (input_shape0 target_shape0 : vec3) (D : list DataSource)
    (split : option DataSplit) (stride0 : option vec3) (nrm : bool)
    (tr : option transform) (pad0 cR cH : bool) (root : option string) (w w' : World)
    (permutation : list Z -> list Z) (st : WkwData) :
  D <> [] ->
  init input_shape0 target_shape0 D split stride0 nrm tr pad0 cR cH root w permutation
    = Ok (st, w') ->
  exists n : Z,
    len st = Ok n /\
    length (data_inds_min st) = length D /\
    length (data_inds_max st) = length D /\
    length (data_meshes st) = length D /\
    data_inds_min st !! 0%nat = Some 0 /\
    (forall i a b, data_inds_max st !! i = Some b -> data_inds_min st !! S i = Some a ->
                   a = b + 1) /\
    (forall i a b m, data_inds_min st !! i = Some a -> data_inds_max st !! i = Some b ->
                     data_meshes st !! i = Some m ->
                     b = a + np_size (mesh_x (mesh_target m)) - 1 /\ 0 <= a /\ b <= n - 1) /\
    (forall idx, 0 <= idx <= n - 1 ->
       exists (s : nat) (c : Z * Z * Z) (a b : Z) (m : DataMesh),
         get_source_mesh_for_sample_idx st idx = Ok (s, c) /\
         data_inds_min st !! s = Some a /\
         data_inds_max st !! s = Some b /\
         data_meshes st !! s = Some m /\
         a <= idx <= b /\
         (forall s' a' b', data_inds_min st !! s' = Some a' ->
                           data_inds_max st !! s' = Some b' ->
                           a' <= idx <= b' -> s' = s) /\
         a + ravel_index c (shape (mesh_x (mesh_target m))) = idx /\
         (let '(n0, n1, n2) := shape (mesh_x (mesh_target m)) in
          let '(i0, i1, i2) := c in
          0 <= i0 < Z.of_nat n0 /\ 0 <= i1 < Z.of_nat n1 /\ 0 <= i2 < Z.of_nat n2)).
Proof.
  intros HD Hinit.
  destruct (init_Ok _ _ _ _ _ _ _ _ _ _ _ _ _ _ _ Hinit)
    as (Hc & Hlm & Hlmin & Hmesh & Hinv & _).
  pose proof Hinv as (Hl & H0 & Hnext & Hsz).
  assert (Hpos : (0 < length D)%nat) by (destruct D; [done|simpl; lia]).
  destruct (lookup_lt_is_Some_2 (data_inds_max st) (pred (length (data_inds_max st)))
              ltac:(lia)) as (last_max & Hlast).
  assert (Hlen : len st = Ok (last_max + 1)).
  { unfold len, py_index. case_Zb.
    replace (Z.to_nat (-1 + Z.of_nat (length (data_inds_max st))))
      with (pred (length (data_inds_max st))) by lia.
    by rewrite Hlast. }
  exists (last_max + 1).
  split; [done|]. split; [done|]. split; [lia|]. split; [done|].
  split.
  { destruct (lookup_lt_is_Some_2 (data_inds_min st) 0 ltac:(lia)) as (a & Ha).
    by rewrite Ha, (H0 a Ha). }
  split; [done|].
  split.
  { intros i a b m Ha Hb Hm. split; [by apply (Hsz i)|].
    split; [apply (ranges_inv_min_nonneg _ _ _ i a Hinv); [lia|done]|].
    pose proof (lookup_lt_Some _ _ _ Hb).
    pose proof (ranges_inv_mono _ _ _ i (pred (length (data_inds_max st))) b last_max
                  Hinv ltac:(lia) ltac:(lia) Hb Hlast). lia. }
  intros idx Hidx.
  apply (locate_in_ranges st idx last_max Hinv); [lia| |lia].
  by rewrite last_lookup.
Qed.

Lemma index_ranges_tile_witness :
  example_sources <> [] /\
  exists n : Z,
    len example_dataset = Ok n /\
    length (data_inds_min example_dataset) = length example_sources /\
    length (data_inds_max example_dataset) = length example_sources /\
    length (data_meshes example_dataset) = length example_sources /\
    data_inds_min example_dataset !! 0%nat = Some 0 /\
    (forall i a b, data_inds_max example_dataset !! i = Some b ->
                   data_inds_min example_dataset !! S i = Some a -> a = b + 1) /\
    (forall i a b m, data_inds_min example_dataset !! i = Some a ->
                     data_inds_max example_dataset !! i = Some b ->
                     data_meshes example_dataset !! i = Some m ->
                     b = a + np_size (mesh_x (mesh_target m)) - 1 /\ 0 <= a /\ b <= n - 1) /\
    (forall idx, 0 <= idx <= n - 1 ->
       exists (s : nat) (c : Z * Z * Z) (a b : Z) (m : DataMesh),
         get_source_mesh_for_sample_idx example_dataset idx = Ok (s, c) /\
         data_inds_min example_dataset !! s = Some a /\
         data_inds_max example_dataset !! s = Some b /\
         data_meshes example_dataset !! s = Some m /\
         a <= idx <= b /\
         (forall s' a' b', data_inds_min example_dataset !! s' = Some a' ->
                           data_inds_max example_dataset !! s' = Some b' ->
                           a' <= idx <= b' -> s' = s) /\
         a + ravel_index c (shape (mesh_x (mesh_target m))) = idx /\
         (let '(n0, n1, n2) := shape (mesh_x (mesh_target m)) in
          let '(i0, i1, i2) := c in
          0 <= i0 < Z.of_nat n0 /\ 0 <= i1 < Z.of_nat n1 /\ 0 <= i2 < Z.of_nat n2)).
Proof.
  split; [discriminate|].
  apply (index_ranges_tile (2, 2, 1) (2, 2, 1) example_sources None None true None
           false false false None example_world example_world (fun l => l)
           example_dataset).
  - discriminate.
  - vm_compute. reflexivity.
Defined.

(** ** A window larger than the source *)

Lemma axis_centers_empty (o e w s : Z) :
  0 < s -> e < w -> axis_centers o e w s = [].
Proof.
  intros Hs Hew. rewrite axis_centers_steps by lia.
  assert (n_fits e w s <= 0).
  { unfold n_fits. pose proof (Z.div_lt_upper_bound (e - w) s 0 Hs ltac:(lia)). lia. }
  by rewrite seqZ_nil.
Qed.

Lemma get_data_mesh_empty (self : WkwData) (i : nat) (d : DataSource)
    (ox oy oz ex ey ez wx wy wz sx sy sz : Z) (rest : list Z) :
  data_sources self !! i = Some d ->
  as_ints (input_bbox d) = Ok (ox :: oy :: oz :: ex :: ey :: ez :: rest) ->
  input_shape self = (wx, wy, wz) ->
  stride self = (sx, sy, sz) ->
  0 < sx /\ 0 < sy /\ 0 < sz ->
  ex < wx \/ ey < wy \/ ez < wz ->
  exists m, get_data_mesh self (Z.of_nat i) = Ok m /\
            np_size (mesh_x (mesh_target m)) = 0.
Proof.
  intros Hd Hbbox Hw Hs (Hsx & Hsy & Hsz) Hsmall.
  eexists. split.
  - unfold get_data_mesh. rewrite (py_index_nat _ _ _ Hd). simpl.
    rewrite Hbbox. simpl. rewrite Hw, Hs.
    replace ((sx =? 0) || (sy =? 0) || (sz =? 0)) with false by (symmetry; case_Zb).
    reflexivity.
  - destruct Hsmall as [H|[H|H]];
      [rewrite (axis_centers_empty _ _ _ _ Hsx H)
      |rewrite (axis_centers_empty _ _ _ _ Hsy H)
      |rewrite (axis_centers_empty _ _ _ _ Hsz H)];
      unfold np_size; simpl; lia.
Qed.

(** C6, as the code has it. A source whose box is smaller than the window
    along some axis raises nothing (the stride being positive):
    [get_data_mesh] answers a grid without cells, and in every dataset whose
    construction completes the source owns the empty range
    [min, min - 1]. *)
Theorem small_extent_empty_grid (input_shape0 target_shape0 : vec3) (D : list DataSource)
    (split : option DataSplit) (stride0 : option vec3) (nrm : bool)
    (tr : option transform) (pad0 cR cH : bool) (root : option string) (w w' : World)
    (permutation : list Z -> list Z) (st : WkwData) (i : nat) (d : DataSource)
    (ox oy oz ex ey ez wx wy wz sx sy sz : Z) (rest : list Z) :
  D !! i = Some d ->
  as_ints (input_bbox d) = Ok (ox :: oy :: oz :: ex :: ey :: ez :: rest) ->
  input_shape0 = (wx, wy, wz) ->
  default target_shape0 stride0 = (sx, sy, sz) ->
  0 < sx /\ 0 < sy /\ 0 < sz ->
  ex < wx \/ ey < wy \/ ez < wz ->
  (forall self, config self = (input_shape0, target_shape0, D, split,
                               default target_shape0 stride0, nrm, tr, pad0,
                               (cR, cH, default "." root)) ->
     exists m, get_data_mesh self (Z.of_nat i) = Ok m /\
               np_size (mesh_x (mesh_target m)) = 0) /\
  (init input_shape0 target_shape0 D split stride0 nrm tr pad0 cR cH root w permutation
     = Ok (st, w') ->
   exists m a, data_meshes st !! i = Some m /\
               np_size (mesh_x (mesh_target m)) = 0 /\
               data_inds_min st !! i = Some a /\
               data_inds_max st !! i = Some (a - 1)).
Proof.
  intros Hd Hbbox Hw Hs Hpos Hsmall.
  assert (Hmesh : forall self,
            config self = (input_shape0, target_shape0, D, split,
                           default target_shape0 stride0, nrm, tr, pad0,
                           (cR, cH, default "." root)) ->
            exists m, get_data_mesh self (Z.of_nat i) = Ok m /\
                      np_size (mesh_x (mesh_target m)) = 0).
  { intros self Hc. unfold config in Hc. injection Hc as H1 _ H3 _ H5 _ _ _ _ _ _.
    apply (get_data_mesh_empty self i d ox oy oz ex ey ez wx wy wz sx sy sz rest);
      try done; congruence. }
  split; [done|]. intros Hinit.
  destruct (init_Ok _ _ _ _ _ _ _ _ _ _ _ _ _ _ _ Hinit)
    as (Hc & Hlm & Hlmin & Hm & (Hl & H0 & Hnext & Hsz) & _).
  pose proof (lookup_lt_Some _ _ _ Hd) as Hlt.
  destruct (lookup_lt_is_Some_2 (data_meshes st) i ltac:(lia)) as (m & Hmi).
  destruct (lookup_lt_is_Some_2 (data_inds_min st) i ltac:(lia)) as (a & Ha).
  destruct (lookup_lt_is_Some_2 (data_inds_max st) i ltac:(lia)) as (b & Hb).
  destruct (Hmesh st Hc) as (m' & Hm' & Hsize).
  assert (m' = m) as -> by (pose proof (Hm i m Hmi); congruence).
  exists m, a. split; [done|]. split; [done|]. split; [done|].
  rewrite Hb. f_equal. pose proof (Hsz i a b m Ha Hb Hmi). lia.
Qed.

Lemma small_extent_empty_grid_witness :
  exists st w',
    init (5, 5, 5) (5, 5, 5) [narrow_source] None None true None false true false None
         example_world (fun l => l) = Ok (st, w') /\
    exists m a, data_meshes st !! 0%nat = Some m /\
                np_size (mesh_x (mesh_target m)) = 0 /\
                data_inds_min st !! 0%nat = Some a /\
                data_inds_max st !! 0%nat = Some (a - 1).
Proof.
  destruct (init (5, 5, 5) (5, 5, 5) [narrow_source] None None true None false true false
              None example_world (fun l => l)) as [[st w']|e] eqn:Hinit;
    [|vm_compute in Hinit; discriminate].
  exists st, w'. split; [done|].
  apply (small_extent_empty_grid (5, 5, 5) (5, 5, 5) [narrow_source] None None true None
           false true false None example_world w' (fun l => l) st 0 narrow_source
           0 0 0 3 8 8 5 5 5 5 5 5 []); try done; lia.
Defined.

(** C6, as the specification states it, fails: the construction of a dataset
    over a source 3 voxels wide with windows of 5, all other arguments at
    their defaults, completes; the dataset has length 0. *)
Lemma construction_accepts_small_extent :
  exists st w',
    init (5, 5, 5) (5, 5, 5) [narrow_source] None None true None false true false None
         example_world (fun l => l) = Ok (st, w') /\
    as_ints (input_bbox narrow_source) = Ok [0; 0; 0; 3; 8; 8] /\
    3 < (input_shape st).1.1 /\
    (np_size ∘ mesh_x ∘ mesh_target <$> data_meshes st) = [0] /\
    len st = Ok 0.
Proof.
  destruct (init (5, 5, 5) (5, 5, 5) [narrow_source] None None true None false true false
              None example_world (fun l => l)) as [[st w']|e] eqn:Hinit;
    [|vm_compute in Hinit; discriminate].
  exists st, w'. split; [done|].
  vm_compute in Hinit. injection Hinit as <- <-. vm_compute. done.
Qed.

(** ** The memory tier of [wkw_read_cached] *)

Lemma DataSource_field_path (d : DataSource) :
  DataSource_field d "input_path" = Ok (input_path d) /\
  DataSource_field d "target_path" = Ok (target_path d) /\
  DataSource_field d "input_bbox" = Ok (input_bbox d) /\
  DataSource_field d "target_bbox" = Ok (target_bbox d).
Proof. by repeat split. Qed.

Lemma wkw_read_cached_no_entry (self : WkwData) (w : World) (i : nat) (d : DataSource)
    (source_type p : string) (wkw_bbox : list Z) :
  data_sources self !! i = Some d ->
  path_of_role source_type d = Some (PStr p) ->
  data_cache_input self !! p = None ->
  wkw_read_cached self w (Z.of_nat i) source_type wkw_bbox = Raise KeyError.
Proof.
  intros Hd Hrole Hnone. unfold wkw_read_cached.
  rewrite (py_index_nat _ _ _ Hd). simpl. unfold path_of_role in Hrole.
  destruct (String.eqb_spec source_type "input") as [->|Hni].
  - injection Hrole as Hp. simpl.
    change (DataSource_field d "input_path") with (Ok (input_path d)).
    change (DataSource_field d "input_bbox") with (Ok (input_bbox d)).
    simpl. rewrite Hp. simpl. by rewrite Hnone.
  - destruct (String.eqb_spec source_type "target") as [->|Hnt]; [|done].
    injection Hrole as Hp. simpl.
    change (DataSource_field d "target_path") with (Ok (target_path d)).
    change (DataSource_field d "target_bbox") with (Ok (target_bbox d)).
    simpl. rewrite Hp. simpl. by rewrite Hnone.
Qed.

(** C3. A call of [wkw_read_cached] for a path without entry in the memory
    tier raises [KeyError]: neither the disk tier nor the store is read. A
    dataset built with [cache_RAM = False] has an empty memory tier, so there
    every call for a source and a role whose path is a string raises
    [KeyError], whatever [cache_HDD] is. *)
Theorem wkw_read_cached_KeyError (input_shape0 target_shape0 : vec3) (D : list DataSource)
    (split : option DataSplit) (stride0 : option vec3) (nrm : bool)
    (tr : option transform) (pad0 cH : bool) (root : option string) (w w' : World)
    (permutation : list Z -> list Z) (st : WkwData) :
  (forall (self : WkwData) (w0 : World) (i : nat) (d : DataSource)
          (source_type p : string) (wkw_bbox : list Z),
      data_sources self !! i = Some d ->
      path_of_role source_type d = Some (PStr p) ->
      data_cache_input self !! p = None ->
      wkw_read_cached self w0 (Z.of_nat i) source_type wkw_bbox = Raise KeyError) /\
  (init input_shape0 target_shape0 D split stride0 nrm tr pad0 false cH root w permutation
     = Ok (st, w') ->
   forall (w0 : World) (i : nat) (d : DataSource) (source_type p : string)
          (wkw_bbox : list Z),
     D !! i = Some d ->
     path_of_role source_type d = Some (PStr p) ->
     wkw_read_cached st w0 (Z.of_nat i) source_type wkw_bbox = Raise KeyError).
Proof.
  split; [apply wkw_read_cached_no_entry|].
  intros Hinit w0 i d source_type p wkw_bbox Hd Hrole.
  destruct (init_Ok _ _ _ _ _ _ _ _ _ _ _ _ _ _ _ Hinit) as (Hc & _ & _ & _ & _ & Hca).
  apply (wkw_read_cached_no_entry st w0 i d source_type p); [|done|].
  - unfold config in Hc. by injection Hc as _ _ -> _ _ _ _ _ _ _ _.
  - by rewrite (Hca eq_refl).
Qed.

Lemma wkw_read_cached_KeyError_witness :
  exists st w',
    init (2, 2, 1) (2, 2, 1) [example_source] None None true None false false true None
         example_world (fun l => l) = Ok (st, w') /\
    wkw_read_cached st w' 0 "input" [0; 0; 0; 2; 2; 1] = Raise KeyError.
Proof.
  destruct (init (2, 2, 1) (2, 2, 1) [example_source] None None true None false false true
              None example_world (fun l => l)) as [[st w']|e] eqn:Hinit;
    [|vm_compute in Hinit; discriminate].
  exists st, w'. split; [done|].
  apply (proj2 (wkw_read_cached_KeyError (2, 2, 1) (2, 2, 1) [example_source] None None
                  true None false true None example_world w' (fun l => l) st)
           Hinit w' 0%nat example_source "input" "/data/in" [0; 0; 0; 2; 2; 1]).
  - reflexivity.
  - reflexivity.
Defined.

(** C2 fails on the code. A dataset built with the disk tier alone
    ([cache_RAM = False], [cache_HDD = True]) has its cube on disk after
    construction, and the store answers the direct read of a window; yet
    [wkw_read_cached] raises [KeyError] on the same window, and serves no
    read: the tiers after the memory tier are never reached. *)
Lemma wkw_read_cached_disk_only_raises :
  exists st w' data w'',
    init (2, 2, 1) (2, 2, 1) [example_source] None None true None false false true None
         example_world (fun l => l) = Ok (st, w') /\
    header_exists w' (os_path_join (cache_HDD_root st) (str_tail "/data/in")) = true /\
    wkw_read w' "/data/in" [0; 0; 0; 2; 2; 1] = Ok (data, w'') /\
    data = [[[[1]; [11]]; [[2]; [12]]]] /\
    (fst <$> wkw_read w' (os_path_join (cache_HDD_root st) (str_tail "/data/in"))
               [0; 0; 0; 2; 2; 1]) = Ok data /\
    wkw_read_cached st w' 0 "input" [0; 0; 0; 2; 2; 1] = Raise KeyError.
Proof.
  destruct (init (2, 2, 1) (2, 2, 1) [example_source] None None true None false false true
              None example_world (fun l => l)) as [[st w']|e] eqn:Hinit;
    [|vm_compute in Hinit; discriminate].
  destruct (wkw_read w' "/data/in" [0; 0; 0; 2; 2; 1]) as [[data w'']|e] eqn:Hread;
    [|vm_compute in Hinit; injection Hinit as <- <-; vm_compute in Hread; discriminate].
  exists st, w', data, w''. split; [done|].
  vm_compute in Hinit. injection Hinit as <- <-.
  vm_compute in Hread. injection Hread as <- <-.
  vm_compute. done.
Qed.

(** ** The completeness check of the disk tier *)

Lemma existsb_fmap_seqZ {A} (p : A -> bool) (f : Z -> A) (m n : Z) :
  existsb p (f <$> seqZ m n) = true <-> exists i, m <= i < m + n /\ p (f i) = true.
Proof.
  rewrite existsb_exists. split.
  - intros (x & Hin & Hp). apply list_elem_of_In, list_elem_of_fmap in Hin as (i & -> & Hi).
    apply elem_of_seqZ in Hi. by exists i.
  - intros (i & Hi & Hp). exists (f i). split; [|done].
    apply list_elem_of_In, list_elem_of_fmap. exists i. split; [done|].
    by apply elem_of_seqZ.
Qed.

Lemma existsb_face (g : Z -> Z -> Z) (u0 nu v0 nv : Z) :
  existsb (existsb (fun v => negb (v =? 0)))
    ((fun u : Z => (fun v : Z => g u v) <$> seqZ v0 nv) <$> seqZ u0 nu) = true
  <-> nonzero_face g u0 nu v0 nv.
Proof.
  rewrite existsb_fmap_seqZ. unfold nonzero_face. split.
  - intros (u & Hu & H). apply existsb_fmap_seqZ in H as (v & Hv & H).
    exists u, v. split; [done|]. split; [done|].
    destruct (Z.eqb_spec (g u v) 0); [discriminate|done].
  - intros (u & v & Hu & Hv & H). exists u. split; [done|].
    apply existsb_fmap_seqZ. exists v. split; [done|].
    by destruct (Z.eqb_spec (g u v) 0).
Qed.

Lemma py_index_fmap_seqZ_first {A} (f : Z -> A) (m n : Z) :
  0 < n -> py_index (f <$> seqZ m n) 0 = Ok (f m).
Proof.
  intros Hn. unfold py_index. rewrite length_fmap, length_seqZ. case_Zb.
  rewrite list_lookup_fmap, lookup_seqZ_lt by lia. simpl. do 2 f_equal. lia.
Qed.

Lemma py_index_fmap_seqZ_last {A} (f : Z -> A) (m n : Z) :
  0 < n -> py_index (f <$> seqZ m n) (-1) = Ok (f (m + n - 1)).
Proof.
  intros Hn. unfold py_index. rewrite length_fmap, length_seqZ. case_Zb.
  rewrite list_lookup_fmap, lookup_seqZ_lt by lia. simpl. do 2 f_equal. lia.
Qed.

Lemma mapR_fmap_Ok {A B C} (g : B -> result C) (f : A -> B) (h : A -> C) (l : list A) :
  (forall a, a ∈ l -> g (f a) = Ok (h a)) -> mapR g (f <$> l) = Ok (h <$> l).
Proof.
  induction l as [|a l IH]; intros H; [done|].
  rewrite !fmap_cons. cbn [mapR]. rewrite H by apply list_elem_of_here. simpl.
  rewrite IH; [done|]. intros b Hb. apply H. by apply list_elem_of_further.
Qed.

(** The completeness check on the cube read over a box with no empty axis:
    it raises nothing, and answers [True] exactly when the six faces each
    hold a voxel that is not zero. *)
Lemma assert_data_completeness_cube (c : Dataset) (o e : vec3) :
  0 < e.1.1 -> 0 < e.1.2 -> 0 < e.2 ->
  exists b : bool, assert_data_completeness (cube c o e) = Ok b /\
                   (b = true <-> six_faces_nonzero c o e).
Proof.
  destruct o as [[ox oy] oz], e as [[ex ey] ez]. simpl. intros Hx Hy Hz.
  unfold assert_data_completeness, cube, face_axis1, face_axis2, face_axis3.
  cbn [mapR]. eexists. split.
  - rewrite (py_index_fmap_seqZ_first _ ox ex Hx), (py_index_fmap_seqZ_last _ ox ex Hx).
    simpl.
    rewrite (mapR_fmap_Ok (fun p : list (list Z) => py_index p 0) _
               (fun x : Z => (fun z : Z => voxels c x oy z) <$> seqZ oz ez))
      by (intros; cbv beta; by rewrite py_index_fmap_seqZ_first).
    simpl.
    rewrite (mapR_fmap_Ok (fun p : list (list Z) => py_index p (-1)) _
               (fun x : Z => (fun z : Z => voxels c x (oy + ey - 1) z) <$> seqZ oz ez))
      by (intros; cbv beta; by rewrite py_index_fmap_seqZ_last).
    simpl.
    rewrite (mapR_fmap_Ok (mapR (fun r : list Z => py_index r 0)) _
               (fun x : Z => (fun y : Z => voxels c x y oz) <$> seqZ oy ey))
      by (intros; cbv beta; apply mapR_fmap_Ok; intros; cbv beta;
          by rewrite py_index_fmap_seqZ_first).
    simpl.
    rewrite (mapR_fmap_Ok (mapR (fun r : list Z => py_index r (-1))) _
               (fun x : Z => (fun y : Z => voxels c x y (oz + ez - 1)) <$> seqZ oy ey))
      by (intros; cbv beta; apply mapR_fmap_Ok; intros; cbv beta;
          by rewrite py_index_fmap_seqZ_last).
    simpl. reflexivity.
  - unfold np_any. cbn [existsb]. rewrite !orb_false_r, !andb_true_iff.
    rewrite !existsb_face. tauto.
Qed.

Lemma wkw_read_Ok (w : World) (p : string) (d : Dataset) (ox oy oz ex ey ez : Z)
    (rest : list Z) :
  datasets w !! p = Some d -> 0 <= ex -> 0 <= ey -> 0 <= ez ->
  wkw_read w p (ox :: oy :: oz :: ex :: ey :: ez :: rest) =
  Ok (cube d (ox, oy, oz) (ex, ey, ez),
      log_read w p (ox :: oy :: oz :: ex :: ey :: ez :: rest)).
Proof.
  intros Hd Hx Hy Hz. unfold wkw_read. rewrite Hd. simpl.
  replace ((ex <? 0) || (ey <? 0) || (ez <? 0)) with false by (symmetry; case_Zb).
  done.
Qed.

Lemma header_exists_Some (w : World) (p : string) (d : Dataset) :
  datasets w !! p = Some d -> header_exists w p = true.
Proof. intros H. unfold header_exists. rewrite H. by apply bool_decide_eq_true_2. Qed.

(** The end of [fill_cache], when the disk tier holds the dataset: the cube
    goes to the memory tier if that tier is on and is written back to the
    disk tier; no read is served. *)
Ltac fill_cache_store HH Hh Hc :=
  repeat match goal with
  | |- context [cache_RAM ?s] => destruct (cache_RAM s) eqn:?
  | |- context [data_cache_input ?s !! ?p] => destruct (data_cache_input s !! p) eqn:?
  end;
  cbn [cache_HDD cache_HDD_root set_data_cache_input];
  rewrite HH; unfold dir_exists; rewrite Hh, orb_true_r; cbn [negb]; rewrite Hh;
  cbn [negb]; unfold wkw_write; cbn [mbind result_bind mret result_ret];
  rewrite Hc; cbn [bbox_origin mbind result_bind];
  eexists _, _; (split; [reflexivity|]); (split; [reflexivity|]);
  unfold memory_entry; cbn [data_cache_input set_data_cache_input];
  let HR := fresh "HR" in
  intros HR;
  first [discriminate HR
        | rewrite lookup_insert_eq; cbn [mbind option_bind];
          first [apply lookup_insert_eq | apply lookup_singleton_eq]].

(** C8. [fill_cache] on a path whose cube is in the disk tier, the disk tier
    being on and the box having no empty axis. When each of the six faces of
    the cached cube holds a voxel that is not zero, the cube is accepted:
    the store serves the read of the disk tier and no other, and the cube is
    what the memory tier receives. When some face is all zero, the cube is
    read again from the authoritative path, right after the read of the disk
    tier, the memory tier receives the cube of the source, and nothing is
    raised. *)
Theorem fill_cache_completeness (self : WkwData) (w : World) (path : string)
    (c : Dataset) (ox oy oz ex ey ez : Z) (rest : list Z) :
  let bbox := ox :: oy :: oz :: ex :: ey :: ez :: rest in
  let cache_path := os_path_join (cache_HDD_root self) (str_tail path) in
  cache_HDD self = true ->
  datasets w !! cache_path = Some c ->
  0 < ex /\ 0 < ey /\ 0 < ez ->
  (six_faces_nonzero c (ox, oy, oz) (ex, ey, ez) ->
   exists self' w',
     fill_cache self w (PStr path) (py_ints bbox) = Ok (self', w') /\
     reads w' = (cache_path, bbox) :: reads w /\
     (cache_RAM self = true ->
      memory_entry self' path bbox = Some (cube c (ox, oy, oz) (ex, ey, ez)))) /\
  (~ six_faces_nonzero c (ox, oy, oz) (ex, ey, ez) ->
   forall src, datasets w !! path = Some src ->
   exists self' w',
     fill_cache self w (PStr path) (py_ints bbox) = Ok (self', w') /\
     reads w' = (path, bbox) :: (cache_path, bbox) :: reads w /\
     (cache_RAM self = true ->
      memory_entry self' path bbox = Some (cube src (ox, oy, oz) (ex, ey, ez)))).
Proof.
  intros bbox cache_path HH Hc (Hx & Hy & Hz). subst bbox cache_path.
  set (bbox := ox :: oy :: oz :: ex :: ey :: ez :: rest).
  set (cache_path := os_path_join (cache_HDD_root self) (str_tail path)) in *.
  destruct (assert_data_completeness_cube c (ox, oy, oz) (ex, ey, ez) Hx Hy Hz)
    as (b & Hb & Hiff).
  pose proof (header_exists_Some _ _ _ Hc) as Hh.
  pose proof (wkw_read_Ok w cache_path c ox oy oz ex ey ez rest Hc
                ltac:(lia) ltac:(lia) ltac:(lia)) as Hread.
  assert (Hc1 : datasets (log_read w cache_path bbox) !! cache_path = Some c) by done.
  assert (Hh1 : header_exists (log_read w cache_path bbox) cache_path = true) by done.
  split.
  - intros Hfaces. apply Hiff in Hfaces as ->.
    unfold fill_cache. cbn [as_str mbind result_bind]. rewrite as_ints_py_ints.
    cbn [mbind result_bind]. cbv zeta. fold cache_path. rewrite HH, Hh. cbn [andb].
    fold bbox in Hread |- *.
    rewrite Hread. cbn [mbind result_bind]. rewrite Hb. cbn [mbind result_bind negb].
    fill_cache_store HH Hh1 Hc1.
  - intros Hfaces src Hsrc.
    assert (b = false) as -> by (destruct b; [by destruct Hfaces; apply Hiff|done]).
    pose proof (wkw_read_Ok (log_read w cache_path bbox) path src ox oy oz ex ey ez rest
                  Hsrc ltac:(lia) ltac:(lia) ltac:(lia)) as Hread2.
    assert (Hc2 : datasets (log_read (log_read w cache_path bbox) path bbox) !! cache_path
                  = Some c) by done.
    assert (Hh2 : header_exists (log_read (log_read w cache_path bbox) path bbox) cache_path
                  = true) by done.
    unfold fill_cache. cbn [as_str mbind result_bind]. rewrite as_ints_py_ints.
    cbn [mbind result_bind]. cbv zeta. fold cache_path. rewrite HH, Hh. cbn [andb].
    fold bbox in Hread, Hread2 |- *.
    rewrite Hread. cbn [mbind result_bind]. rewrite Hb. cbn [mbind result_bind negb].
    rewrite Hread2. cbn [mbind result_bind].
    fill_cache_store HH Hh2 Hc2.
Qed.

Lemma fill_cache_completeness_witness :
  (exists self' w',
     fill_cache example_cached_blank cached_world (PStr "/data/in")
       (py_ints [0; 0; 0; 4; 4; 2]) = Ok (self', w') /\
     reads w' = [("./data/in", [0; 0; 0; 4; 4; 2])] /\
     (cache_RAM example_cached_blank = true ->
      memory_entry self' "/data/in" [0; 0; 0; 4; 4; 2]
      = Some (cube example_voxels (0, 0, 0) (4, 4, 2)))) /\
  (exists self' w',
     fill_cache example_cached_blank partial_world (PStr "/data/in")
       (py_ints [0; 0; 0; 4; 4; 2]) = Ok (self', w') /\
     reads w' = [("/data/in", [0; 0; 0; 4; 4; 2]); ("./data/in", [0; 0; 0; 4; 4; 2])] /\
     (cache_RAM example_cached_blank = true ->
      memory_entry self' "/data/in" [0; 0; 0; 4; 4; 2]
      = Some (cube example_voxels (0, 0, 0) (4, 4, 2)))).
Proof.
  split.
  - apply (proj1 (fill_cache_completeness example_cached_blank cached_world "/data/in"
                    example_voxels 0 0 0 4 4 2 [] eq_refl eq_refl
                    (conj eq_refl (conj eq_refl eq_refl)))).
    repeat split; exists 0, 0; (split; [lia|split; [lia|discriminate]]).
  - apply (proj2 (fill_cache_completeness example_cached_blank partial_world "/data/in"
                    partial_voxels 0 0 0 4 4 2 [] eq_refl eq_refl
                    (conj eq_refl (conj eq_refl eq_refl)))); [|reflexivity].
    intros (_ & (u & v & _ & _ & H) & _). by apply H.
Defined.

(** ** The split planner, fraction mode *)

Lemma py_slice_take_drop {A} (a b : Z) (l : list A) :
  0 <= a -> 0 <= b ->
  py_slice a b l = take (Z.to_nat b - Z.to_nat a) (drop (Z.to_nat a) l).
Proof.
  intros Ha Hb. unfold py_slice, slice_bound.
  replace (a <? 0) with false by (symmetry; case_Zb).
  replace (b <? 0) with false by (symmetry; case_Zb).
  destruct (Z.le_gt_cases (Z.of_nat (length l)) a) as [Hge|Hlt].
  - rewrite (Z.min_r a) by lia. rewrite (drop_ge l (Z.to_nat a)) by lia.
    rewrite drop_ge by lia. by rewrite !take_nil.
  - rewrite (Z.min_l a) by lia.
    destruct (Z.le_gt_cases b (Z.of_nat (length l))) as [Hble|Hbgt].
    + rewrite Z.min_l by lia. f_equal. lia.
    + rewrite Z.min_r by lia. rewrite !take_ge; [done| |]; rewrite length_drop; lia.
Qed.

(** The three allocations are consecutive pieces of a prefix of the shuffled
    indices, and what the set difference leaves is the rest of them. *)
Lemma split_pieces (S all : list Z) (a b c : nat) :
  S ≡ₚ all -> NoDup all ->
  let A := take a S in
  let B := take b (drop a S) in
  let C := take c (drop (a + b) S) in
  let left := set_difference all (A ++ B ++ C) in
  A ++ B ++ C = take (a + b + c) S /\
  NoDup (A ++ B ++ C) /\
  NoDup left /\
  (forall i, i ∈ left <-> i ∈ drop (a + b + c) S) /\
  (forall i, i ∈ left -> i ∉ A ++ B ++ C) /\
  (forall i, i ∈ (A ++ left) ++ B ++ C <-> i ∈ all).
Proof.
  intros Hperm Hnd A B C left.
  assert (HndS : NoDup S) by by rewrite Hperm.
  assert (Hpre : A ++ B ++ C = take (a + b + c) S).
  { unfold A, B, C. replace (drop (a + b) S) with (drop b (drop a S))
      by (rewrite drop_drop; done).
    rewrite take_take_drop, take_take_drop. f_equal. lia. }
  pose proof (take_drop (a + b + c) S) as Htd.
  assert (Hsplit : NoDup (take (a + b + c) S ++ drop (a + b + c) S)) by by rewrite Htd.
  apply NoDup_app in Hsplit as (Hnd1 & Hdisj & Hnd2).
  assert (Hleft : forall i, i ∈ left <-> i ∈ drop (a + b + c) S).
  { intros i. unfold left, set_difference.
    rewrite elem_of_remove_dups, list_elem_of_filter, Hpre, <- Hperm.
    rewrite <- Htd at 2. rewrite elem_of_app. split.
    - intros (Hn & [H|H]); [done|done].
    - intros H. split; [|by right]. intros H'. by apply (Hdisj i). }
  split; [done|]. split; [by rewrite Hpre|].
  split; [apply NoDup_remove_dups|]. split; [done|].
  split.
  - intros i Hi. apply Hleft in Hi. rewrite Hpre. intros H'. by apply (Hdisj i).
  - intros i. rewrite <- Hperm, <- Htd at 1.
    rewrite <- (assoc_L (++)), !elem_of_app, Hleft.
    rewrite <- Hpre, !elem_of_app. tauto.
Qed.

Lemma len_set_perm (T all : list Z) :
  NoDup all -> (forall i, i ∈ T <-> i ∈ all) -> len_set T = Z.of_nat (length all).
Proof.
  intros Hnd Hiff. unfold len_set. f_equal. apply Permutation_length.
  apply NoDup_Permutation; [apply NoDup_remove_dups|done|].
  intros i. by rewrite elem_of_remove_dups.
Qed.

(** C4, as the code has it. In fraction mode, [np.random.permutation]
    answering a permutation and the three counts [int(fraction * N)] being
    non-negative: the first count of shuffled indices goes to train, the next
    to validation, the next to test. When at most one index is left beyond
    the three allocations, it is appended to train, and the three split lists
    are pairwise disjoint and hold together exactly the indices [0 .. N-1].
    When more than one index is left, an exception is raised. *)
Theorem fraction_split_partition (self : WkwData) (split : DataSplit)
    (permutation : list Z -> list Z) (ft : spec_float) (n kt kv ke : Z) :
  train split = Fraction ft ->
  (forall l, permutation l ≡ₚ l) ->
  len self = Ok n -> 0 <= n ->
  int_of_fraction (train split) n = Ok kt ->
  int_of_fraction (validation split) n = Ok kv ->
  int_of_fraction (test split) n = Ok ke ->
  0 <= kt /\ 0 <= kv /\ 0 <= ke ->
  let shuffled := permutation (seqZ 0 n) in
  let rest := drop (Z.to_nat kt + Z.to_nat kv + Z.to_nat ke) shuffled in
  ((length rest <= 1)%nat ->
   exists self' left,
     get_data_ind_splits self split permutation = Ok self' /\
     left ≡ₚ rest /\
     data_train_inds self' = take (Z.to_nat kt) shuffled ++ left /\
     data_validation_inds self' = take (Z.to_nat kv) (drop (Z.to_nat kt) shuffled) /\
     data_test_inds self' =
       take (Z.to_nat ke) (drop (Z.to_nat kt + Z.to_nat kv) shuffled) /\
     (forall i, ~ (i ∈ data_train_inds self' /\ i ∈ data_validation_inds self')) /\
     (forall i, ~ (i ∈ data_train_inds self' /\ i ∈ data_test_inds self')) /\
     (forall i, ~ (i ∈ data_validation_inds self' /\ i ∈ data_test_inds self')) /\
     (forall i, i ∈ data_train_inds self' \/ i ∈ data_validation_inds self'
                \/ i ∈ data_test_inds self' <-> 0 <= i < n)) /\
  ((1 < length rest)%nat ->
   get_data_ind_splits self split permutation =
   Raise (Exception
     "more than one index left behind in splitting the data into train, val and test")).
Proof.
  intros Htrain Hperm Hlen Hn Hkt Hkv Hke (Hkt0 & Hkv0 & Hke0) shuffled rest.
  set (a := Z.to_nat kt). set (b := Z.to_nat kv). set (c := Z.to_nat ke).
  destruct (split_pieces shuffled (seqZ 0 n) a b c (Hperm _) (NoDup_seqZ _ _))
    as (Hpre & Hnd & Hndl & Hleft & Hdisj & Hall).
  set (A := take a shuffled) in *.
  set (B := take b (drop a shuffled)) in *.
  set (C := take c (drop (a + b) shuffled)) in *.
  set (left := set_difference (seqZ 0 n) (A ++ B ++ C)) in *.
  assert (Hlr : left ≡ₚ rest).
  { apply NoDup_Permutation; [done| |done].
    assert (Hs : NoDup shuffled) by (unfold shuffled; rewrite Hperm; apply NoDup_seqZ).
    rewrite <- (take_drop (a + b + c) shuffled) in Hs. by apply NoDup_app in Hs as (_ & _ & ?). }
  assert (Hsl1 : py_slice 0 kt shuffled = A).
  { rewrite py_slice_take_drop by lia. unfold A, a. simpl. f_equal. lia. }
  assert (Hsl2 : py_slice kt (kt + kv) shuffled = B).
  { rewrite py_slice_take_drop by lia. unfold B, a, b. f_equal. lia. }
  assert (Hsl3 : py_slice (kt + kv) (kt + kv + ke) shuffled = C).
  { rewrite py_slice_take_drop by lia. unfold C, a, b, c. f_equal; [lia|f_equal; lia]. }
  assert (Hhead : get_data_ind_splits self split permutation =
            data_train_inds ←
              (if Z.of_nat (length left) =? 1 then Ok (A ++ left)
               else if 1 <? Z.of_nat (length left) then
                 Raise (Exception
                   "more than one index left behind in splitting the data into train, val and test")
               else Ok A);
            if n =? len_set (data_train_inds ++ B ++ C) then
              Ok (set_split_inds self data_train_inds B C)
            else Raise AssertionError).
  { unfold get_data_ind_splits. rewrite Htrain. rewrite Htrain in Hkt.
    rewrite Hlen. cbn [mbind result_bind]. cbv zeta. fold shuffled.
    rewrite Hkt. cbn [mbind result_bind]. rewrite Hkv. cbn [mbind result_bind].
    rewrite Hke. cbn [mbind result_bind]. rewrite Hsl1, Hsl2, Hsl3. fold left.
    done. }
  rewrite Hhead. clear Hhead. rewrite <- (Permutation_length Hlr).
  split.
  - intros Hle.
    assert (Htr : (if Z.of_nat (length left) =? 1 then Ok (A ++ left)
                   else if 1 <? Z.of_nat (length left) then
                     Raise (Exception
                       "more than one index left behind in splitting the data into train, val and test")
                   else Ok A) = Ok (A ++ left)).
    { destruct (Z.eqb_spec (Z.of_nat (length left)) 1); [done|].
      destruct (Z.ltb_spec 1 (Z.of_nat (length left))); [lia|].
      destruct left; [by rewrite app_nil_r|simpl in *; lia]. }
    rewrite Htr. cbn [mbind result_bind].
    rewrite (len_set_perm _ (seqZ 0 n) (NoDup_seqZ _ _) Hall), length_seqZ, Z2Nat.id by lia.
    rewrite Z.eqb_refl. exists (set_split_inds self (A ++ left) B C), left.
    split; [done|]. split; [done|]. cbn [data_train_inds data_validation_inds
      data_test_inds set_split_inds].
    split; [done|]. split; [done|]. split; [done|].
    apply NoDup_app in Hnd as (HndA & HAB & HndBC).
    apply NoDup_app in HndBC as (HndB & HBC & HndC).
    split; [|split; [|split]].
    + intros i (Hi & HiB). apply elem_of_app in Hi as [Hi|Hi].
      * apply (HAB i Hi). apply elem_of_app. by left.
      * apply (Hdisj i Hi). rewrite !elem_of_app. auto.
    + intros i (Hi & HiC). apply elem_of_app in Hi as [Hi|Hi].
      * apply (HAB i Hi). apply elem_of_app. by right.
      * apply (Hdisj i Hi). rewrite !elem_of_app. auto.
    + intros i (Hi & HiC). by apply (HBC i).
    + intros i.
      assert (Hs : i ∈ seqZ 0 n <-> 0 <= i < n) by (rewrite elem_of_seqZ; lia).
      rewrite <- Hs, <- (Hall i), !elem_of_app. tauto.
  - intros Hgt.
    destruct (Z.eqb_spec (Z.of_nat (length left)) 1); [lia|].
    destruct (Z.ltb_spec 1 (Z.of_nat (length left))); [done|lia].
Qed.

Lemma fraction_split_partition_witness :
  exists self' left,
    get_data_ind_splits example_dataset half_quarter_split reverse = Ok self' /\
    left ≡ₚ drop 8 (reverse (seqZ 0 9)) /\
    data_train_inds self' = take 4 (reverse (seqZ 0 9)) ++ left /\
    data_validation_inds self' = take 2 (drop 4 (reverse (seqZ 0 9))) /\
    data_test_inds self' = take 2 (drop 6 (reverse (seqZ 0 9))) /\
    (forall i, ~ (i ∈ data_train_inds self' /\ i ∈ data_validation_inds self')) /\
    (forall i, ~ (i ∈ data_train_inds self' /\ i ∈ data_test_inds self')) /\
    (forall i, ~ (i ∈ data_validation_inds self' /\ i ∈ data_test_inds self')) /\
    (forall i, i ∈ data_train_inds self' \/ i ∈ data_validation_inds self'
               \/ i ∈ data_test_inds self' <-> 0 <= i < 9).
Proof.
  apply (proj1 (fraction_split_partition example_dataset half_quarter_split reverse
                  float_half 9 4 2 2 eq_refl reverse_Permutation eq_refl
                  ltac:(lia) eq_refl eq_refl eq_refl ltac:(lia))).
  simpl. lia.
Defined.

(** C4, as the specification states it, fails: on a dataset of three indices
    the fractions 1/2, 1/4, 1/4, which sum to one, allocate one index to train
    and none to validation and test; two indices are left, and the split
    raises instead of appending them to train. *)
Lemma fraction_split_two_left_raises :
  SFeqb (SFadd prec64 emax64 (SFadd prec64 emax64 float_half float_quarter) float_quarter)
        float_one = true /\
  len three_cell_dataset = Ok 3 /\
  int_of_fraction (train half_quarter_split) 3 = Ok 1 /\
  int_of_fraction (validation half_quarter_split) 3 = Ok 0 /\
  int_of_fraction (test half_quarter_split) 3 = Ok 0 /\
  get_data_ind_splits three_cell_dataset half_quarter_split (fun l => l) =
    Raise (Exception
      "more than one index left behind in splitting the data into train, val and test") /\
  init (1, 1, 1) (1, 1, 1) [three_cell_source] (Some half_quarter_split) None true None
       false false false None example_world (fun l => l) =
    Raise (Exception
      "more than one index left behind in splitting the data into train, val and test").
Proof. vm_compute. repeat split. Qed.

(** ** Padding of the target *)

(** C9 fails on the code. [pad] hands three pairs of widths to [np.pad], and
    a fetched window has four axes, the channel first: [np.pad] refuses it.
    On a dataset with input windows of 4 x 4 x 2 and target windows of
    2 x 2 x 2, the sample is assembled without [pad_target], with a target of
    2 x 2 x 2 voxels, and with [pad_target] the call raises [ValueError]. *)
Lemma pad_fetched_window_raises :
  (forall (self : WkwData) (t : arr4 Z),
      pad self (NpInt (Arr4 t)) = Raise ValueError) /\
  get_bbox_for_sample_idx (pad_dataset true) 0 "input" = Ok (0%nat, [0; 0; 0; 4; 4; 2]) /\
  get_bbox_for_sample_idx (pad_dataset true) 0 "target" = Ok (0%nat, [1; 1; 0; 2; 2; 2]) /\
  (sample_target ∘ fst <$> get_ordered_sample (pad_dataset false) example_world 0 None)
    = Ok (FloatTensor (array_map float32_of_Z
            (Arr4 [[[[12; 112]; [22; 122]]; [[13; 113]; [23; 123]]]]))) /\
  get_ordered_sample (pad_dataset true) example_world 0 None = Raise ValueError.
Proof.
  split.
  - intros self t. unfold pad.
    destruct (input_shape self) as [[i0 i1] i2], (output_shape self) as [[o0 o1] o2]. done.
  - vm_compute. repeat split.
Qed.

(** ** The self-supervised shortcut of the sample assembler *)









(** ** The short descriptor form *)

(** *** Dictionaries in insertion order *)

Lemma dict_get_Some_elem {V} (d : dict V) (k : string) (v : V) :
  dict_get d k = Some v -> (k, v) ∈ d.
Proof.
  induction d as [|[k' v'] d IH]; [done|]. simpl.
  destruct (String.eqb_spec k' k) as [->|Hne].
  - intros H. injection H as ->. apply list_elem_of_here.
  - intros H. apply list_elem_of_further. by apply IH.
Qed.

Lemma dict_get_None {V} (d : dict V) (k : string) :
  dict_get d k = None <-> k ∉ d.*1.
Proof.
  induction d as [|[k' v'] d IH]; simpl.
  - split; [intros _; apply not_elem_of_nil|done].
  - rewrite not_elem_of_cons. destruct (String.eqb_spec k' k) as [->|Hne].
    + split; [done|]. by intros [? _].
    + rewrite IH. split; [by intros ?; split|by intros [_ ?]].
Qed.

Lemma dict_get_NoDup {V} (d : dict V) (k : string) (v : V) :
  NoDup d.*1 -> (k, v) ∈ d -> dict_get d k = Some v.
Proof.
  induction d as [|[k' v'] d IH]; intros Hnd Hin; [by apply elem_of_nil in Hin|].
  simpl in Hnd. apply NoDup_cons in Hnd as [Hk' Hnd].
  apply elem_of_cons in Hin as [Heq|Hin]; simpl.
  - injection Heq as -> ->. by rewrite String.eqb_refl.
  - destruct (String.eqb_spec k' k) as [->|Hne]; [|by apply IH].
    destruct Hk'. apply list_elem_of_fmap. by exists (k, v).
Qed.

Lemma dict_set_fresh {V} (d : dict V) (k : string) (v : V) :
  k ∉ d.*1 -> dict_set k v d = d ++ [(k, v)].
Proof.
  induction d as [|[k' v'] d IH]; [done|]. simpl. rewrite not_elem_of_cons.
  intros [Hne Hk]. destruct (String.eqb_spec k' k) as [->|_]; [done|]. by rewrite IH.
Qed.

Lemma dict_get_set {V} (d : dict V) (k k' : string) (v : V) :
  dict_get (dict_set k v d) k' = if String.eqb k k' then Some v else dict_get d k'.
Proof.
  induction d as [|[k0 v0] d IH]; simpl; [done|].
  destruct (String.eqb_spec k0 k) as [->|Hne]; simpl.
  - by destruct (String.eqb_spec k k').
  - destruct (String.eqb_spec k0 k') as [->|Hne'].
    + by destruct (String.eqb_spec k k') as [->|].
    + apply IH.
Qed.

Lemma dict_set_keys {V} (d : dict V) (k k' : string) (v : V) :
  k' ∈ (dict_set k v d).*1 <-> k' = k \/ k' ∈ d.*1.
Proof.
  induction d as [|[k0 v0] d IH]; simpl.
  - rewrite list_elem_of_singleton. split; [by left|]. intros [?|H]; [done|].
    by apply elem_of_nil in H.
  - destruct (String.eqb_spec k0 k) as [->|Hne]; simpl; rewrite !elem_of_cons.
    + tauto.
    + rewrite IH. tauto.
Qed.

(** Updating with a dictionary whose keys are all new appends it. *)
Lemma dict_update_fresh {V} (d other : dict V) :
  NoDup (d.*1 ++ other.*1) -> dict_update d other = d ++ other.
Proof.
  unfold dict_update. revert d. induction other as [|[k v] other IH]; intros d Hnd; simpl.
  - by rewrite app_nil_r.
  - simpl in Hnd. rewrite dict_set_fresh.
    + rewrite IH; [by rewrite <- (assoc_L (++))|].
      rewrite fmap_app. simpl. by rewrite <- (assoc_L (++)).
    + apply NoDup_app in Hnd as (_ & Hd & _). intros Hk. apply (Hd k Hk).
      apply list_elem_of_here.
Qed.

Lemma dict_get_update {V} (d other : dict V) (k : string) :
  NoDup other.*1 ->
  dict_get (dict_update d other) k =
  match dict_get other k with Some v => Some v | None => dict_get d k end.
Proof.
  unfold dict_update. revert d. induction other as [|[k' v'] other IH]; intros d Hnd; [done|].
  simpl in Hnd. apply NoDup_cons in Hnd as [Hk' Hnd]. simpl. rewrite IH by done.
  rewrite dict_get_set. destruct (String.eqb_spec k' k) as [->|Hne]; [|done].
  by rewrite (proj2 (dict_get_None other k) Hk').
Qed.

Lemma dict_update_keys {V} (d other : dict V) (k : string) :
  k ∈ (dict_update d other).*1 -> k ∈ d.*1 \/ k ∈ other.*1.
Proof.
  unfold dict_update. revert d. induction other as [|[k' v'] other IH]; intros d; simpl.
  - by left.
  - intros H. apply IH in H as [H|H].
    + apply dict_set_keys in H as [->|H]; [right; apply list_elem_of_here|by left].
    + right. by apply list_elem_of_further.
Qed.

Lemma dict_pop_keys {V} (d : dict V) (k k' : string) :
  k' ∈ (dict_pop k d).*1 -> k' ∈ d.*1.
Proof.
  induction d as [|[k0 v0] d IH]; [done|]. simpl.
  destruct (String.eqb_spec k0 k) as [->|Hne]; simpl.
  - apply list_elem_of_further.
  - rewrite !elem_of_cons. intros [?|?]; [by left|right; by apply IH].
Qed.

Lemma dict_pop_NoDup {V} (d : dict V) (k : string) :
  NoDup d.*1 -> NoDup (dict_pop k d).*1.
Proof.
  induction d as [|[k0 v0] d IH]; [done|]. simpl. intros Hnd.
  apply NoDup_cons in Hnd as [Hk0 Hnd].
  destruct (String.eqb_spec k0 k) as [->|Hne]; [done|]. simpl.
  apply NoDup_cons. split; [|by apply IH]. intros H. by apply Hk0, (dict_pop_keys d k).
Qed.

Lemma dict_get_pop {V} (d : dict V) (k k' : string) :
  NoDup d.*1 ->
  dict_get (dict_pop k d) k' = if String.eqb k k' then None else dict_get d k'.
Proof.
  induction d as [|[k0 v0] d IH]; intros Hnd; simpl.
  - by destruct (String.eqb k k').
  - simpl in Hnd. apply NoDup_cons in Hnd as [Hk0 Hnd].
    destruct (String.eqb_spec k0 k) as [->|Hne]; simpl.
    + destruct (String.eqb_spec k k') as [->|Hne']; [by apply dict_get_None|done].
    + destruct (String.eqb_spec k0 k') as [->|Hne'].
      * by destruct (String.eqb_spec k k') as [->|].
      * by apply IH.
Qed.

(** The removal of a list of keys, [for k in ks: d.pop(k, None)]. *)
Lemma dict_pops {V} (d : dict V) (ks : list string) :
  NoDup d.*1 ->
  NoDup (fold_left (fun d k => dict_pop k d) ks d).*1 /\
  (forall k, k ∈ (fold_left (fun d k => dict_pop k d) ks d).*1 -> k ∈ d.*1) /\
  (forall k, dict_get (fold_left (fun d k => dict_pop k d) ks d) k =
             if bool_decide (k ∈ ks) then None else dict_get d k).
Proof.
  revert d. induction ks as [|k0 ks IH]; intros d Hnd; simpl.
  - split; [done|]. split; [done|]. intros k.
    destruct (decide (k ∈ [])) as [H|H]; [by apply elem_of_nil in H|].
    by destruct (bool_decide_reflect (k ∈ [])).
  - destruct (IH (dict_pop k0 d) (dict_pop_NoDup d k0 Hnd)) as (H1 & H2 & H3).
    split; [done|]. split; [intros k Hk; by apply (dict_pop_keys d k0), H2|].
    intros k. rewrite H3, dict_get_pop by done.
    destruct (String.eqb_spec k0 k) as [->|Hne].
    + rewrite (bool_decide_eq_true_2 (k ∈ k :: ks)) by apply list_elem_of_here.
      by destruct (bool_decide (k ∈ ks)).
    + destruct (decide (k ∈ ks)) as [Hin|Hnin].
      * rewrite !bool_decide_eq_true_2; [done| |done]. by apply list_elem_of_further.
      * rewrite !bool_decide_eq_false_2; [done| |done].
        rewrite not_elem_of_cons. by split.
Qed.

(** *** Loops that collect *)

Lemma mapR_Forall2 {A B} (g : A -> result B) (l : list A) (l' : list B) :
  mapR g l = Ok l' <-> Forall2 (fun a b => g a = Ok b) l l'.
Proof.
  revert l'. induction l as [|a l IH]; intros l'; simpl.
  - split; [intros H; injection H as <-; constructor|intros H; by inversion H].
  - split.
    + intros H. inv_Ok H. inv_Ok H. injection H as <-. constructor; [done|by apply IH].
    + intros H. inversion H as [|? b ? bs Hab Hl]; subst. rewrite Hab. simpl.
      apply IH in Hl. by rewrite Hl.
Qed.

Lemma mapR_ext_Ok {A B} (g : A -> result B) (h : A -> B) (l : list A) :
  (forall a, a ∈ l -> g a = Ok (h a)) -> mapR g l = Ok (h <$> l).
Proof.
  intros H. rewrite <- (list_fmap_id l) at 1. by apply mapR_fmap_Ok.
Qed.

(** *** From sources to the long dictionary *)

Lemma DataSource_asdict_keys (d : DataSource) :
  (DataSource_asdict d).*1 = DataSource_fields.
Proof. done. Qed.

Lemma DataSource_fields_NoDup : NoDup DataSource_fields.
Proof. compute_done. Qed.

Lemma DataSource_asdict_NoDup (d : DataSource) : NoDup (DataSource_asdict d).*1.
Proof. rewrite DataSource_asdict_keys. apply DataSource_fields_NoDup. Qed.

Lemma DataSource_asdict_values (d : DataSource) (f : string) (v : pyval) :
  (f, v) ∈ DataSource_asdict d -> v ∈ DataSource_values d.
Proof.
  intros H. apply (list_elem_of_fmap_2 snd) in H. unfold DataSource_asdict in H.
  rewrite snd_zip in H; [done|simpl; lia].
Qed.

Lemma DataSource_asdict_get (d : DataSource) (f : string) :
  f ∈ DataSource_fields -> is_Some (dict_get (DataSource_asdict d) f).
Proof.
  intros Hf. destruct (dict_get (DataSource_asdict d) f) eqn:H; [by eexists|].
  apply dict_get_None in H. by rewrite DataSource_asdict_keys in H.
Qed.

(** The long dictionary of a list of sources whose keys are distinct: one
    entry per source, in the order of the list. *)
Lemma convert_ds_to_dict_Ok (D : list DataSource) (keys : list string) :
  mapR DataSource_key D = Ok keys -> NoDup keys ->
  convert_ds_to_dict (DsList D) = Ok (zip keys (DataSource_asdict <$> D)) /\
  length keys = length D.
Proof.
  intros Hk Hnd.
  assert (Hitems : mapR (fun d => k ← py_format (id d);
                                  Ok (("datasource_" ++ k)%string, DataSource_asdict d)) D
                   = Ok (zip keys (DataSource_asdict <$> D)) /\ length keys = length D).
  { clear Hnd. revert keys Hk. induction D as [|d D IH]; intros keys Hk.
    - simpl in Hk. by injection Hk as <-.
    - cbn [mapR] in Hk. repeat inv_Ok Hk.
      destruct (IH _ Ha0) as [IH1 IH2]. unfold DataSource_key in Ha. repeat inv_Ok Ha.
      cbn [mapR]. rewrite Ha1. cbn [mbind result_bind].
      rewrite IH1. cbn [mbind result_bind]. split; [done|]. simpl. by rewrite IH2. }
  destruct Hitems as [Hitems Hlen]. split; [|done].
  unfold convert_ds_to_dict. rewrite Hitems. cbn [mbind result_bind]. f_equal.
  unfold dict_of_items. rewrite dict_update_fresh; [done|].
  simpl. rewrite fst_zip; [done|]. rewrite length_fmap. lia.
Qed.

Lemma foldR_inv {A St} (f : St -> A -> result St) (P : St -> Prop) (l : list A) (s : St) :
  P s ->
  (forall a t, a ∈ l -> P t -> exists t', f t a = Ok t' /\ P t') ->
  exists s', foldR f l s = Ok s' /\ P s'.
Proof.
  revert s. induction l as [|a l IH]; intros s Hs Hstep; [by exists s|].
  destruct (Hstep a s (list_elem_of_here _ _) Hs) as (t & Ht & HP).
  destruct (IH t HP) as (s' & Hs' & HP').
  { intros b u Hb. apply Hstep. by apply list_elem_of_further. }
  exists s'. simpl. rewrite Ht. by split.
Qed.

Lemma dict_set_NoDup {V} (d : dict V) (k : string) (v : V) :
  NoDup d.*1 -> NoDup (dict_set k v d).*1.
Proof.
  induction d as [|[k0 v0] d IH]; intros Hnd; simpl.
  - apply NoDup_singleton.
  - simpl in Hnd. apply NoDup_cons in Hnd as [Hk0 Hnd].
    destruct (String.eqb_spec k0 k) as [->|Hne]; simpl.
    + by apply NoDup_cons.
    + apply NoDup_cons. split; [|by apply IH].
      intros H. apply dict_set_keys in H as [?|?]; done.
Qed.

Lemma field_of_get (d : DataSource) (f : string) :
  f ∈ DataSource_fields -> dict_get (DataSource_asdict d) f = Some (field_of d f).
Proof.
  intros Hf. unfold field_of. by destruct (DataSource_asdict_get d f Hf) as (v & ->).
Qed.

(** The entry of a source in the long dictionary. *)
Lemma long_dict_get (D : list DataSource) (keys : list string) (i : nat) (k : string)
    (d : DataSource) :
  NoDup keys -> length keys = length D ->
  keys !! i = Some k -> D !! i = Some d ->
  dict_get (zip keys (DataSource_asdict <$> D)) k = Some (DataSource_asdict d).
Proof.
  intros Hnd Hlen Hk Hd. apply dict_get_NoDup.
  - rewrite fst_zip; [done|]. rewrite length_fmap. lia.
  - apply (elem_of_lookup_zip_with_2 pair keys (DataSource_asdict <$> D) k
             (DataSource_asdict d) (k, DataSource_asdict d) i); [done|].
    by rewrite list_lookup_fmap, Hd.
Qed.

(** What [ds_find_shared_properties] answers on a list of sources with
    distinct keys, the first of which is [d0]: a dictionary of fields, each
    with the value it has in [d0], which every source of the list holds too,
    identically or up to [==]. *)
Lemma ds_find_shared_properties_Ok (D : list DataSource) (keys : list string)
    (d0 : DataSource) (D' : list DataSource) :
  D = d0 :: D' ->
  mapR DataSource_key D = Ok keys -> NoDup keys ->
  exists shared,
    ds_find_shared_properties (DsList D) = Ok shared /\
    NoDup shared.*1 /\
    (forall f v, dict_get shared f = Some v ->
       f ∈ DataSource_fields /\ v = field_of d0 f /\
       forall d, d ∈ D -> same_value v (field_of d f)).
Proof.
  intros HD Hk Hnd.
  destruct (convert_ds_to_dict_Ok D keys Hk Hnd) as [Hconv Hlen].
  unfold ds_find_shared_properties. rewrite Hconv. cbn [mbind result_bind].
  rewrite fst_zip by (rewrite length_fmap; lia).
  destruct keys as [|k0 keys']; [subst D; done|].
  change (py_index (k0 :: keys') 0) with (Ok (A:=string) k0). cbn [mbind result_bind].
  rewrite (long_dict_get D (k0 :: keys') 0 k0 d0 Hnd Hlen eq_refl) by by subst D.
  cbn [mbind result_bind]. rewrite DataSource_asdict_keys.
  rewrite (mapR_ext_Ok _ (fun f => (f, (fun d => field_of d f) <$> D))).
  2:{ intros f Hf.
      assert (Hin : mapR (fun key => cur_ds ← match dict_get (zip (k0 :: keys')
                                                       (DataSource_asdict <$> D)) key with
                                            | Some d => Ok d
                                            | None => Raise KeyError
                                            end;
                                  match dict_get cur_ds f with
                                  | Some v => Ok v
                                  | None => Raise KeyError
                                  end) (k0 :: keys')
                    = Ok ((fun d => field_of d f) <$> D)).
      { apply mapR_Forall2, Forall2_fmap_r, Forall2_same_length_lookup_2; [done|].
        intros i k d Hki Hdi. rewrite (long_dict_get D _ i k d Hnd Hlen Hki Hdi).
        cbn [mbind result_bind]. by rewrite field_of_get. }
      by rewrite Hin. }
  cbn [mbind result_bind].
  apply (foldR_inv _ (fun shared : dict pyval =>
           NoDup shared.*1 /\
           forall f v, dict_get shared f = Some v ->
             f ∈ DataSource_fields /\ v = field_of d0 f /\
             forall d, d ∈ D -> same_value v (field_of d f))).
  - split; [apply NoDup_nil_2|done].
  - intros [f_ vals] shared Hin (Hnds & Hsh).
    apply list_elem_of_fmap in Hin as (f & Heq & Hf). injection Heq as -> ->.
    subst D. rewrite fmap_cons. cbn [is_identical snd fst mbind result_bind].
    destruct (forallb (fun x => py_eq (field_of d0 f) x) ((fun d => field_of d f) <$> D'))
      eqn:Hall; [|by eexists].
    change (py_index (field_of d0 f :: ((fun d => field_of d f) <$> D')) 0)
      with (Ok (A:=pyval) (field_of d0 f)).
    cbn [mbind result_bind]. eexists. split; [done|].
    split; [by apply dict_set_NoDup|].
    intros g v. rewrite dict_get_set. destruct (String.eqb_spec f g) as [->|Hne];
      [|apply Hsh].
    intros Hv. injection Hv as <-. split; [done|]. split; [done|].
    intros d Hd. apply elem_of_cons in Hd as [->|Hd]; [by left|]. right.
    rewrite forallb_forall in Hall. apply Hall.
    apply list_elem_of_In, list_elem_of_fmap. by exists d.
Qed.

Lemma DataSource_key_shape (d : DataSource) (k : string) :
  DataSource_key d = Ok k ->
  k <> "shared_properties" /\ str_contains "datasource_" k = true.
Proof.
  unfold DataSource_key. intros H. repeat inv_Ok H. split; [done|]. by destruct a.
Qed.

Lemma DataSource_keys_shape (D : list DataSource) (keys : list string) (k : string) :
  mapR DataSource_key D = Ok keys -> k ∈ keys ->
  k <> "shared_properties" /\ str_contains "datasource_" k = true.
Proof.
  intros Hk Hin. apply mapR_Forall2 in Hk.
  apply list_elem_of_lookup in Hin as (i & Hi).
  destruct (Forall2_lookup_r _ _ _ _ _ Hk Hi) as (d & _ & Hd).
  by apply (DataSource_key_shape d).
Qed.

Lemma fst_fmap_pair {A B C} (g : A * B -> C) (l : list (A * B)) :
  ((fun kv : A * B => (kv.1, g kv)) <$> l).*1 = l.*1.
Proof. rewrite <- list_fmap_compose. by apply list_fmap_ext. Qed.

(** The short dictionary of a list of sources: the shared properties first,
    then one entry per source, without the shared fields. *)
Lemma convert_to_short_ds_Ok (D : list DataSource) (keys : list string)
    (d0 : DataSource) (D' : list DataSource) :
  D = d0 :: D' ->
  mapR DataSource_key D = Ok keys -> NoDup keys ->
  exists shared,
    NoDup shared.*1 /\
    (forall f v, dict_get shared f = Some v ->
       f ∈ DataSource_fields /\ v = field_of d0 f /\
       forall d, d ∈ D -> same_value v (field_of d f)) /\
    convert_to_short_ds (DsList D) None =
    Ok (("shared_properties", shared) ::
        ((fun kv : string * dict pyval =>
            (kv.1, fold_left (fun d k => dict_pop k d) shared.*1 kv.2))
         <$> zip keys (DataSource_asdict <$> D))).
Proof.
  intros HD Hk Hnd.
  destruct (ds_find_shared_properties_Ok D keys d0 D' HD Hk Hnd) as (shared & Hsh & Hnds & HP).
  destruct (convert_ds_to_dict_Ok D keys Hk Hnd) as [Hconv Hlen].
  exists shared. split; [done|]. split; [done|].
  unfold convert_to_short_ds. rewrite Hsh. cbn [mbind result_bind].
  rewrite Hconv. cbn [mbind result_bind]. f_equal.
  rewrite dict_update_fresh; [done|].
  rewrite fst_fmap_pair, fst_zip by (rewrite length_fmap; lia).
  simpl. apply NoDup_cons. split; [|done].
  intros Hin. by destruct (DataSource_keys_shape D keys _ Hk Hin).
Qed.

(** The keywords read back for a source rebuild a source that agrees with it
    field by field. *)
Lemma DataSource_of_kwargs_same (kw : dict pyval) (d : DataSource) :
  (forall k, k ∈ kw.*1 -> k ∈ DataSource_fields) ->
  (forall f, f ∈ DataSource_fields ->
     exists v, dict_get kw f = Some v /\ same_value v (field_of d f)) ->
  exists d', DataSource_of_kwargs kw = Ok d' /\ same_source d' d.
Proof.
  intros Hkeys Hget. unfold DataSource_of_kwargs.
  assert (Hall : forallb (fun kv : string * pyval =>
                            bool_decide (kv.1 ∈ DataSource_fields)) kw = true).
  { apply forallb_forall. intros [k v] Hin. apply bool_decide_eq_true_2, Hkeys.
    apply list_elem_of_In in Hin. apply list_elem_of_fmap. by exists (k, v). }
  rewrite Hall. eexists. split; [done|].
  unfold same_source, DataSource_values.
  cbn [id input_path input_bbox input_mean input_std
       target_path target_bbox target_class target_binary].
  repeat (apply Forall2_cons; split;
    [match goal with
     | |- same_value (default _ (dict_get kw ?f)) _ =>
         let v := fresh "v" in let Hv := fresh "Hv" in let Hs := fresh "Hs" in
         destruct (Hget f ltac:(compute_done)) as (v & Hv & Hs); rewrite Hv; exact Hs
     end|]).
  apply Forall2_nil_2.
Qed.

Lemma mapR_Forall2_ex {A B C} (g : A -> result B) (R : B -> C -> Prop)
    (l : list A) (k : list C) :
  Forall2 (fun a c => exists b, g a = Ok b /\ R b c) l k ->
  exists l', mapR g l = Ok l' /\ Forall2 R l' k.
Proof.
  induction 1 as [|a c l k (b & Hb & HR) _ (l' & Hl' & HF)].
  - by exists [].
  - exists (b :: l'). simpl. rewrite Hb. simpl. rewrite Hl'. split; [done|by constructor].
Qed.

Lemma filter_all {A} (P : A -> Prop) `{forall x, Decision (P x)} (l : list A) :
  (forall x, x ∈ l -> P x) -> filter P l = l.
Proof.
  induction l as [|a l IH]; intros Hl; [done|].
  rewrite filter_cons_True by apply Hl, list_elem_of_here.
  f_equal. apply IH. intros x Hx. by apply Hl, list_elem_of_further.
Qed.

Lemma field_of_values (d : DataSource) (f : string) :
  f ∈ DataSource_fields -> field_of d f ∈ DataSource_values d.
Proof.
  intros Hf. apply (DataSource_asdict_values d f), dict_get_Some_elem.
  by apply field_of_get.
Qed.

(** The keywords the reader hands to [DataSource] for one source: its own
    dictionary without the shared fields, updated with the shared
    properties. *)
Lemma short_kwargs_same (shared : dict pyval) (d d0 : DataSource) (D : list DataSource) :
  NoDup shared.*1 ->
  (forall f v, dict_get shared f = Some v ->
     f ∈ DataSource_fields /\ v = field_of d0 f /\
     forall d, d ∈ D -> same_value v (field_of d f)) ->
  d ∈ D ->
  exists d',
    DataSource_of_kwargs
      (dict_update (fold_left (fun d k => dict_pop k d) shared.*1 (DataSource_asdict d))
                   shared) = Ok d' /\
    same_source d' d.
Proof.
  intros Hnds HP Hd.
  destruct (dict_pops (DataSource_asdict d) shared.*1 (DataSource_asdict_NoDup d))
    as (Hndp & Hkp & Hgp).
  apply DataSource_of_kwargs_same.
  - intros k Hk. apply dict_update_keys in Hk as [Hk|Hk].
    + apply Hkp in Hk. by rewrite DataSource_asdict_keys in Hk.
    + destruct (dict_get shared k) as [v|] eqn:Hv; [by apply (HP k v)|].
      by apply dict_get_None in Hv.
  - intros f Hf. rewrite dict_get_update by done.
    destruct (dict_get shared f) as [v|] eqn:Hv.
    + exists v. split; [done|]. by apply (HP f v).
    + rewrite Hgp. apply dict_get_None in Hv.
      rewrite bool_decide_eq_false_2 by done.
      exists (field_of d f). split; [by apply field_of_get|by left].
Qed.

(** C10, as the code has it. For a list of data sources that is not empty,
    whose keys ['datasource_<id>'] are distinct and whose field values
    [json] can write: converting the list to the short form, writing it and
    reading it back with [read_short_ds_json] succeeds and gives as many
    sources, in the same order, each agreeing with the original field by
    field: the value read is the original one, or equal to it under [==]. *)
Theorem short_ds_round_trip (files : gmap string (dict (dict pyval)))
    (D : list DataSource) (keys : list string) (json_path : string) :
  D <> [] ->
  mapR DataSource_key D = Ok keys ->
  NoDup keys ->
  (forall d v, d ∈ D -> v ∈ DataSource_values d -> json_serializable v = true) ->
  exists files' D',
    write_short_ds_json files (DsList D) json_path true = Ok files' /\
    read_short_ds_json files' json_path = Ok D' /\
    Forall2 same_source D' D.
Proof.
  intros HD Hk Hnd Hser. destruct D as [|d0 D'] eqn:HDeq; [done|]. rewrite <- HDeq in *.
  destruct (convert_to_short_ds_Ok D keys d0 D' HDeq Hk Hnd) as (shared & Hnds & HP & Hshort).
  destruct (convert_ds_to_dict_Ok D keys Hk Hnd) as [_ Hlen].
  set (items := zip keys (DataSource_asdict <$> D)) in *.
  set (pops := fun r : dict pyval => fold_left (fun d k => dict_pop k d) shared.*1 r) in *.
  set (popped := (fun kv : string * dict pyval => (kv.1, pops kv.2)) <$> items) in *.
  assert (Hpk : popped.*1 = keys).
  { unfold popped. rewrite fst_fmap_pair. unfold items.
    rewrite fst_zip; [done|]. rewrite length_fmap. lia. }
  assert (Hitem : forall i kv, popped !! i = Some kv ->
            exists k d, keys !! i = Some k /\ D !! i = Some d /\
                        kv = (k, pops (DataSource_asdict d))).
  { intros i kv Hi. unfold popped in Hi. rewrite list_lookup_fmap in Hi.
    destruct (items !! i) as [[k r]|] eqn:Hit; [|done]. injection Hi as <-.
    unfold items in Hit. apply lookup_zip_with_Some in Hit as (k' & r' & Heq & Hki & Hri).
    injection Heq as -> ->. rewrite list_lookup_fmap in Hri.
    destruct (D !! i) as [d|] eqn:Hdi; [|done]. injection Hri as <-. by exists k', d. }
  assert (Hdump : json_dump (("shared_properties", shared) :: popped)
                  = Ok (("shared_properties", shared) :: popped)).
  { unfold json_dump.
    assert (Hall : forallb (fun kv : string * dict pyval =>
                     forallb (fun fv : string * pyval => json_serializable fv.2) kv.2)
                     (("shared_properties", shared) :: popped) = true); [|by rewrite Hall].
    apply forallb_forall. intros kv Hin. apply list_elem_of_In in Hin.
    apply forallb_forall. intros [f v] Hfv. apply list_elem_of_In in Hfv. simpl.
    apply elem_of_cons in Hin as [->|Hin].
    - simpl in Hfv. apply (dict_get_NoDup _ _ _ Hnds) in Hfv.
      destruct (HP f v Hfv) as (Hf & -> & _).
      apply (Hser d0); [rewrite HDeq; apply list_elem_of_here|by apply field_of_values].
    - apply list_elem_of_lookup in Hin as (i & Hi).
      destruct (Hitem i kv Hi) as (k & d & Hki & Hdi & ->). simpl in Hfv.
      destruct (dict_pops (DataSource_asdict d) shared.*1 (DataSource_asdict_NoDup d))
        as (Hndp & Hkp & Hgp).
      apply (dict_get_NoDup _ _ _ Hndp) in Hfv. unfold pops in Hfv. rewrite Hgp in Hfv.
      destruct (bool_decide (f ∈ shared.*1)); [done|].
      apply (Hser d); [by apply list_elem_of_lookup_2 in Hdi|].
      by apply (DataSource_asdict_values d f), dict_get_Some_elem. }
  exists (<[json_path := ("shared_properties", shared) :: popped]> files).
  assert (Hread : read_short_ds_json
                    (<[json_path := ("shared_properties", shared) :: popped]> files) json_path
                  = convert_ds_to_list
                      ((fun kv : string * dict pyval => (kv.1, dict_update kv.2 shared))
                       <$> popped)).
  { unfold read_short_ds_json. rewrite lookup_insert_eq. cbn [mbind result_bind].
    change (dict_get (("shared_properties", shared) :: popped) "shared_properties")
      with (Some shared).
    rewrite fmap_cons. cbn [fst].
    rewrite filter_cons_False by (intros Hne; by apply Hne).
    rewrite Hpk.
    rewrite (filter_all _ keys)
      by (intros k Hin; by destruct (DataSource_keys_shape D keys k Hk Hin)).
    assert (Hcont : forallb (str_contains "datasource_") keys = true).
    { apply forallb_forall. intros k Hin. apply list_elem_of_In in Hin.
      by destruct (DataSource_keys_shape D keys k Hk Hin). }
    rewrite Hcont. cbn [mbind result_bind]. rewrite fmap_cons. cbn [fst].
    rewrite (bool_decide_eq_false_2 ("shared_properties" ∈ keys))
      by (intros Hin; by destruct (DataSource_keys_shape D keys _ Hk Hin)).
    change (dict_pop "shared_properties" (("shared_properties", shared) :: ?l)) with l.
    f_equal. apply list_fmap_ext. intros i kv Hi.
    rewrite bool_decide_eq_true_2; [done|].
    rewrite <- Hpk. apply list_elem_of_fmap. exists kv.
    split; [done|by apply list_elem_of_lookup_2 in Hi]. }
  rewrite Hread. unfold convert_ds_to_list.
  destruct (mapR_Forall2_ex
              (fun kv : string * dict pyval => DataSource_of_kwargs kv.2) same_source
              ((fun kv : string * dict pyval => (kv.1, dict_update kv.2 shared)) <$> popped) D)
    as (Dr & HDr & HF).
  { apply Forall2_same_length_lookup_2.
    - rewrite length_fmap, <- (length_fmap fst popped), Hpk. done.
    - intros i kv d Hi Hdi. rewrite list_lookup_fmap in Hi.
      destruct (popped !! i) as [kv0|] eqn:Hp; [|done]. injection Hi as <-.
      destruct (Hitem i kv0 Hp) as (k & d' & Hki & Hdi' & ->).
      assert (d' = d) as -> by congruence. cbn [snd].
      apply (short_kwargs_same shared d d0 D Hnds HP).
      by apply list_elem_of_lookup_2 in Hdi. }
  exists Dr. split; [|split; [done|done]].
  unfold write_short_ds_json. rewrite Hshort. cbn [fmap result_fmap mbind result_bind].
  change (json_dump (("shared_properties", shared) :: popped)
          ≫= (fun doc => Ok (<[json_path := doc]> files))
          = Ok (<[json_path := ("shared_properties", shared) :: popped]> files)).
  by rewrite Hdump.
Qed.

Lemma short_ds_round_trip_witness :
  exists files' D',
    write_short_ds_json ∅ (DsList [labelled_source_a; labelled_source_b]) "ds.json" true
      = Ok files' /\
    read_short_ds_json files' "ds.json" = Ok D' /\
    Forall2 same_source D' [labelled_source_a; labelled_source_b].
Proof.
  apply (short_ds_round_trip ∅ [labelled_source_a; labelled_source_b]
           ["datasource_a"; "datasource_b"] "ds.json").
  - discriminate.
  - reflexivity.
  - compute_done.
  - intros d v Hd Hv. apply list_elem_of_In in Hd. apply list_elem_of_In in Hv.
    simpl in Hd. destruct Hd as [<-|[<-|[]]]; simpl in Hv;
      repeat (destruct Hv as [<-|Hv]; [reflexivity|]); destruct Hv.
Defined.

(** C10, as the specification states it, fails on the empty list: the search
    for the shared properties indexes the first key of an empty dictionary,
    and nothing is written. *)
Lemma short_ds_empty_list_raises :
  convert_to_short_ds (DsList []) None = Raise IndexError /\
  write_short_ds_json ∅ (DsList []) "ds.json" true = Raise IndexError.
Proof. split; reflexivity. Qed.

(** * Further properties *)

Lemma np_arange_lookup (c n s : Z) (k : nat) (v : Z) :
  ((fun i => c + i * s) <$> seqZ 0 n) !! k = Some v -> v = c + Z.of_nat k * s /\ Z.of_nat k < n.
Proof.
  rewrite list_lookup_fmap. intros H.
  destruct (seqZ 0 n !! k) as [i|] eqn:Hi; [|done].
  apply lookup_seqZ in Hi as [-> ?]. injection H as <-. lia.
Qed.


Lemma np_unravel_index_Ok (i : Z) (dims : nat * nat * nat) (c : Z * Z * Z) :
  np_unravel_index i dims = Ok c ->
  let '(n0, n1, n2) := dims in
  let '(i0, i1, i2) := c in
  0 <= i < Z.of_nat n0 * Z.of_nat n1 * Z.of_nat n2 /\
  0 <= i0 < Z.of_nat n0 /\ 0 <= i1 < Z.of_nat n1 /\ 0 <= i2 < Z.of_nat n2.
Proof.
  destruct dims as [[n0 n1] n2]. unfold np_unravel_index.
  destruct ((0 <=? i) && (i <? Z.of_nat n0 * Z.of_nat n1 * Z.of_nat n2)) eqn:Hb; [|done].
  apply andb_true_iff in Hb as [H0 H1].
  apply Z.leb_le in H0. apply Z.ltb_lt in H1.
  destruct (np_unravel_index_ravel i (n0, n1, n2)) as (c' & Hc' & _ & Hin); [lia|].
  unfold np_unravel_index in Hc'.
  replace ((0 <=? i) && (i <? Z.of_nat n0 * Z.of_nat n1 * Z.of_nat n2)) with true in Hc'
    by (symmetry; case_Zb).
  intros Hc. rewrite Hc in Hc'. injection Hc' as <-. destruct c as [[i0 i1] i2]. lia.
Qed.






Lemma init_fields (input_shape0 target_shape0 : vec3) (D : list DataSource)
    (split : option DataSplit) (stride0 : option vec3) (nrm : bool)
    (tr : option transform) (pad0 cR cH : bool) (root : option string) (w w' : World)
    (permutation : list Z -> list Z) (st : WkwData) :
  init input_shape0 target_shape0 D split stride0 nrm tr pad0 cR cH root w permutation
    = Ok (st, w') ->
  input_shape st = input_shape0 /\ output_shape st = target_shape0 /\
  data_sources st = D /\ stride st = default target_shape0 stride0 /\
  cache_RAM st = cR /\ cache_HDD st = cH /\
  (forall i m, data_meshes st !! i = Some m -> get_data_mesh st (Z.of_nat i) = Ok m).
Proof.
  intros H. apply init_Ok in H as (Hc & _ & _ & Hm & _).
  unfold config in Hc. injection Hc as -> -> -> _ -> _ _ _ -> -> _. done.
Qed.








(** ** Indices outside the dataset *)

Lemma argmax_ge_lt (maxs : list Z) (v : Z) (s : nat) :
  argmax_ge maxs v = Ok s -> (s < length maxs)%nat.
Proof.
  unfold argmax_ge. destruct maxs as [|m l] eqn:E; [done|]. rewrite <- E.
  intros H. injection H as <-.
  destruct (first_ge maxs v) as [s|] eqn:Hs; simpl.
  - apply first_ge_Some in Hs as ((b & Hb & _) & _). by apply lookup_lt_Some in Hb.
  - rewrite E. simpl. lia.
Qed.

Lemma first_ge_None (maxs : list Z) (v : Z) :
  (forall j b, maxs !! j = Some b -> b < v) -> first_ge maxs v = None.
Proof.
  induction maxs as [|m l IH]; intros H; [done|]. simpl.
  pose proof (H 0%nat m eq_refl). destruct (Z.leb_spec v m); [lia|].
  rewrite IH; [done|]. intros j b Hj. apply (H (S j)). done.
Qed.

Lemma argmax_ge_nonempty (maxs : list Z) (v : Z) :
  (0 < length maxs)%nat -> argmax_ge maxs v = Ok (default 0%nat (first_ge maxs v)).
Proof. destruct maxs; simpl; [lia|done]. Qed.

Lemma first_ge_head (maxs : list Z) (v b : Z) :
  maxs !! 0%nat = Some b -> v <= b -> first_ge maxs v = Some 0%nat.
Proof.
  destruct maxs as [|m l]; [done|]. simpl. intros [= ->] Hv.
  destruct (Z.leb_spec v b); [done|lia].
Qed.

Lemma get_source_mesh_cases (self : WkwData) (idx : Z) :
  length (data_inds_min self) = length (data_inds_max self) ->
  length (data_meshes self) = length (data_inds_max self) ->
  (exists s c, get_source_mesh_for_sample_idx self idx = Ok (s, c)) \/
  get_source_mesh_for_sample_idx self idx = Raise ValueError.
Proof.
  intros Hl1 Hl2. unfold get_source_mesh_for_sample_idx.
  destruct (argmax_ge (data_inds_max self) idx) as [s|e] eqn:Hs.
  - apply argmax_ge_lt in Hs as Hlt. cbn [mbind result_bind].
    destruct (lookup_lt_is_Some_2 (data_inds_min self) s ltac:(lia)) as (a & Ha).
    destruct (lookup_lt_is_Some_2 (data_meshes self) s ltac:(lia)) as (m & Hm).
    rewrite (py_index_nat _ _ _ Ha), (py_index_nat _ _ _ Hm). cbn [mbind result_bind].
    unfold np_unravel_index. destruct (shape (mesh_x (mesh_target m))) as [[n0 n1] n2].
    destruct ((0 <=? idx - a) && _); [left; by eexists _, _|by right].
  - right. unfold argmax_ge in Hs. destruct (data_inds_max self); [|done].
    injection Hs as <-. done.
Qed.

Lemma len_last (self : WkwData) (n : Z) :
  len self = Ok n <-> last (data_inds_max self) = Some (n - 1).
Proof.
  unfold len, py_index. rewrite last_lookup.
  destruct (data_inds_max self) as [|m l] eqn:E; [done|]. rewrite <- E.
  assert (Hpos : 0 < Z.of_nat (length (data_inds_max self))) by (rewrite E; simpl; lia).
  replace (-1 <? 0) with true by done.
  replace ((0 <=? -1 + Z.of_nat (length (data_inds_max self))) &&
           (-1 + Z.of_nat (length (data_inds_max self))
              <? Z.of_nat (length (data_inds_max self)))) with true by (symmetry; case_Zb).
  replace (Z.to_nat (-1 + Z.of_nat (length (data_inds_max self))))
    with (pred (length (data_inds_max self))) by lia.
  destruct (data_inds_max self !! pred (length (data_inds_max self))) as [b|]; simpl.
  - split; intros H; injection H as H; f_equal; lia.
  - split; intros H; discriminate H.
Qed.

Lemma located_in_range (self : WkwData) (idx : Z) (s : nat) (c : Z * Z * Z) :
  ranges_inv (data_meshes self) (data_inds_min self) (data_inds_max self) ->
  length (data_meshes self) = length (data_inds_min self) ->
  get_source_mesh_for_sample_idx self idx = Ok (s, c) ->
  exists n, len self = Ok n /\ 0 <= idx < n.
Proof.
  intros Hinv Hlm H. pose proof Hinv as (Hl & H0 & Hnext & Hsz).
  unfold get_source_mesh_for_sample_idx in H. do 4 inv_Ok H. injection H as -> ->.
  apply argmax_ge_lt in Ha as Hlt.
  apply py_index_nat_inv in Ha0, Ha1. apply np_unravel_index_Ok in Ha2.
  destruct (lookup_lt_is_Some_2 (data_inds_max self) s Hlt) as (b & Hb).
  destruct (lookup_lt_is_Some_2 (data_inds_max self) (pred (length (data_inds_max self)))
              ltac:(lia)) as (lm & Hlast).
  pose proof (Hsz s _ _ _ Ha0 Hb Ha1) as Hbsz.
  pose proof (ranges_inv_min_nonneg _ _ _ s _ Hinv Hlm Ha0).
  pose proof (ranges_inv_mono _ _ _ s (pred (length (data_inds_max self))) b lm
                Hinv Hlm ltac:(lia) Hb Hlast).
  exists (lm + 1). split.
  - apply len_last. rewrite last_lookup. rewrite Hlast. f_equal. lia.
  - unfold np_size in Hbsz. destruct (shape (mesh_x (mesh_target a1))) as [[n0 n1] n2].
    destruct c as [[i0 i1] i2]. lia.
Qed.

(** X1. A constructed dataset accepts exactly the indices from 0 to its length
    minus one. An index that [get_source_mesh_for_sample_idx] locates lies in
    that range; any other index, negative ones included (there is no
    wrap-around), is a [ValueError], which the window, the centre and the
    sample functions pass on. *)
Theorem sample_index_bounds (input_shape0 target_shape0 : vec3)
    (D : list DataSource) (split : option DataSplit) (stride0 : option vec3) (nrm : bool)
    (tr : option transform) (pad0 cR cH : bool) (root : option string) (w w' : World)
    (permutation : list Z -> list Z) (st : WkwData) :
  init input_shape0 target_shape0 D split stride0 nrm tr pad0 cR cH root w permutation
    = Ok (st, w') ->
  (forall idx s c, get_source_mesh_for_sample_idx st idx = Ok (s, c) ->
     exists n, len st = Ok n /\ 0 <= idx < n) /\
  (forall idx, (forall n, len st = Ok n -> idx < 0 \/ n <= idx) ->
     get_source_mesh_for_sample_idx st idx = Raise ValueError /\
     (forall ty, get_bbox_for_sample_idx st idx ty = Raise ValueError) /\
     (forall ty, get_center_for_sample_idx st idx ty = Raise ValueError) /\
     (forall w0 normalize_arg,
        get_ordered_sample st w0 idx normalize_arg = Raise ValueError)).
Proof.
  intros Hinit.
  destruct (init_Ok _ _ _ _ _ _ _ _ _ _ _ _ _ _ _ Hinit)
    as (_ & Hlm & Hlmin & _ & Hinv & _).
  pose proof Hinv as (Hl & _).
  assert (Hin : forall idx s c, get_source_mesh_for_sample_idx st idx = Ok (s, c) ->
                  exists n, len st = Ok n /\ 0 <= idx < n).
  { intros idx s c. apply located_in_range; [done|lia]. }
  split; [done|].
  intros idx Hout.
  assert (Hv : get_source_mesh_for_sample_idx st idx = Raise ValueError).
  { destruct (get_source_mesh_cases st idx) as [(s & c & Hs)|Hs]; [lia|lia| |done].
    destruct (Hin _ _ _ Hs) as (n & Hn & Hr). specialize (Hout n Hn). lia. }
  split; [done|].
  split; [intros ty; unfold get_bbox_for_sample_idx; by rewrite Hv|].
  split; [intros ty; unfold get_center_for_sample_idx; by rewrite Hv|].
  intros w0 na. unfold get_ordered_sample, get_bbox_for_sample_idx. by rewrite Hv.
Qed.

Lemma sample_index_bounds_witness :
  (forall idx s c, get_source_mesh_for_sample_idx example_dataset idx = Ok (s, c) ->
     exists n, len example_dataset = Ok n /\ 0 <= idx < n) /\
  (forall idx, (forall n, len example_dataset = Ok n -> idx < 0 \/ n <= idx) ->
     get_source_mesh_for_sample_idx example_dataset idx = Raise ValueError /\
     (forall ty, get_bbox_for_sample_idx example_dataset idx ty = Raise ValueError) /\
     (forall ty, get_center_for_sample_idx example_dataset idx ty = Raise ValueError) /\
     (forall w0 normalize_arg,
        get_ordered_sample example_dataset w0 idx normalize_arg = Raise ValueError)).
Proof.
  apply (sample_index_bounds (2, 2, 1) (2, 2, 1) example_sources None None true None
           false false false None example_world example_world (fun l => l)
           example_dataset).
  vm_compute. reflexivity.
Defined.

(** X5. [get_source_idx_from_sample_idx] attributes an index of a constructed
    dataset to the source that owns it, and [get_target_from_sample_idx]
    answers the class of that source; an index outside the dataset is not
    refused: it is attributed to the first source. *)
Theorem source_idx_outside_is_first (input_shape0 target_shape0 : vec3)
    (d0 : DataSource) (D : list DataSource) (split : option DataSplit)
    (stride0 : option vec3) (nrm : bool)
    (tr : option transform) (pad0 cR cH : bool) (root : option string) (w w' : World)
    (permutation : list Z -> list Z) (st : WkwData) :
  init input_shape0 target_shape0 (d0 :: D) split stride0 nrm tr pad0 cR cH root w
    permutation = Ok (st, w') ->
  (forall idx s c, get_source_mesh_for_sample_idx st idx = Ok (s, c) ->
     get_source_idx_from_sample_idx st idx = Ok s /\
     exists d, (d0 :: D) !! s = Some d /\
               get_target_from_sample_idx st idx = Ok (target_class d)) /\
  (forall idx n, len st = Ok n -> idx < 0 \/ n <= idx ->
     get_source_idx_from_sample_idx st idx = Ok 0%nat /\
     get_target_from_sample_idx st idx = Ok (target_class d0)).
Proof.
  intros Hinit.
  destruct (init_Ok _ _ _ _ _ _ _ _ _ _ _ _ _ _ _ Hinit)
    as (_ & Hlm & Hlmin & _ & Hinv & _).
  apply init_fields in Hinit as (_ & _ & Ed & _).
  pose proof Hinv as (Hl & H0 & Hnext & Hsz).
  split.
  - intros idx s c H. unfold get_source_mesh_for_sample_idx in H. inv_Ok H.
    unfold get_target_from_sample_idx, get_source_idx_from_sample_idx.
    apply argmax_ge_lt in Ha as Hlt. rewrite Ha. cbn [mbind result_bind].
    do 3 inv_Ok H. injection H as -> ->. split; [done|].
    destruct (lookup_lt_is_Some_2 (d0 :: D) s ltac:(lia)) as (d & Hd).
    exists d. split; [done|]. rewrite Ed. by rewrite (py_index_nat _ _ _ Hd).
  - intros idx n Hn Hout.
    assert (Hs : get_source_idx_from_sample_idx st idx = Ok 0%nat).
    { unfold get_source_idx_from_sample_idx.
      rewrite argmax_ge_nonempty by (simpl in *; lia).
      f_equal. apply len_last in Hn. rewrite last_lookup in Hn.
      destruct Hout as [Hneg|Hbig].
      - destruct (lookup_lt_is_Some_2 (data_inds_min st) 0 ltac:(simpl in *; lia))
          as (a0 & Ha0).
        destruct (lookup_lt_is_Some_2 (data_meshes st) 0 ltac:(simpl in *; lia))
          as (m0 & Hm0).
        destruct (lookup_lt_is_Some_2 (data_inds_max st) 0 ltac:(simpl in *; lia))
          as (b0 & Hb0).
        pose proof (Hsz 0%nat a0 b0 m0 Ha0 Hb0 Hm0).
        pose proof (H0 a0 Ha0). pose proof (np_size_nonneg (mesh_x (mesh_target m0))).
        rewrite (first_ge_head _ _ b0); [done|done|lia].
      - rewrite first_ge_None; [done|].
        intros j b Hb. pose proof (lookup_lt_Some _ _ _ Hb).
        pose proof (ranges_inv_mono _ _ _ j (pred (length (data_inds_max st))) b (n - 1)
                      Hinv ltac:(lia) ltac:(lia) Hb Hn). lia. }
    split; [done|]. unfold get_target_from_sample_idx. rewrite Hs, Ed. done.
Qed.

Lemma source_idx_outside_is_first_witness :
  (forall idx s c, get_source_mesh_for_sample_idx example_dataset idx = Ok (s, c) ->
     get_source_idx_from_sample_idx example_dataset idx = Ok s /\
     exists d, example_sources !! s = Some d /\
               get_target_from_sample_idx example_dataset idx = Ok (target_class d)) /\
  (forall idx n, len example_dataset = Ok n -> idx < 0 \/ n <= idx ->
     get_source_idx_from_sample_idx example_dataset idx = Ok 0%nat /\
     get_target_from_sample_idx example_dataset idx = Ok (target_class example_source)).
Proof.
  apply (source_idx_outside_is_first (2, 2, 1) (2, 2, 1) example_source [example_source_1]
           None None true None false false false None example_world example_world
           (fun l => l) example_dataset).
  vm_compute. reflexivity.
Defined.

(** ** Identifiers and positions of the sources *)

Lemma py_list_index_Ok (l : list pyval) (v : pyval) (k : nat) :
  py_list_index l v = Ok k <->
  (exists a, l !! k = Some a /\ py_eq a v = true) /\
  (forall j b, (j < k)%nat -> l !! j = Some b -> py_eq b v = false).
Proof.
  revert k. induction l as [|a l IH]; intros k; simpl.
  - split; [done|]. by intros [(a & Ha & _) _].
  - destruct (py_eq a v) eqn:Ea.
    + split.
      * intros [= <-]. split; [by exists a|]. intros; lia.
      * intros [(a' & Ha' & Ea') Hlt]. destruct k as [|k]; [done|].
        specialize (Hlt 0%nat a ltac:(lia) eq_refl). congruence.
    + split.
      * intros H. inv_Ok H. apply IH in Ha as [(a' & Ha' & Ea') Hlt]. subst k.
        split; [by exists a'|].
        intros [|j] b Hj Hb; simpl in Hb; [by injection Hb as <-|].
        apply (Hlt j); [lia|done].
      * intros [(a' & Ha' & Ea') Hlt]. destruct k as [|k].
        { simpl in Ha'. injection Ha' as ->. congruence. }
        simpl in Ha'.
        assert (Hk : py_list_index l v = Ok k).
        { apply IH. split; [by exists a'|]. intros j b Hj Hb. apply (Hlt (S j)); [lia|done]. }
        by rewrite Hk.
Qed.



(** X7. Looking up the id found at a position gives the position back, when
    that id equals itself (any id but a NaN) and no earlier source carries an
    equal id. *)
Theorem datasource_idx_id_round_trip (self : WkwData) (k : nat) (d : DataSource) :
  data_sources self !! k = Some d ->
  py_eq (id d) (id d) = true ->
  (forall j d', (j < k)%nat -> data_sources self !! j = Some d' ->
                py_eq (id d') (id d) = false) ->
  datasource_idx_to_id self (Z.of_nat k) = Ok (id d) /\
  datasource_id_to_idx self (id d) = Ok k.
Proof.
  intros Hd Hrefl Hfirst. split.
  - unfold datasource_idx_to_id. by rewrite (py_index_nat _ _ _ Hd).
  - unfold datasource_id_to_idx. apply py_list_index_Ok. split.
    + exists (id d). by rewrite list_lookup_fmap, Hd.
    + intros j b Hj Hb. rewrite list_lookup_fmap in Hb.
      destruct (data_sources self !! j) as [d'|] eqn:Hd'; [|done]. injection Hb as <-.
      by apply (Hfirst j).
Qed.

Lemma datasource_idx_id_round_trip_witness :
  datasource_idx_to_id example_dataset (Z.of_nat 1) = Ok (id example_source_1) /\
  datasource_id_to_idx example_dataset (id example_source_1) = Ok 1%nat.
Proof.
  apply (datasource_idx_id_round_trip example_dataset 1 example_source_1).
  - reflexivity.
  - reflexivity.
  - intros [|j] d' Hj Hd'; [|lia]. vm_compute in Hd'. injection Hd' as <-. reflexivity.
Defined.

(** ** The split by strata *)







(** ** The keys of the caches *)

Lemma string_of_uint_chars (u : Decimal.uint) :
  forallb int_char (list_ascii_of_string (NilEmpty.string_of_uint u)) = true.
Proof. induction u; simpl; try done; by rewrite IHu. Qed.

Lemma str_of_Z_chars (n : Z) :
  forallb int_char (list_ascii_of_string (str_of_Z n)) = true /\
  list_ascii_of_string (str_of_Z n) <> [].
Proof.
  unfold str_of_Z, NilZero.string_of_int.
  assert (Hu : forall u, forallb int_char
                (list_ascii_of_string (NilZero.string_of_uint u)) = true /\
                list_ascii_of_string (NilZero.string_of_uint u) <> []).
  { intros u. unfold NilZero.string_of_uint. destruct u; try done;
      (split; [apply (string_of_uint_chars (_ u))|done]). }
  destruct (Z.to_int n) as [u|u].
  - apply Hu.
  - split; [|done]. simpl. apply Hu.
Qed.

Lemma int_char_number (l : list ascii) :
  forallb int_char l = true -> forallb number_char l = true.
Proof.
  induction l as [|c l IH]; [done|]. simpl. intros H.
  apply andb_true_iff in H as [Hc Hl]. rewrite (IH Hl), andb_true_r.
  unfold int_char in Hc. unfold number_char.
  apply orb_true_iff in Hc as [-> | ->]; by rewrite ?orb_true_r.
Qed.

Lemma int_char_not_blank (c : ascii) :
  int_char c = true ->
  Ascii.eqb c " " = false /\ Ascii.eqb c "," = false /\ Ascii.eqb c "+" = false.
Proof.
  unfold int_char. intros H.
  destruct (Ascii.eqb_spec c " ") as [->|_]; [done|].
  destruct (Ascii.eqb_spec c ",") as [->|_]; [done|].
  destruct (Ascii.eqb_spec c "+") as [->|_]; done.
Qed.

Lemma lstrip_int_chars (l : list ascii) : forallb int_char l = true -> lstrip l = l.
Proof.
  destruct l as [|c l]; [done|]. simpl. intros H. apply andb_true_iff in H as [Hc _].
  by destruct (int_char_not_blank c Hc) as (-> & _).
Qed.

Lemma forallb_reverse {A} (p : A -> bool) (l : list A) :
  forallb p (reverse l) = forallb p l.
Proof.
  induction l as [|a l IH]; [done|]. rewrite reverse_cons, forallb_app. simpl.
  rewrite IH. destruct (p a), (forallb p l); done.
Qed.

Lemma strip_int_chars (l : list ascii) : forallb int_char l = true -> strip l = l.
Proof.
  intros H. unfold strip. rewrite (lstrip_int_chars l H).
  rewrite lstrip_int_chars by by rewrite forallb_reverse.
  apply reverse_involutive.
Qed.

Lemma int_of_string_str_of_Z (n : Z) :
  exists d, NilZero.int_of_string (str_of_Z n) = Some d /\ Z.of_int d = n.
Proof.
  unfold str_of_Z. exists (Z.to_int n). split; [|apply DecimalZ.of_to].
  apply NilZero.isi.
  - destruct n; simpl; try done. intros [= H]. by apply DecimalPos.Unsigned.to_uint_nonnil in H.
  - destruct n; simpl; try done. intros [= H]. by apply DecimalPos.Unsigned.to_uint_nonnil in H.
Qed.

(** [int] reads the text of an integer back, with or without a blank before
    it. *)
Lemma py_int_of_str_of_Z (n : Z) :
  py_int_of_str (str_of_Z n) = Ok n /\ py_int_of_str (String " " (str_of_Z n)) = Ok n.
Proof.
  destruct (str_of_Z_chars n) as [Hc Hne].
  destruct (int_of_string_str_of_Z n) as (d & Hd & Hn).
  assert (H1 : py_int_of_str (str_of_Z n) = Ok n).
  { unfold py_int_of_str. rewrite (int_char_number _ Hc), (strip_int_chars _ Hc).
    destruct (list_ascii_of_string (str_of_Z n)) as [|c l] eqn:E; [done|].
    simpl in Hc. apply andb_true_iff in Hc as [Hc _].
    destruct (int_char_not_blank c Hc) as (_ & _ & ->).
    rewrite <- E, string_of_list_ascii_of_string, Hd. by rewrite Hn. }
  split; [done|].
  unfold py_int_of_str in *. cbn [list_ascii_of_string forallb number_char].
  replace (number_char " ") with true by done. cbn [andb].
  rewrite (int_char_number _ Hc) in *.
  replace (strip (" "%char :: list_ascii_of_string (str_of_Z n)))
    with (strip (list_ascii_of_string (str_of_Z n))); [done|].
  unfold strip. done.
Qed.

Lemma split_comma_free (s : string) :
  forallb int_char (list_ascii_of_string s) = true -> split_comma s = [s].
Proof.
  induction s as [|c s IH]; [done|]. simpl. intros H.
  apply andb_true_iff in H as [Hc Hs].
  destruct (int_char_not_blank c Hc) as (_ & -> & _). by rewrite (IH Hs).
Qed.

Lemma split_comma_app (s t : string) :
  forallb int_char (list_ascii_of_string s) = true ->
  split_comma (s ++ String "," t) = s :: split_comma t.
Proof.
  induction s as [|c s IH]; [done|]. simpl. intros H.
  apply andb_true_iff in H as [Hc Hs].
  destruct (int_char_not_blank c Hc) as (_ & -> & _). by rewrite (IH Hs).
Qed.

Lemma split_comma_join (s : string) (r : list string) :
  Forall (fun s => forallb int_char (list_ascii_of_string s) = true) (s :: r) ->
  split_comma (join_comma (s :: r)) = s :: (String " " <$> r).
Proof.
  revert s. induction r as [|s' r IH]; intros s H.
  - apply split_comma_free. by inversion H.
  - inversion H as [|? ? Hs Hr]; subst.
    change (join_comma (s :: s' :: r)) with (s ++ String "," (String " " (join_comma (s' :: r))))%string.
    rewrite split_comma_app by done. f_equal.
    cbn [split_comma]. replace (Ascii.eqb " " ",") with false by done.
    by rewrite (IH s' Hr).
Qed.

Lemma list_ascii_of_string_app (s t : string) :
  list_ascii_of_string (s ++ t) = list_ascii_of_string s ++ list_ascii_of_string t.
Proof. induction s as [|c s IH]; [done|]. simpl. by rewrite IH. Qed.

Lemma str_strip_ends_brackets (body : string) :
  str_strip_ends ("[" ++ body ++ "]")%string = body.
Proof.
  unfold str_strip_ends. rewrite !list_ascii_of_string_app.
  change (list_ascii_of_string "[") with ["["%char].
  change (list_ascii_of_string "]") with ["]"%char].
  set (l := list_ascii_of_string body). cbn [app].
  assert (H : py_slice 1 (-1) ("["%char :: l ++ ["]"%char]) = l).
  { unfold py_slice, slice_bound. cbn [length]. rewrite length_app. cbn [length].
    replace (1 <? 0) with false by done. replace (-1 <? 0) with true by done.
    rewrite Z.min_l by lia. rewrite Z.max_l by lia. cbn [Z.to_nat drop Pos.to_nat Pos.iter_op].
    replace (Z.to_nat (-1 + Z.of_nat (S (length l + 1)) - 1)) with (length l) by lia.
    change (Z.to_nat 1) with 1%nat. cbn [skipn]. rewrite drop_0.
    by rewrite take_app_length. }
  rewrite H. apply string_of_list_ascii_of_string.
Qed.

(** The key of a box that is not empty is read back as the box; the key of the
    empty list is refused. *)
Lemma bbox_from_str_of_ints (l : list Z) :
  l <> [] -> bbox_from_str (str_of_ints l) = Ok l.
Proof.
  intros Hl. unfold bbox_from_str, str_of_ints. rewrite str_strip_ends_brackets.
  destruct l as [|n l]; [done|]. rewrite fmap_cons.
  rewrite split_comma_join.
  2:{ apply Forall_forall. intros s Hs. rewrite <- fmap_cons in Hs.
      apply list_elem_of_fmap in Hs as (m & -> & _). apply str_of_Z_chars. }
  cbn [mapR]. rewrite (proj1 (py_int_of_str_of_Z n)). cbn [mbind result_bind].
  assert (H : mapR py_int_of_str (String " " <$> (str_of_Z <$> l)) = Ok l).
  { clear. induction l as [|m l IH]; [done|]. rewrite !fmap_cons. cbn [mapR].
    rewrite (proj2 (py_int_of_str_of_Z m)). cbn [mbind result_bind]. by rewrite IH. }
  by rewrite H.
Qed.

Lemma str_of_ints_inj (l l' : list Z) : str_of_ints l = str_of_ints l' -> l = l'.
Proof.
  intros H. destruct l as [|n l], l' as [|n' l']; [done| | |].
  - assert (E : bbox_from_str (str_of_ints []) = Ok (n' :: l'))
      by (rewrite H; by apply bbox_from_str_of_ints).
    discriminate E.
  - assert (E : bbox_from_str (str_of_ints []) = Ok (n :: l))
      by (rewrite <- H; by apply bbox_from_str_of_ints).
    discriminate E.
  - assert (E : Ok (n :: l) = Ok (n' :: l')).
    { rewrite <- (bbox_from_str_of_ints (n :: l)), <- (bbox_from_str_of_ints (n' :: l'))
        by done. by rewrite H. }
    congruence.
Qed.

(** ** The memory tier *)

Lemma py_slice_fmap_seqZ {A} (f : Z -> A) (m n lo hi : Z) :
  0 <= lo <= hi -> hi <= n ->
  py_slice lo hi (f <$> seqZ m n) = f <$> seqZ (m + lo) (hi - lo).
Proof.
  intros Hlo Hhi. rewrite py_slice_take_drop by lia.
  replace n with (lo + ((hi - lo) + (n - hi))) by lia.
  rewrite seqZ_app, seqZ_app by lia. rewrite !fmap_app.
  rewrite drop_app_length' by (rewrite length_fmap, length_seqZ; lia).
  rewrite take_app_length' by (rewrite length_fmap, length_seqZ; lia). done.
Qed.

Lemma slice4_cube (d : Dataset) (ax ay az aex aey aez r0 r1 r2 e0 e1 e2 : Z) :
  0 <= r0 -> 0 <= e0 -> r0 + e0 <= aex ->
  0 <= r1 -> 0 <= e1 -> r1 + e1 <= aey ->
  0 <= r2 -> 0 <= e2 -> r2 + e2 <= aez ->
  slice4 (cube d (ax, ay, az) (aex, aey, aez)) r0 (r0 + e0) r1 (r1 + e1) r2 (r2 + e2)
  = cube d (ax + r0, ay + r1, az + r2) (e0, e1, e2).
Proof.
  intros. unfold slice4, cube. rewrite fmap_cons, fmap_nil. f_equal.
  rewrite py_slice_fmap_seqZ by lia. rewrite <- list_fmap_compose.
  replace (r0 + e0 - r0) with e0 by lia.
  apply list_fmap_ext. intros _ x _. cbn [compose].
  rewrite py_slice_fmap_seqZ by lia. rewrite <- list_fmap_compose.
  replace (r1 + e1 - r1) with e1 by lia.
  apply list_fmap_ext. intros _ y _. cbn [compose].
  rewrite py_slice_fmap_seqZ by lia.
  by replace (r2 + e2 - r2) with e2 by lia.
Qed.

Lemma DataSource_field_role (d : DataSource) (ty : string) (p b : pyval) :
  path_of_role ty d = Some p -> bbox_of_role ty d = Some b ->
  DataSource_field d (ty ++ "_path")%string = Ok p /\
  DataSource_field d (ty ++ "_bbox")%string = Ok b.
Proof.
  unfold path_of_role, bbox_of_role.
  destruct (String.eqb_spec ty "input") as [->|_].
  - intros [= <-] [= <-]. by split.
  - destruct (String.eqb_spec ty "target") as [->|_]; [|done].
    intros [= <-] [= <-]. by split.
Qed.

(** A hit of the memory tier: the entry of the box of the source holds a cube
    of voxels, the box asked for lies inside the box of the source; the answer
    is the cube over the box asked for, and the store is not touched. *)
Lemma wkw_read_cached_hit (self : WkwData) (w : World) (i : nat) (d : DataSource)
    (ty p : string) (ds : Dataset) (ax ay az aex aey aez : Z) (rest : list Z)
    (bx by_ bz ex ey ez : Z) :
  data_sources self !! i = Some d ->
  path_of_role ty d = Some (PStr p) ->
  bbox_of_role ty d = Some (py_ints (ax :: ay :: az :: aex :: aey :: aez :: rest)) ->
  memory_entry self p (ax :: ay :: az :: aex :: aey :: aez :: rest)
    = Some (cube ds (ax, ay, az) (aex, aey, aez)) ->
  box_inside (bx, by_, bz) (ax, ay, az) (ex, ey, ez) (aex, aey, aez) ->
  0 <= ex -> 0 <= ey -> 0 <= ez ->
  wkw_read_cached self w (Z.of_nat i) ty [bx; by_; bz; ex; ey; ez]
  = Ok (cube ds (bx, by_, bz) (ex, ey, ez), w).
Proof.
  intros Hd Hp Hb Hmem Hin Hex Hey Hez.
  destruct (DataSource_field_role d ty _ _ Hp Hb) as [Ep Eb].
  unfold wkw_read_cached. rewrite (py_index_nat _ _ _ Hd). cbn [mbind result_bind].
  rewrite Ep, Eb. cbn [mbind result_bind].
  unfold memory_entry in Hmem.
  destruct (data_cache_input self !! p) as [inner|] eqn:Hinner; [|done].
  cbn [mbind option_bind] in Hmem. cbn [cache_getitem]. rewrite Hinner.
  cbn [mbind result_bind]. rewrite as_ints_py_ints. cbn [mbind result_bind].
  rewrite Hmem. cbn [bbox_origin bbox_extent mbind result_bind].
  unfold box_inside in Hin.
  rewrite slice4_cube by lia.
  replace (ax + (bx - ax)) with bx by lia. replace (ay + (by_ - ay)) with by_ by lia.
  by replace (az + (bz - az)) with bz by lia.
Qed.

Lemma foldR_ind {A St} (f : St -> A -> result St) (P : list A -> St -> Prop)
    (l : list A) (s s' : St) :
  P [] s ->
  (forall pre a t t', P pre t -> f t a = Ok t' -> P (pre ++ [a]) t') ->
  foldR f l s = Ok s' -> P l s'.
Proof.
  intros H0 Hstep.
  assert (Hgen : forall l pre t, P pre t -> foldR f l t = Ok s' -> P (pre ++ l) s').
  { clear l. induction l as [|a l IH]; intros pre t Hp H; simpl in H.
    - injection H as <-. by rewrite app_nil_r.
    - inv_Ok H. rewrite (cons_middle a pre l), app_assoc. eapply IH; [|done]. eauto. }
  apply (Hgen l [] s H0).
Qed.

Lemma as_ints_inv (v : pyval) (l : list Z) : as_ints v = Ok l -> v = py_ints l.
Proof.
  destruct v as [| | | | |pl|]; try done. simpl. intros H. unfold py_ints. f_equal.
  revert l H. induction pl as [|x pl IH]; intros l H; simpl in H.
  - by injection H as <-.
  - inv_Ok H. inv_Ok H. destruct x; try done. simpl in Ha. injection Ha as <-.
    injection H as <-. rewrite fmap_cons. f_equal. by apply IH.
Qed.

Lemma as_str_inv (v : pyval) (s : string) : as_str v = Ok s -> v = PStr s.
Proof. destruct v; try done. by intros [= <-]. Qed.

Lemma wkw_read_inv (w w' : World) (p : string) (b : list Z) (data : arr4 Z) :
  wkw_read w p b = Ok (data, w') ->
  exists ds ox oy oz ex ey ez rest,
    b = ox :: oy :: oz :: ex :: ey :: ez :: rest /\
    datasets w !! p = Some ds /\ 0 <= ex /\ 0 <= ey /\ 0 <= ez /\
    data = cube ds (ox, oy, oz) (ex, ey, ez) /\ w' = log_read w p b.
Proof.
  unfold wkw_read. destruct (datasets w !! p) as [ds|]; [|done].
  destruct b as [|ox [|oy [|oz [|ex [|ey [|ez rest]]]]]]; try done.
  cbn [bbox_origin bbox_extent mbind result_bind].
  destruct ((ex <? 0) || (ey <? 0) || (ez <? 0)) eqn:Hneg; [done|].
  intros [= <- <-]. apply orb_false_iff in Hneg as [Hneg Hz].
  apply orb_false_iff in Hneg as [Hx Hy].
  exists ds, ox, oy, oz, ex, ey, ez, rest. repeat split; try done; lia.
Qed.

(** One call of [fill_cache] with the memory tier alone. *)
Lemma fill_cache_memory_only (w0 : World) (self self' : WkwData) (w w' : World)
    (pv bv : pyval) :
  cache_RAM self = true -> cache_HDD self = false ->
  datasets w = datasets w0 -> snapshot_cache w0 self ->
  fill_cache self w pv bv = Ok (self', w') ->
  cache_RAM self' = true /\ cache_HDD self' = false /\
  data_sources self' = data_sources self /\
  datasets w' = datasets w0 /\ snapshot_cache w0 self' /\
  (exists p b, pv = PStr p /\ bv = py_ints b /\ is_Some (memory_entry self' p b)) /\
  (forall p b, is_Some (memory_entry self p b) -> is_Some (memory_entry self' p b)).
Proof.
  intros HR HH Hw Hsnap H. unfold fill_cache in H. inv_Ok H. inv_Ok H.
  rename a into p, a0 into b. rewrite HH, HR in H. cbn [andb] in H.
  inv_Ok H. destruct a as [data w1]. cbn [mbind result_bind] in H.
  apply as_str_inv in Ha as ->. apply as_ints_inv in Ha0 as ->.
  apply wkw_read_inv in Ha1
    as (ds & ox & oy & oz & ex & ey & ez & rest & -> & Hds & _ & _ & _ & -> & ->).
  set (b := ox :: oy :: oz :: ex :: ey :: ez :: rest) in *.
  set (data := cube ds (ox, oy, oz) (ex, ey, ez)) in *.
  assert (Hkeep : forall inner',
            (forall key, key <> str_of_ints b ->
                         inner' !! key = (data_cache_input self !! p) ≫= (.!! key)) ->
            inner' !! str_of_ints b = Some data ->
            let st := set_data_cache_input self (<[p := inner']> (data_cache_input self)) in
            snapshot_cache w0 st /\
            is_Some (memory_entry st p b) /\
            (forall q b', is_Some (memory_entry self q b') -> is_Some (memory_entry st q b'))).
  { intros inner' Hother Hnew st. unfold memory_entry, snapshot_cache.
    cbn [st data_cache_input set_data_cache_input]. split; [|split].
    - intros q key v. destruct (decide (q = p)) as [->|Hq].
      + rewrite lookup_insert_eq. cbn [mbind option_bind].
        destruct (decide (key = str_of_ints b)) as [->|Hk].
        * rewrite Hnew. intros [= <-].
          exists ds, ox, oy, oz, ex, ey, ez, rest. split; [done|].
          split; [by rewrite <- Hw|done].
        * rewrite (Hother key Hk). apply Hsnap.
      + rewrite lookup_insert_ne by done. apply Hsnap.
    - rewrite lookup_insert_eq. cbn [mbind option_bind]. by rewrite Hnew.
    - intros q b'. destruct (decide (q = p)) as [->|Hq].
      + rewrite lookup_insert_eq. cbn [mbind option_bind].
        destruct (decide (str_of_ints b' = str_of_ints b)) as [->|Hk]; [by rewrite Hnew|].
        by rewrite (Hother _ Hk).
      + by rewrite lookup_insert_ne. }
  destruct (data_cache_input self !! p) as [inner|] eqn:Hinner;
    cbn [cache_HDD set_data_cache_input] in H; rewrite HH in H; injection H as <- <-.
  - destruct (Hkeep (<[str_of_ints b := data]> inner)) as (H1 & H2 & H3).
    { intros key Hk. by rewrite lookup_insert_ne. }
    { by rewrite lookup_insert_eq. }
    split; [done|]. split; [done|]. split; [done|]. split; [done|].
    split; [done|]. split; [by exists p, b|done].
  - destruct (Hkeep {[str_of_ints b := data]}) as (H1 & H2 & H3).
    { intros key Hk. by rewrite lookup_singleton_ne. }
    { by rewrite lookup_singleton_eq. }
    split; [done|]. split; [done|]. split; [done|]. split; [done|].
    split; [done|]. split; [by exists p, b|done].
Qed.

Lemma fill_caches_memory_only (w0 : World) (self self' : WkwData) (w w' : World) :
  cache_RAM self = true -> cache_HDD self = false ->
  datasets w = datasets w0 -> snapshot_cache w0 self ->
  fill_caches self w = Ok (self', w') ->
  datasets w' = datasets w0 /\ snapshot_cache w0 self' /\
  forall d, d ∈ data_sources self -> source_cached self' d.
Proof.
  intros HR HH Hw Hsnap H. unfold fill_caches in H.
  apply (foldR_ind _
           (fun pre (t : WkwData * World) =>
              cache_RAM t.1 = true /\ cache_HDD t.1 = false /\
              datasets t.2 = datasets w0 /\ snapshot_cache w0 t.1 /\
              forall d, d ∈ pre -> source_cached t.1 d)) in H.
  - destruct H as (_ & _ & H1 & H2 & H3). done.
  - simpl. repeat split; try done. intros d Hd. by apply elem_of_nil in Hd.
  - intros pre d [s v] [s2 v2] (H1 & H2 & H3 & H4 & H5) Hf. cbn [fst snd] in *.
    inv_Ok Hf. destruct a as [s1 v1].
    apply (fill_cache_memory_only w0) in Ha
      as (R1 & C1 & _ & W1 & S1 & (p & b & Ep & Eb & E1) & M1); try done.
    apply (fill_cache_memory_only w0) in Hf
      as (R2 & C2 & _ & W2 & S2 & (p' & b' & Ep' & Eb' & E2) & M2); try done.
    split; [done|]. split; [done|]. split; [done|]. split; [done|].
    intros d' Hd'. apply elem_of_app in Hd' as [Hd'|Hd'].
    + destruct (H5 d' Hd') as (q & c & q' & c' & ? & ? & ? & ? & ? & ?).
      exists q, c, q', c'. repeat split; try done; by apply M2, M1.
    + apply list_elem_of_singleton in Hd' as ->.
      exists p, b, p', b'. repeat split; try done. by apply M2.
Qed.

Lemma snapshot_entry (w0 : World) (st : WkwData) (p : string) (b : list Z) :
  snapshot_cache w0 st -> is_Some (memory_entry st p b) ->
  exists ds ox oy oz ex ey ez rest,
    b = ox :: oy :: oz :: ex :: ey :: ez :: rest /\
    datasets w0 !! p = Some ds /\
    memory_entry st p b = Some (cube ds (ox, oy, oz) (ex, ey, ez)).
Proof.
  intros Hsnap (data & Hdata). unfold memory_entry in *.
  destruct (Hsnap p _ data Hdata) as (ds & ox & oy & oz & ex & ey & ez & rest & Hk & Hds & ->).
  apply str_of_ints_inj in Hk as ->.
  by exists ds, ox, oy, oz, ex, ey, ez, rest.
Qed.

Lemma init_memory_only (input_shape0 target_shape0 : vec3) (D : list DataSource)
    (split : option DataSplit) (stride0 : option vec3) (nrm : bool)
    (tr : option transform) (pad0 : bool) (root : option string) (w w' : World)
    (permutation : list Z -> list Z) (st : WkwData) :
  init input_shape0 target_shape0 D split stride0 nrm tr pad0 true false root w permutation
    = Ok (st, w') ->
  datasets w' = datasets w /\ forall d, d ∈ D -> source_snapshot w st d.
Proof.
  unfold init. intros H. inv_Ok H. inv_Ok H. inv_Ok H. cbn [orb] in H.
  apply get_data_meshes_Ok in Ha as (Hc1 & Hmin1 & Hmax1 & Hca1 & _); [|done].
  apply get_data_ind_ranges_Ok in Ha0 as (Hc2 & _ & Hca2 & _); [|done|done].
  assert (Hs3 : config a1 = config a0 /\ data_cache_input a1 = data_cache_input a0).
  { destruct split as [sp|].
    - apply get_data_ind_splits_same in Ha1 as ((? & _) & ?). done.
    - by injection Ha1 as <-. }
  destruct Hs3 as (Hc3 & Hca3).
  assert (Hc : config a1 = (input_shape0, target_shape0, D, split,
                            default target_shape0 stride0, nrm, tr, pad0,
                            (true, false, default "." root)))
    by (rewrite Hc3, Hc2, Hc1; done).
  unfold config in Hc. injection Hc as _ _ Hd _ _ _ _ _ HR HH _.
  assert (Hempty : data_cache_input a1 = ∅) by (rewrite Hca3, Hca2, Hca1; done).
  apply (fill_caches_memory_only w) in H as (Hw & Hsnap & Hall); try done.
  2:{ intros p key data. rewrite Hempty, lookup_empty. done. }
  split; [done|]. intros d Hd'. rewrite Hd in Hall.
  destruct (Hall d Hd') as (p & b & p' & b' & Ep & Eb & E1 & Ep' & Eb' & E2).
  intros ty [-> | ->].
  - destruct (snapshot_entry w st p b Hsnap E1)
      as (ds & ox & oy & oz & ex & ey & ez & rest & -> & Hds & Hm).
    exists p, ds, ox, oy, oz, ex, ey, ez, rest. unfold path_of_role, bbox_of_role.
    cbn. rewrite Ep, Eb. done.
  - destruct (snapshot_entry w st p' b' Hsnap E2)
      as (ds & ox & oy & oz & ex & ey & ez & rest & -> & Hds & Hm).
    exists p', ds, ox, oy, oz, ex, ey, ez, rest. unfold path_of_role, bbox_of_role.
    cbn. rewrite Ep', Eb'. done.
Qed.

(** X9. The key under which the caches file a box, [str(bbox)], and the
    expression by which [wkw_write_cache] reads a key back,
    [[int(x) for x in bbox[1:-1].split(',')]]: a box that is not the empty
    list is read back as it was filed, the key of the empty list is a
    [ValueError], and two different boxes never share a key. *)
Theorem cache_key_round_trip (l : list Z) :
  (l <> [] -> bbox_from_str (str_of_ints l) = Ok l) /\
  bbox_from_str (str_of_ints []) = Raise ValueError /\
  (forall l', str_of_ints l = str_of_ints l' -> l = l').
Proof.
  split; [apply bbox_from_str_of_ints|]. split; [done|]. apply str_of_ints_inj.
Qed.



(** X11. A hit of the memory tier, for either role: when the entry filed under
    the path and the box of the role holds the cube of a dataset over that
    box, and the box asked for lies inside it, [wkw_read_cached] answers the
    cube of that dataset over the box asked for and leaves the store
    untouched. *)
Theorem memory_hit_is_subcube (self : WkwData) (w : World) (i : nat) (d : DataSource)
    (ty p : string) (ds : Dataset) (ax ay az aex aey aez : Z) (rest : list Z)
    (bx by_ bz ex ey ez : Z) :
  data_sources self !! i = Some d ->
  path_of_role ty d = Some (PStr p) ->
  bbox_of_role ty d = Some (py_ints (ax :: ay :: az :: aex :: aey :: aez :: rest)) ->
  memory_entry self p (ax :: ay :: az :: aex :: aey :: aez :: rest)
    = Some (cube ds (ax, ay, az) (aex, aey, aez)) ->
  box_inside (bx, by_, bz) (ax, ay, az) (ex, ey, ez) (aex, aey, aez) ->
  0 <= ex /\ 0 <= ey /\ 0 <= ez ->
  wkw_read_cached self w (Z.of_nat i) ty [bx; by_; bz; ex; ey; ez]
  = Ok (cube ds (bx, by_, bz) (ex, ey, ez), w).
Proof.
  intros Hd Hp Hb Hmem Hin (Hex & Hey & Hez).
  by apply (wkw_read_cached_hit self w i d ty p ds ax ay az aex aey aez rest).
Qed.

Lemma memory_hit_is_subcube_witness :
  wkw_read_cached ram_dataset example_world (Z.of_nat 0) "target" [1; 2; 0; 3; 2; 2]
  = Ok (cube example_voxels (1, 2, 0) (3, 2, 2), example_world).
Proof.
  apply (memory_hit_is_subcube ram_dataset example_world 0 example_source "target"
           "/data/in" example_voxels 0 0 0 4 4 2 [] 1 2 0 3 2 2).
  - reflexivity.
  - reflexivity.
  - reflexivity.
  - vm_compute. reflexivity.
  - unfold box_inside. lia.
  - lia.
Defined.

(** X12. Construction with the memory tier alone files, for every source, the
    cube of its input path over its input box and the cube of its target path
    over its target box, as the store holds them at that time; it leaves the
    datasets of the store as they were. *)
Theorem construction_fills_memory_tier (input_shape0 target_shape0 : vec3)
    (D : list DataSource) (split : option DataSplit) (stride0 : option vec3) (nrm : bool)
    (tr : option transform) (pad0 : bool) (root : option string) (w w' : World)
    (permutation : list Z -> list Z) (st : WkwData) :
  init input_shape0 target_shape0 D split stride0 nrm tr pad0 true false root w permutation
    = Ok (st, w') ->
  datasets w' = datasets w /\
  forall d, d ∈ D ->
    exists p ds ox oy oz ex ey ez rest p' ds' ox' oy' oz' ex' ey' ez' rest',
      input_path d = PStr p /\
      input_bbox d = py_ints (ox :: oy :: oz :: ex :: ey :: ez :: rest) /\
      datasets w !! p = Some ds /\
      memory_entry st p (ox :: oy :: oz :: ex :: ey :: ez :: rest)
        = Some (cube ds (ox, oy, oz) (ex, ey, ez)) /\
      target_path d = PStr p' /\
      target_bbox d = py_ints (ox' :: oy' :: oz' :: ex' :: ey' :: ez' :: rest') /\
      datasets w !! p' = Some ds' /\
      memory_entry st p' (ox' :: oy' :: oz' :: ex' :: ey' :: ez' :: rest')
        = Some (cube ds' (ox', oy', oz') (ex', ey', ez')).
Proof.
  intros Hinit.
  destruct (init_memory_only _ _ _ _ _ _ _ _ _ _ _ _ _ Hinit) as (Hw & Hsnap).
  split; [done|]. intros d Hd.
  destruct (Hsnap d Hd "input" (or_introl eq_refl))
    as (p & ds & ox & oy & oz & ex & ey & ez & rest & Hp & Hb & Hds & Hmem).
  destruct (Hsnap d Hd "target" (or_intror eq_refl))
    as (p' & ds' & ox' & oy' & oz' & ex' & ey' & ez' & rest' & Hp' & Hb' & Hds' & Hmem').
  unfold path_of_role, bbox_of_role in *. cbn in Hp, Hb, Hp', Hb'.
  injection Hp as Hp. injection Hb as Hb. injection Hp' as Hp'. injection Hb' as Hb'.
  exists p, ds, ox, oy, oz, ex, ey, ez, rest, p', ds', ox', oy', oz', ex', ey', ez', rest'.
  repeat split; done.
Qed.

Lemma construction_fills_memory_tier_witness :
  datasets ram_world = datasets example_world /\
  forall d, d ∈ [example_source] ->
    exists p ds ox oy oz ex ey ez rest p' ds' ox' oy' oz' ex' ey' ez' rest',
      input_path d = PStr p /\
      input_bbox d = py_ints (ox :: oy :: oz :: ex :: ey :: ez :: rest) /\
      datasets example_world !! p = Some ds /\
      memory_entry ram_dataset p (ox :: oy :: oz :: ex :: ey :: ez :: rest)
        = Some (cube ds (ox, oy, oz) (ex, ey, ez)) /\
      target_path d = PStr p' /\
      target_bbox d = py_ints (ox' :: oy' :: oz' :: ex' :: ey' :: ez' :: rest') /\
      datasets example_world !! p' = Some ds' /\
      memory_entry ram_dataset p' (ox' :: oy' :: oz' :: ex' :: ey' :: ez' :: rest')
        = Some (cube ds' (ox', oy', oz') (ex', ey', ez')).
Proof.
  apply (construction_fills_memory_tier (2, 2, 1) (2, 2, 1) [example_source] None None
           true None false None example_world ram_world (fun l => l) ram_dataset).
  vm_compute. reflexivity.
Defined.

(** ** The disk tier *)

Lemma cube_ext (d d' : Dataset) (ox oy oz ex ey ez : Z) :
  (forall x y z, ox <= x < ox + ex -> oy <= y < oy + ey -> oz <= z < oz + ez ->
                 voxels d x y z = voxels d' x y z) ->
  cube d (ox, oy, oz) (ex, ey, ez) = cube d' (ox, oy, oz) (ex, ey, ez).
Proof.
  intros H. unfold cube. f_equal.
  apply list_fmap_ext. intros i x Hx. apply lookup_seqZ in Hx as [-> Hi].
  apply list_fmap_ext. intros j y Hy. apply lookup_seqZ in Hy as [-> Hj].
  apply list_fmap_ext. intros k z Hz. apply lookup_seqZ in Hz as [-> Hk].
  apply H; lia.
Qed.

Lemma written_cube (d : Dataset) (ox oy oz ex ey ez x y z : Z) :
  ox <= x < ox + ex -> oy <= y < oy + ey -> oz <= z < oz + ez ->
  written (cube d (ox, oy, oz) (ex, ey, ez)) (ox, oy, oz) x y z = Some (voxels d x y z).
Proof.
  intros Hx Hy Hz. unfold written, cube.
  replace ((ox <=? x) && (oy <=? y) && (oz <=? z)) with true by (symmetry; case_Zb).
  cbn [lookup list_lookup mbind option_bind].
  rewrite list_lookup_fmap, (lookup_seqZ_lt ox ex (Z.to_nat (x - ox))) by lia.
  cbn [fmap option_fmap option_map mbind option_bind].
  rewrite list_lookup_fmap, (lookup_seqZ_lt oy ey (Z.to_nat (y - oy))) by lia.
  cbn [fmap option_fmap option_map mbind option_bind].
  rewrite list_lookup_fmap, (lookup_seqZ_lt oz ez (Z.to_nat (z - oz))) by lia.
  cbn [fmap option_fmap option_map]. f_equal. f_equal; lia.
Qed.

Lemma wkw_write_read_back (w w' : World) (cp : string) (src : Dataset)
    (ox oy oz ex ey ez : Z) (rest : list Z) :
  0 <= ex -> 0 <= ey -> 0 <= ez ->
  wkw_write w cp (ox :: oy :: oz :: ex :: ey :: ez :: rest)
    (cube src (ox, oy, oz) (ex, ey, ez)) = Ok w' ->
  (fst <$> wkw_read w' cp (ox :: oy :: oz :: ex :: ey :: ez :: rest))
    = Ok (cube src (ox, oy, oz) (ex, ey, ez)) /\
  forall q, q <> cp -> datasets w' !! q = datasets w !! q.
Proof.
  intros Hex Hey Hez H. unfold wkw_write in H.
  destruct (datasets w !! cp) as [dcur|] eqn:Hcur; [|done].
  cbn [bbox_origin mbind result_bind] in H. injection H as <-. split.
  - erewrite wkw_read_Ok; [|by apply lookup_insert_eq|done..].
    cbn [fmap result_fmap fst]. f_equal. apply cube_ext. intros x y z Hx Hy Hz.
    transitivity (default (voxels dcur x y z)
                    (written (cube src (ox, oy, oz) (ex, ey, ez)) (ox, oy, oz) x y z));
      [reflexivity|]. by rewrite written_cube.
  - intros q Hq. cbn [datasets set_datasets]. by rewrite lookup_insert_ne.
Qed.

(** X13. After a call of [fill_cache] with both tiers on, the two tiers agree:
    the memory tier holds under the path and the box the very cube that a read
    of the disk tier over the box now answers. The call writes under the cache
    path only: every other dataset of the store is as it was. *)
Theorem fill_cache_tiers_agree (self self' : WkwData) (w w' : World) (pv bv : pyval) :
  cache_RAM self = true -> cache_HDD self = true ->
  fill_cache self w pv bv = Ok (self', w') ->
  exists p b data,
    pv = PStr p /\ bv = py_ints b /\
    memory_entry self' p b = Some data /\
    (fst <$> wkw_read w' (os_path_join (cache_HDD_root self) (str_tail p)) b) = Ok data /\
    forall q, q <> os_path_join (cache_HDD_root self) (str_tail p) ->
              datasets w' !! q = datasets w !! q.
Proof.
  intros HR HH H. unfold fill_cache in H. inv_Ok H. inv_Ok H.
  rename a into p, a0 into b. rewrite HH, HR in H. cbn [andb] in H.
  apply as_str_inv in Ha as ->. apply as_ints_inv in Ha0 as ->.
  set (cp := os_path_join (cache_HDD_root self) (str_tail p)) in *.
  inv_Ok H. destruct a as [data w1]. cbn [mbind result_bind] in H.
  assert (Hdata : exists src ox oy oz ex ey ez rest,
            b = ox :: oy :: oz :: ex :: ey :: ez :: rest /\
            0 <= ex /\ 0 <= ey /\ 0 <= ez /\
            data = cube src (ox, oy, oz) (ex, ey, ez) /\ datasets w1 = datasets w).
  { destruct (header_exists w cp).
    - inv_Ok Ha. destruct a as [data1 w2]. inv_Ok Ha. 
      apply wkw_read_inv in Ha0
        as (ds & ox & oy & oz & ex & ey & ez & rest & -> & _ & ? & ? & ? & -> & ->).
      destruct (negb a).
      + apply wkw_read_inv in Ha
          as (ds' & ox' & oy' & oz' & ex' & ey' & ez' & rest' & Hb & _ & _ & _ & _ & -> & ->).
        injection Hb as <- <- <- <- <- <- <-.
        by exists ds', ox, oy, oz, ex, ey, ez, rest.
      + injection Ha as <- <-. by exists ds, ox, oy, oz, ex, ey, ez, rest.
    - apply wkw_read_inv in Ha
        as (ds & ox & oy & oz & ex & ey & ez & rest & -> & _ & ? & ? & ? & -> & ->).
      by exists ds, ox, oy, oz, ex, ey, ez, rest. }
  destruct Hdata as (src & ox & oy & oz & ex & ey & ez & rest & -> & Hex & Hey & Hez
                     & -> & Hw1).
  set (b := ox :: oy :: oz :: ex :: ey :: ez :: rest) in *.
  set (data := cube src (ox, oy, oz) (ex, ey, ez)) in *.
  set (wa := if negb (dir_exists w1 cp) then os_makedirs w1 cp else w1) in *.
  assert (Ewa : datasets wa = datasets w).
  { unfold wa. by destruct (negb (dir_exists w1 cp)). }
  assert (Hst : forall st,
            cache_HDD st = true ->
            memory_entry st p b = Some data ->
            (if cache_HDD st
             then
               (if negb (header_exists wa cp)
                then wkw_header wa p ≫= (fun dtype => Ok (wkw_create wa cp dtype))
                else Ok wa)
               ≫= (fun w2 => wkw_write w2 cp b data)
             else Ok w1) ≫= (fun w2 : World => Ok (st, w2)) = Ok (self', w') ->
            memory_entry self' p b = Some data /\
            (fst <$> wkw_read w' cp b) = Ok data /\
            forall q, q <> cp -> datasets w' !! q = datasets w !! q).
  { intros st Hh Hme Hrun. rewrite Hh in Hrun.
    inv_Ok Hrun. injection Hrun as <- <-. inv_Ok Ha0.
    rename a0 into wb.
    destruct (wkw_write_read_back wb a cp src ox oy oz ex ey ez rest Hex Hey Hez Ha0)
      as (Hread & Hother).
    split; [done|]. split; [done|].
    intros q Hq. rewrite (Hother q Hq).
    destruct (negb (header_exists wa cp)).
    - inv_Ok Ha1. injection Ha1 as <-. cbn [datasets wkw_create set_dirs set_datasets].
      rewrite lookup_insert_ne by done. by rewrite Ewa.
    - injection Ha1 as <-. by rewrite Ewa. }
  exists p, b, data. split; [done|]. split; [done|].
  destruct (data_cache_input self !! p) as [inner|] eqn:Hinner.
  - eapply Hst; [| |exact H]; [by cbn|].
    unfold memory_entry. cbn [data_cache_input set_data_cache_input].
    rewrite lookup_insert_eq. cbn [mbind option_bind]. by rewrite lookup_insert_eq.
  - eapply Hst; [| |exact H]; [by cbn|].
    unfold memory_entry. cbn [data_cache_input set_data_cache_input].
    rewrite lookup_insert_eq. cbn [mbind option_bind]. by rewrite lookup_singleton_eq.
Qed.

Lemma fill_cache_tiers_agree_witness :
  exists p b data,
    PStr "/data/in" = PStr p /\ py_ints [0; 0; 0; 4; 4; 2] = py_ints b /\
    memory_entry
      (match fill_cache example_cached_blank partial_world (PStr "/data/in")
               (py_ints [0; 0; 0; 4; 4; 2]) with
       | Ok (st, _) => st | Raise _ => example_blank end) p b = Some data /\
    (fst <$> wkw_read
               (match fill_cache example_cached_blank partial_world (PStr "/data/in")
                        (py_ints [0; 0; 0; 4; 4; 2]) with
                | Ok (_, v) => v | Raise _ => example_world end)
               (os_path_join (cache_HDD_root example_cached_blank) (str_tail p)) b)
      = Ok data /\
    forall q, q <> os_path_join (cache_HDD_root example_cached_blank) (str_tail p) ->
      datasets (match fill_cache example_cached_blank partial_world (PStr "/data/in")
                        (py_ints [0; 0; 0; 4; 4; 2]) with
                | Ok (_, v) => v | Raise _ => example_world end) !! q
      = datasets partial_world !! q.
Proof.
  apply (fill_cache_tiers_agree example_cached_blank _ partial_world _ (PStr "/data/in")
           (py_ints [0; 0; 0; 4; 4; 2])).
  - reflexivity.
  - reflexivity.
  - vm_compute. reflexivity.
Defined.

(** ** Descriptor files in the long form *)

Lemma DataSource_of_kwargs_asdict (d : DataSource) :
  DataSource_of_kwargs (DataSource_asdict d) = Ok d.
Proof. by destruct d. Qed.

Lemma json_dump_Ok (doc : dict (dict pyval)) :
  (forall k kw f v, (k, kw) ∈ doc -> (f, v) ∈ kw -> json_serializable v = true) ->
  json_dump doc = Ok doc.
Proof.
  intros H. unfold json_dump.
  replace (forallb _ doc) with true; [done|]. symmetry.
  apply forallb_forall. intros [k kw] Hin. apply list_elem_of_In in Hin.
  apply forallb_forall. intros [f v] Hfv. apply list_elem_of_In in Hfv. by eapply H.
Qed.

(** X14. The long form round trip: a list of sources with distinct keys and
    values that JSON can carry, written by [write_short_ds_json] without
    conversion, is read back unchanged by [datasources_from_json], and by
    [read_short_ds_json] as well; the empty list included. *)
Theorem long_ds_round_trip (files : gmap string (dict (dict pyval)))
    (D : list DataSource) (keys : list string) (json_path : string) :
  mapR DataSource_key D = Ok keys ->
  NoDup keys ->
  (forall d v, d ∈ D -> v ∈ DataSource_values d -> json_serializable v = true) ->
  exists files',
    write_short_ds_json files (DsList D) json_path false = Ok files' /\
    datasources_from_json files' json_path = Ok D /\
    read_short_ds_json files' json_path = Ok D.
Proof.
  intros Hkeys Hnd Hser.
  destruct (convert_ds_to_dict_Ok D keys Hkeys Hnd) as [Hdict Hlen].
  set (doc := zip keys (DataSource_asdict <$> D)) in *.
  assert (Hdump : json_dump doc = Ok doc).
  { apply json_dump_Ok. intros k kw f v Hin Hfv.
    apply elem_of_zip_r in Hin. apply list_elem_of_fmap in Hin as (d & -> & Hd).
    apply (Hser d v Hd). by apply (DataSource_asdict_values d f). }
  assert (Hlist : mapR (fun kv : string * dict pyval => DataSource_of_kwargs kv.2) doc
                  = Ok D).
  { unfold doc. clear -Hlen. revert keys Hlen.
    induction D as [|d D IH]; intros [|k keys] Hlen; try done.
    rewrite fmap_cons. cbn [zip zip_with mapR snd].
    rewrite DataSource_of_kwargs_asdict. cbn [mbind result_bind].
    rewrite IH by (simpl in Hlen; lia). done. }
  exists (<[json_path := doc]> files). split; [|split].
  - unfold write_short_ds_json. cbn [mbind result_bind]. rewrite Hdict.
    cbn [mbind result_bind]. by rewrite Hdump.
  - unfold datasources_from_json. rewrite lookup_insert_eq. cbn [mbind result_bind]. done.
  - unfold read_short_ds_json. rewrite lookup_insert_eq. cbn [mbind result_bind].
    assert (Hno : dict_get doc "shared_properties" = None).
    { apply dict_get_None. unfold doc. rewrite fst_zip by (rewrite length_fmap; lia).
      intros Hin. by destruct (DataSource_keys_shape D keys _ Hkeys Hin). }
    rewrite Hno. cbn [mbind result_bind]. done.
Qed.

Lemma long_ds_round_trip_witness :
  exists files',
    write_short_ds_json ∅ (DsList [labelled_source_a; labelled_source_b]) "ds.json" false
      = Ok files' /\
    datasources_from_json files' "ds.json" = Ok [labelled_source_a; labelled_source_b] /\
    read_short_ds_json files' "ds.json" = Ok [labelled_source_a; labelled_source_b].
Proof.
  apply (long_ds_round_trip ∅ [labelled_source_a; labelled_source_b]
           ["datasource_a"; "datasource_b"] "ds.json").
  - reflexivity.
  - compute_done.
  - intros d v Hd Hv.
    apply elem_of_cons in Hd as [->|Hd]; [|apply list_elem_of_singleton in Hd as ->].
    + revert v Hv. apply Forall_forall. by repeat constructor.
    + revert v Hv. apply Forall_forall. by repeat constructor.
Defined.

(** ** Sources that share an id *)

Lemma dict_get_snoc {V} (d : dict V) (k k' : string) (v' : V) :
  dict_get (d ++ [(k', v')]) k =
  match dict_get d k with
  | Some v => Some v
  | None => if String.eqb k' k then Some v' else None
  end.
Proof.
  induction d as [|[k0 v0] d IH]; simpl; [done|].
  destruct (String.eqb k0 k); [done|apply IH].
Qed.

(** A dictionary built by successive assignments: its keys are those
    assigned, each once, and a key holds the value assigned last. *)
Lemma dict_update_last {V} (d other : dict V) :
  NoDup d.*1 ->
  NoDup (dict_update d other).*1 /\
  (forall k, k ∈ (dict_update d other).*1 <-> k ∈ d.*1 \/ k ∈ other.*1) /\
  (forall k, dict_get (dict_update d other) k =
             match dict_get (reverse other) k with
             | Some v => Some v
             | None => dict_get d k
             end).
Proof.
  unfold dict_update. revert d. induction other as [|[k' v'] other IH]; intros d Hnd.
  - simpl. split; [done|]. split; [|done]. intros k. split; [auto|].
    intros [H|H]; [done|by apply elem_of_nil in H].
  - cbn [fold_left fst snd].
    destruct (IH (dict_set k' v' d) (dict_set_NoDup d k' v' Hnd)) as (H1 & H2 & H3).
    split; [done|]. split.
    + intros k. rewrite H2, dict_set_keys, fmap_cons, elem_of_cons. cbn [fst]. tauto.
    + intros k. rewrite H3, reverse_cons, dict_get_snoc, dict_get_set.
      destruct (dict_get (reverse other) k); [done|].
      by destruct (String.eqb k' k).
Qed.

Lemma dict_get_reverse_last {V} (l : dict V) (i : nat) (k : string) (v : V) :
  l !! i = Some (k, v) ->
  (forall j kv, (i < j)%nat -> l !! j = Some kv -> kv.1 <> k) ->
  dict_get (reverse l) k = Some v.
Proof.
  revert i. induction l as [|[k0 v0] l IH]; intros i Hi Hlast; [done|].
  rewrite reverse_cons, dict_get_snoc. destruct i as [|i].
  - injection Hi as -> ->.
    assert (Hnone : dict_get (reverse l) k = None).
    { apply dict_get_None. intros Hin.
      apply list_elem_of_fmap in Hin as ([k1 v1] & Hk1 & Hin). simpl in Hk1. subst k1.
      rewrite elem_of_reverse in Hin. apply list_elem_of_lookup_1 in Hin as (j & Hj).
      by apply (Hlast (S j) (k, v1) ltac:(lia) Hj). }
    rewrite Hnone. by rewrite String.eqb_refl.
  - rewrite (IH i Hi); [done|]. intros j kv Hj Hkv. apply (Hlast (S j)); [lia|done].
Qed.

Lemma convert_ds_to_dict_items (D : list DataSource) (keys : list string) :
  mapR DataSource_key D = Ok keys ->
  convert_ds_to_dict (DsList D)
    = Ok (dict_of_items (zip keys (DataSource_asdict <$> D))) /\
  length keys = length D.
Proof.
  intros Hk.
  assert (Hitems : mapR (fun d => k ← py_format (id d);
                                  Ok (("datasource_" ++ k)%string, DataSource_asdict d)) D
                   = Ok (zip keys (DataSource_asdict <$> D)) /\ length keys = length D).
  { revert keys Hk. induction D as [|d D IH]; intros keys Hk.
    - simpl in Hk. by injection Hk as <-.
    - cbn [mapR] in Hk. repeat inv_Ok Hk.
      destruct (IH _ Ha0) as [IH1 IH2]. unfold DataSource_key in Ha. repeat inv_Ok Ha.
      cbn [mapR]. rewrite Ha1. cbn [mbind result_bind].
      rewrite IH1. cbn [mbind result_bind]. split; [done|]. simpl. by rewrite IH2. }
  destruct Hitems as [Hitems Hlen]. split; [|done].
  unfold convert_ds_to_dict. by rewrite Hitems.
Qed.

(** X15. [convert_ds_to_dict] keeps one entry per key: the keys of the
    dictionary are those of the sources, each once, and under a key it holds
    the fields of the last source with that key. The dictionary is as long as
    the list exactly when the keys are distinct; otherwise sources are lost. *)
Theorem convert_ds_to_dict_last_wins (D : list DataSource) (keys : list string) :
  mapR DataSource_key D = Ok keys ->
  exists dd,
    convert_ds_to_dict (DsList D) = Ok dd /\
    NoDup dd.*1 /\
    (forall k, k ∈ dd.*1 <-> k ∈ keys) /\
    (forall i k d, keys !! i = Some k -> D !! i = Some d ->
       (forall j k', (i < j)%nat -> keys !! j = Some k' -> k' <> k) ->
       dict_get dd k = Some (DataSource_asdict d)) /\
    (length dd <= length D)%nat /\
    (length dd = length D <-> NoDup keys).
Proof.
  intros Hk. destruct (convert_ds_to_dict_items D keys Hk) as [Hdict Hlen].
  set (items := zip keys (DataSource_asdict <$> D)) in *.
  assert (Hfst : items.*1 = keys) by (unfold items; rewrite fst_zip; [done|rewrite length_fmap; lia]).
  destruct (dict_update_last [] items (NoDup_nil_2)) as (Hnd & Hkeys & Hget).
  fold (dict_of_items items) in Hnd, Hkeys, Hget.
  exists (dict_of_items items). split; [done|]. split; [done|].
  assert (Hk' : forall k, k ∈ (dict_of_items items).*1 <-> k ∈ keys).
  { intros k. rewrite Hkeys, Hfst. split; [intros [H|H]; [by apply elem_of_nil in H|done]|auto]. }
  split; [done|].
  assert (Hsub : (dict_of_items items).*1 ⊆+ keys).
  { apply NoDup_submseteq; [done|]. intros k. by rewrite Hk'. }
  assert (Hle : (length (dict_of_items items) <= length D)%nat).
  { apply submseteq_length in Hsub. rewrite length_fmap in Hsub. lia. }
  split.
  { intros i k d Hi Hd Hlast. rewrite Hget.
    erewrite (dict_get_reverse_last items i k); [done| |].
    - unfold items. apply lookup_zip_with_Some. exists k, (DataSource_asdict d).
      split; [done|]. split; [done|]. by rewrite list_lookup_fmap, Hd.
    - intros j [k1 v1] Hj Hkv. apply (Hlast j k1 Hj).
      rewrite <- Hfst, list_lookup_fmap, Hkv. done. }
  split; [done|]. split.
  - intros Heq. assert (Hp : (dict_of_items items).*1 ≡ₚ keys).
    { apply submseteq_length_Permutation; [done|]. rewrite length_fmap. lia. }
    by rewrite <- Hp.
  - intros Hndk. assert (Hp : (dict_of_items items).*1 ≡ₚ keys).
    { apply NoDup_Permutation; done. }
    apply Permutation_length in Hp. rewrite length_fmap in Hp. lia.
Qed.

Lemma convert_ds_to_dict_last_wins_witness :
  exists dd,
    convert_ds_to_dict (DsList [example_source; three_cell_source]) = Ok dd /\
    NoDup dd.*1 /\
    (forall k, k ∈ dd.*1 <-> k ∈ ["datasource_0"; "datasource_0"]) /\
    (forall i k d, ["datasource_0"; "datasource_0"] !! i = Some k ->
       [example_source; three_cell_source] !! i = Some d ->
       (forall j k', (i < j)%nat -> ["datasource_0"; "datasource_0"] !! j = Some k' ->
                     k' <> k) ->
       dict_get dd k = Some (DataSource_asdict d)) /\
    (length dd <= length [example_source; three_cell_source])%nat /\
    (length dd = length [example_source; three_cell_source]
     <-> NoDup ["datasource_0"; "datasource_0"]).
Proof.
  apply (convert_ds_to_dict_last_wins [example_source; three_cell_source]
           ["datasource_0"; "datasource_0"]).
  reflexivity.
Defined.

(** ** Concatenation of descriptor files *)

Lemma str_of_Z_inj (a b : Z) : str_of_Z a = str_of_Z b -> a = b.
Proof.
  intros H. destruct (int_of_string_str_of_Z a) as (da & Ha & <-).
  destruct (int_of_string_str_of_Z b) as (db & Hb & <-). congruence.
Qed.

Lemma mapR_Raise {A B} (g : A -> result B) (l : list A) (e : exn) :
  mapR g l = Raise e -> exists a, a ∈ l /\ g a = Raise e.
Proof.
  induction l as [|a l IH]; [done|]. cbn [mapR].
  destruct (g a) as [b|e'] eqn:Ha.
  - cbn [mbind result_bind]. destruct (mapR g l) as [bs|e'']; [done|].
    intros [= <-]. destruct (IH eq_refl) as (a' & Hin & Ha').
    exists a'. split; [by apply list_elem_of_further|done].
  - intros [= <-]. exists a. split; [apply list_elem_of_here|done].
Qed.

Lemma concat_loop (files : gmap string (dict (dict pyval))) (paths : list string)
    (acc : list DataSource) :
  foldR (fun all_ds json_path =>
           cur_ds ← datasources_from_json files json_path; Ok (all_ds ++ cur_ds))
        paths acc
  = (lists ← mapR (datasources_from_json files) paths; Ok (acc ++ concat lists)).
Proof.
  revert acc. induction paths as [|p paths IH]; intros acc; cbn [foldR mapR].
  - cbn. by rewrite app_nil_r.
  - destruct (datasources_from_json files p) as [cur|e]; [|done].
    cbn [mbind result_bind]. rewrite IH.
    destruct (mapR (datasources_from_json files) paths) as [lists|e]; [|done].
    cbn [mbind result_bind concat]. by rewrite app_assoc.
Qed.

(** X16. [concat_datasources] (without output file) answers the sources of
    the files in order, each with its fields unchanged but for the id, which
    is the text of its position: 0, 1, 2, ... The keys of the answer are
    distinct, and looking the id of a position up gives the position back.
    When the reading of a file fails, the call fails with the same
    exception. *)
Theorem concat_datasources_renumbers (files : gmap string (dict (dict pyval)))
    (json_paths_in : list string) :
  match concat_datasources files json_paths_in with
  | Ok out =>
      exists lists keys,
        mapR (datasources_from_json files) json_paths_in = Ok lists /\
        length out = length (concat lists) /\
        (forall i d, concat lists !! i = Some d ->
           out !! i = Some (replace_id d (PStr (str_of_Z (Z.of_nat i))))) /\
        mapR DataSource_key out = Ok keys /\ NoDup keys /\
        (forall self i, data_sources self = out -> (i < length out)%nat ->
           datasource_id_to_idx self (PStr (str_of_Z (Z.of_nat i))) = Ok i)
  | Raise e =>
      exists p, p ∈ json_paths_in /\ datasources_from_json files p = Raise e
  end.
Proof.
  unfold concat_datasources. rewrite concat_loop.
  destruct (mapR (datasources_from_json files) json_paths_in) as [lists|e] eqn:Hl.
  2:{ cbn [mbind result_bind]. by apply mapR_Raise. }
  cbn [mbind result_bind app]. set (all := concat lists).
  set (out := imap _ all).
  assert (Hlook : forall i d, all !! i = Some d ->
            out !! i = Some (replace_id d (PStr (str_of_Z (Z.of_nat i))))).
  { intros i d Hd. unfold out. by rewrite list_lookup_imap, Hd. }
  assert (Hids : id <$> out = (fun i : nat => PStr (str_of_Z (Z.of_nat i)))
                                <$> seq 0 (length all)).
  { unfold out. rewrite fmap_imap. rewrite <- imap_seq_0. by apply imap_ext. }
  assert (Hkeys : mapR DataSource_key out =
            Ok ((fun i : nat => ("datasource_" ++ str_of_Z (Z.of_nat i))%string)
                  <$> seq 0 (length all))).
  { assert (Hgen : forall (l : list DataSource) (f : nat -> DataSource -> DataSource)
                          (g : nat -> DataSource -> string),
              (forall i d, DataSource_key (f i d) = Ok (g i d)) ->
              mapR DataSource_key (imap f l) = Ok (imap g l)).
    { clear. induction l as [|d l IH]; intros f g Hfg; [done|].
      cbn [imap mapR]. rewrite Hfg. cbn [mbind result_bind].
      rewrite (IH (f ∘ S) (g ∘ S)); [done|]. intros i d'. apply Hfg. }
    unfold out. rewrite <- (imap_seq_0 all). by apply Hgen. }
  exists lists, ((fun i : nat => ("datasource_" ++ str_of_Z (Z.of_nat i))%string)
                   <$> seq 0 (length all)).
  split; [done|]. split; [by unfold out; rewrite length_imap|]. split; [done|].
  split; [done|]. split.
  - apply NoDup_fmap_2_strong; [|apply NoDup_seq].
    intros i j _ _ Hij. injection Hij as Hij. apply str_of_Z_inj in Hij. lia.
  - intros self i Hself Hi. unfold datasource_id_to_idx. rewrite Hself, Hids.
    unfold out in Hi. rewrite length_imap in Hi.
    apply py_list_index_Ok. split.
    + eexists. rewrite list_lookup_fmap, lookup_seq_lt by done. split; [done|].
      cbn. apply String.eqb_refl.
    + intros j b Hj Hb. rewrite list_lookup_fmap, lookup_seq_lt in Hb by lia.
      injection Hb as <-. cbn. apply String.eqb_neq. intros Hs.
      apply str_of_Z_inj in Hs. lia.
Qed.

(** ** Sub-boxes of a source *)











